(** * mwalto7/vault: the Cubbyhole, KVv1 and KVv2 secrets-engine clients

    A shallow embedding of [secrets/cubbyhole/client.go],
    [secrets/kv/v1/client.go] and [secrets/kv/v2/client.go], together with
    the pieces of Go's standard library and of [mitchellh/mapstructure]
    (v1.3.3, the version pinned in go.mod) that those files call.

    Conventions.
    - A Go [string] is a byte sequence: [String.string].
    - A Go [int] is a [Z]; the clients do no arithmetic on it.
    - A Go map or slice value is an [option]: [None] is the nil map or nil
      slice, [Some] an allocated one.  A map's entries are kept as an
      association list whose order stands for the order in which this run
      iterates over the map (Go leaves it unspecified, and mapstructure's
      case-insensitive key search depends on it).
    - A method with a pointer receiver is a computation over a [State]
      that holds the receiver, the process environment and the list of
      calls made through the [LogicalClient] interface so far. *)

From Stdlib Require Import ZArith List String Ascii Bool Lia.
From Stdlib Require Import SpecFloat DecimalString DecimalZ DecimalPos.
Import ListNotations.
Local Open Scope string_scope.
Local Open Scope Z_scope.
Set Warnings "-register-all".

(** ** Go's [path] package *)
Module GoPath.

  (** [strings.Split(s, "/")]. *)
Fixpoint split (s : string) : list string :=
  match s with
  | EmptyString => [EmptyString]
  | String c rest =>
      if Ascii.eqb c "/"%char then EmptyString :: split rest
      else match split rest with
           | h :: t => String c h :: t
           | [] => [String c EmptyString]
           end
  end.

  (** One path element processed by [path.Clean]; [stack] holds the elements
      kept so far, the last one first. *)
Definition keep (rooted : bool) (stack : list string) (elem : string) : list string :=
  if String.eqb elem "" || String.eqb elem "." then stack
  else if String.eqb elem ".." then
    match stack with
    | top :: below => if String.eqb top ".." then elem :: stack else below
    | [] => if rooted then [] else [elem]
    end
  else elem :: stack.

  (** [path.Clean]: multiple slashes become one, [.] elements go, an inner
      [..] goes with the element before it, a [..] that begins a rooted path
      goes; the empty result is ["."]. *)
Definition Clean (p : string) : string :=
  let rooted := match p with String "/"%char _ => true | _ => false end in
  let body := String.concat "/" (rev (fold_left (keep rooted) (split p) [])) in
  if rooted then "/" ++ body
  else if String.eqb body "" then "." else body.

  (** [path.Join]: the elements from the first non-empty one on, joined by
      slashes and cleaned; the empty string when every element is empty. *)
Fixpoint Join (elem : list string) : string :=
  match elem with
  | [] => ""
  | e :: rest => if String.eqb e "" then Join rest
                 else Clean (String.concat "/" elem)
  end.

End GoPath.

(** [var pathJoin = path.Join], declared by each of the three packages. *)
Definition pathJoin : list string -> string := GoPath.Join.

(** [strconv.Itoa]. *)
Definition Itoa (n : Z) : string := NilZero.string_of_int (Z.to_int n).

(** ** Dynamic values: what an [interface{}] of a payload or of a response
    envelope can hold in this model *)
Inductive value : Type :=
| VNil                                            (* nil *)
| VBool (b : bool)                                (* bool *)
| VInt (n : Z)                                    (* int *)
| VFloat (f : spec_float)                         (* float64 *)
| VString (s : string)                            (* string *)
| VSlice (l : option (list value))                (* []interface{} *)
| VStrings (l : option (list string))             (* []string *)
| VInts (l : option (list Z))                     (* []int *)
| VMap (m : option (list (string * value))).      (* map[string]interface{} *)

(** The entries of a [map[string]interface{}]. *)
Definition dict : Type := list (string * value).
(** A [map[string]interface{}] value: nil, or allocated with its entries. *)
Definition gomap : Type := option dict.

(** [len(m)] of a map. *)
Definition len (m : gomap) : nat :=
  match m with None => O | Some d => List.length d end.

(** [m[k]] with the comma-ok flag: the entry stored under exactly [k]. *)
Fixpoint index {V} (d : list (string * V)) (k : string) : option V :=
  match d with
  | [] => None
  | (k', v) :: rest => if String.eqb k' k then Some v else index rest k
  end.

(** [m[k] = v] on an allocated map. *)
Fixpoint assign {V} (d : list (string * V)) (k : string) (v : V) : list (string * V) :=
  match d with
  | [] => [(k, v)]
  | (k', v') :: rest =>
      if String.eqb k' k then (k, v) :: rest else (k', v') :: assign rest k v
  end.

(** ** Errors *)

(** The [error] values of the model.  The two exported sentinels of package
    cubbyhole are constructors of their own, so that comparing with them is
    comparing identities; [errors_New] is any other [errors.New(msg)].  A
    [mapstructure_Error] lists the names under which the decoder reported a
    fault (the message texts are left out). *)
Inductive error : Type :=
| ErrEmptyPath                                     (* errors.New("cubbyhole: path is empty") *)
| ErrNoSecretData                                  (* errors.New("cubbyhole: no secret data") *)
| errors_New (msg : string)
| PathError (Op Path : string) (Err : error)       (* &os.PathError{Op, Path, Err} *)
| mapstructure_Error (Errors : list string).

(** [errors.Unwrap]: only [*os.PathError] has an [Unwrap] method here. *)
Definition errors_Unwrap (err : error) : option error :=
  match err with
  | PathError _ _ e => Some e
  | _ => None
  end.

Definition error_eq_dec (a b : error) : {a = b} + {a <> b}.
Proof.
  decide equality; try apply string_dec.
  apply (list_eq_dec string_dec).
Defined.

(** [errors.Is(err, target)]: [err] or an error in its chain is [target]. *)
Fixpoint errors_Is (err target : error) : bool :=
  if error_eq_dec err target then true
  else match err with
       | PathError _ _ e => errors_Is e target
       | _ => false
       end.

(** ** The transport: [vault.LogicalClient] and [api.Secret] *)
Module vault.

  (** [api.Secret]; the clients read no field but [Data]. *)
Record Secret : Type := { Data : gomap }.

  (** What a method of the interface returns: a pointer to an [api.Secret]
      (nil or not) and an [error] (nil or not). *)
Definition Response : Type := (option Secret * option error)%type.

  (** [map[string][]string], the query data of [ReadWithData]. *)
Definition Values : Type := list (string * list string).

Record LogicalClient : Type := {
  Read : string -> Response;
  ReadWithData : string -> Values -> Response;
  List : string -> Response;
  Write : string -> gomap -> Response;
  Delete : string -> Response;
  DeleteWithData : string -> Values -> Response;
  Unwrap : string -> Response
}.

End vault.

(** One call through the interface, with its arguments. *)
Inductive Call : Type :=
| CallRead (path : string)
| CallReadWithData (path : string) (data : vault.Values)
| CallList (path : string)
| CallWrite (path : string) (data : gomap)
| CallDelete (path : string)
| CallDeleteWithData (path : string) (data : vault.Values)
| CallUnwrap (wrappingToken : string).

(** The answer of a client to a call. *)
Definition answer (cl : vault.LogicalClient) (k : Call) : vault.Response :=
  match k with
  | CallRead p => vault.Read cl p
  | CallReadWithData p d => vault.ReadWithData cl p d
  | CallList p => vault.List cl p
  | CallWrite p d => vault.Write cl p d
  | CallDelete p => vault.Delete cl p
  | CallDeleteWithData p d => vault.DeleteWithData cl p d
  | CallUnwrap t => vault.Unwrap cl t
  end.

(** ** The receiver and the computations over it *)

(** [type Client struct { mountPath string; client vault.LogicalClient }]:
    the three packages declare the same struct. *)
Record Client : Type := {
  mountPath : string;
  client : option vault.LogicalClient
}.

(** [NewClient(path, client)], the same in the three packages. *)
Definition NewClient (path : string) (cl : option vault.LogicalClient) : Client :=
  {| mountPath := path; client := cl |}.

(** The receiver [c], what [api.NewClient(api.DefaultConfig())] gives in this
    process environment, and the calls made through the interface so far
    (the latest last). *)
Record State : Type := {
  self : Client;
  api_NewClient : error + vault.LogicalClient;
  calls : list Call
}.

(** A method body: it ends with an error or with a value, and leaves a
    state. *)
Definition M (A : Type) : Type := State -> (error + A) * State.

Definition ret {A} (a : A) : M A := fun s => (inr a, s).
Definition fail {A} (e : error) : M A := fun s => (inl e, s).
Definition bind {A B} (m : M A) (k : A -> M B) : M B :=
  fun s => match m s with
           | (inl e, s') => (inl e, s')
           | (inr a, s') => k a s'
           end.

Notation "x <- m ;; k" := (bind m (fun x => k))
  (at level 61, m at next level, right associativity).
Notation "m ;;; k" := (bind m (fun _ => k))
  (at level 61, right associativity).

(** [c.mountPath] and [c.mountPath = p]. *)
Definition getMountPath : M string := fun s => (inr (mountPath (self s)), s).
Definition setMountPath (p : string) : M unit := fun s =>
  (inr tt, {| self := {| mountPath := p; client := client (self s) |};
              api_NewClient := api_NewClient s; calls := calls s |}).

(** [func (c *Client) vaultClient() (vault.LogicalClient, error)], the same
    in the three packages: the injected client, or one built from the
    environment and kept in [c.client]. *)
Definition vaultClient : M vault.LogicalClient := fun s =>
  match client (self s) with
  | Some cl => (inr cl, s)
  | None =>
      match api_NewClient s with
      | inl err => (inl err, s)
      | inr cl =>
          (inr cl, {| self := {| mountPath := mountPath (self s); client := Some cl |};
                      api_NewClient := api_NewClient s; calls := calls s |})
      end
  end.

(** [secret, err := client.<Method>(...)] followed by
    [if err != nil { return ..., err }]: the call is recorded, an error of
    the transport ends the method. *)
Definition call (cl : vault.LogicalClient) (k : Call) : M (option vault.Secret) := fun s =>
  let s' := {| self := self s; api_NewClient := api_NewClient s;
               calls := calls s ++ [k] |} in
  match answer cl k with
  | (_, Some err) => (inl err, s')
  | (secret, None) => (inr secret, s')
  end.

(** [secret == nil || len(secret.Data) == 0]. *)
Definition noData (secret : option vault.Secret) : bool :=
  match secret with
  | None => true
  | Some sec => Nat.eqb (len (vault.Data sec)) 0
  end.

(** The [Data] of a response that passed the test above. *)
Definition dataOf (secret : option vault.Secret) : gomap :=
  match secret with
  | None => None
  | Some sec => vault.Data sec
  end.

(** ** [github.com/mitchellh/mapstructure], as [mapstructure.Decode] uses it

    [Decode] runs a decoder with the default configuration: tag name
    [mapstructure], no weakly typed input, no decode hook, no zeroing of
    fields.  The target is a freshly declared (zero) variable in every call
    of the clients, so a decoder below returns the value the target holds
    afterwards, with the names of the faults met on the way. *)
Module mapstructure.

Definition decoded (T : Type) : Type := (T * list string)%type.

Definition lower (c : ascii) : ascii :=
  let n := nat_of_ascii c in
  if (Nat.leb 65 n && Nat.leb n 90)%bool then ascii_of_nat (n + 32) else c.

  (** [s] without the leading bytes [bs], when it starts with them. *)
Fixpoint stripBytes (bs : list nat) (s : string) : option string :=
  match bs with
  | [] => Some s
  | b :: bs' =>
      match s with
      | String c rest => if Nat.eqb (nat_of_ascii c) b then stripBytes bs' rest else None
      | EmptyString => None
      end
  end.

  (** [strings.EqualFold(key, fieldName)] for a [fieldName] of ASCII
      characters (every field name and tag of the clients is): equality of
      the two strings under Unicode simple case folding.  An ASCII letter
      folds with its other case; beyond that only [k] and [s] have a third
      form, U+212A (bytes E2 84 AA) and U+017F (bytes C5 BF). *)
Fixpoint EqualFold (key fieldName : string) : bool :=
  match fieldName with
  | EmptyString => match key with EmptyString => true | _ => false end
  | String f fieldName' =>
      match key with
      | EmptyString => false
      | String k key' =>
          if Nat.ltb (nat_of_ascii k) 128 then
            Ascii.eqb (lower k) (lower f) && EqualFold key' fieldName'
          else
            match stripBytes [226; 132; 170]%nat key with
            | Some rest => Ascii.eqb (lower f) "k"%char && EqualFold rest fieldName'
            | None =>
                match stripBytes [197; 191]%nat key with
                | Some rest => Ascii.eqb (lower f) "s"%char && EqualFold rest fieldName'
                | None => false
                end
            end
      end
  end.

  (** The slower search of [decodeStructFromMap]: the first key, in
      iteration order, that equals the field name up to case. *)
Fixpoint search (d : dict) (fieldName : string) : option value :=
  match d with
  | [] => None
  | (k, v) :: rest => if EqualFold k fieldName then Some v else search rest fieldName
  end.

  (** The map entry a struct field is decoded from: the one under the field
      name itself, else the one the search finds. *)
Definition field (d : dict) (fieldName : string) : option value :=
  match index d fieldName with
  | Some v => Some v
  | None => search d fieldName
  end.

  (** The name a fault of a field is reported under. *)
Definition qualify (name fieldName : string) : string :=
  if String.eqb name "" then fieldName else name ++ "." ++ fieldName.

  (** [d.decode]: a nil input sets nothing; otherwise the decoder of the
      target's kind runs. *)
Definition decode {T} (zero : T) (kind : string -> value -> decoded T)
    (name : string) (input : value) : decoded T :=
  match input with
  | VNil => (zero, [])
  | _ => kind name input
  end.

  (** [int64(f)] of a float64: truncation towards zero; out of range, for
      an infinity and for a NaN the result is that of amd64. *)
Definition int64 (f : spec_float) : Z :=
  match f with
  | S754_zero _ => 0
  | S754_finite sign m e =>
      let mag := if 0 <=? e then Zpos m * 2 ^ e else Zpos m / 2 ^ (- e) in
      let v := if sign then - mag else mag in
      if (- 2 ^ 63 <=? v) && (v <? 2 ^ 63) then v else - 2 ^ 63
  | _ => - 2 ^ 63
  end.

Definition decodeBool (name : string) (data : value) : decoded bool :=
  match data with
  | VBool b => (b, [])
  | _ => (false, [name])
  end.

Definition decodeInt (name : string) (data : value) : decoded Z :=
  match data with
  | VInt n => (n, [])
  | VFloat f => (int64 f, [])
  | _ => (0, [name])
  end.

Definition decodeString (name : string) (data : value) : decoded string :=
  match data with
  | VString s => (s, [])
  | _ => ("", [name])
  end.

  (** [decodeBasic], the decoder of an [interface{}] target. *)
Definition decodeBasic (name : string) (data : value) : decoded value := (data, []).

  (** The input of [decodeSlice] seen as a slice; [None] when its kind is
      neither slice nor array. *)
Definition elements (data : value) : option (option (list value)) :=
  match data with
  | VSlice l => Some l
  | VStrings l => Some (option_map (map VString) l)
  | VInts l => Some (option_map (map VInt) l)
  | _ => None
  end.

Fixpoint decodeElems {T} (zero : T) (kind : string -> value -> decoded T)
    (name : string) (i : nat) (l : list value) : decoded (list T) :=
  match l with
  | [] => ([], [])
  | x :: rest =>
      let '(v, e) := decode zero kind (name ++ "[" ++ Itoa (Z.of_nat i) ++ "]") x in
      let '(vs, es) := decodeElems zero kind name (S i) rest in
      (v :: vs, (e ++ es)%list)
  end.

  (** [decodeSlice]: a nil slice stays nil, an allocated one is decoded
      element by element into a slice of the same length. *)
Definition decodeSlice {T} (zero : T) (kind : string -> value -> decoded T)
    (name : string) (data : value) : decoded (option (list T)) :=
  match elements data with
  | None => (None, [name])
  | Some None => (None, [])
  | Some (Some l) => let '(vs, es) := decodeElems zero kind name 0%nat l in (Some vs, es)
  end.

  (** The loop of [decodeMapFromMap]: an entry whose value fails to decode
      is left out. *)
Fixpoint decodeEntries {T} (zero : T) (kind : string -> value -> decoded T)
    (name : string) (d : dict) (valMap : list (string * T)) : decoded (list (string * T)) :=
  match d with
  | [] => (valMap, [])
  | (k, v) :: rest =>
      let '(x, e) := decode zero kind (name ++ "[" ++ k ++ "]") v in
      match e with
      | [] => decodeEntries zero kind name rest (assign valMap k x)
      | _ => let '(res, es) := decodeEntries zero kind name rest valMap in (res, (e ++ es)%list)
      end
  end.

  (** [decodeMap] into a nil map: a nil map stays nil, an allocated one is
      decoded entry by entry. *)
Definition decodeMap {T} (zero : T) (kind : string -> value -> decoded T)
    (name : string) (data : value) : decoded (option (list (string * T))) :=
  match data with
  | VMap None => (None, [])
  | VMap (Some d) => let '(res, es) := decodeEntries zero kind name d [] in (Some res, es)
  | _ => (None, [name])
  end.

  (** One field of the loop of [decodeStructFromMap]: no entry for it, and
      the field keeps its zero value. *)
Definition decodeField {T} (zero : T) (kind : string -> value -> decoded T)
    (d : dict) (name fieldName : string) : decoded T :=
  match field d fieldName with
  | None => (zero, [])
  | Some v => decode zero kind (qualify name fieldName) v
  end.

  (** [decodeStruct]: only a map decodes into a struct. *)
Definition decodeStruct {T} (zero : T) (fromMap : string -> dict -> decoded T)
    (name : string) (data : value) : decoded T :=
  match data with
  | VMap (Some d) => fromMap name d
  | VMap None => fromMap name []
  | _ => (zero, [name])
  end.

  (** [mapstructure.Decode(input, &aux)] for a map input and a struct
      target: the faults, if any, come back as one error. *)
Definition Decode {T} (zero : T) (fromMap : string -> dict -> decoded T)
    (input : gomap) : error + T :=
  match decodeStruct zero fromMap "" (VMap input) with
  | (aux, []) => inr aux
  | (_, errs) => inl (mapstructure_Error errs)
  end.

End mapstructure.

(** The auxiliary target [struct { Keys []string `mapstructure:"keys"` }]
    of the list operations. *)
Definition keysFromMap (name : string) (d : dict) : mapstructure.decoded (option (list string)) :=
  mapstructure.decodeField None
    (mapstructure.decodeSlice "" mapstructure.decodeString) d name "keys".

(** ** Package cubbyhole *)
Module cubbyhole.

Definition defaultMountPath : string := "/cubbyhole".

Definition DefaultClient : Client := NewClient defaultMountPath None.

Definition secretPath (path : string) : M string :=
  if String.eqb path "" then fail ErrEmptyPath
  else
    mount <- getMountPath ;;
    (if String.eqb mount "" then setMountPath defaultMountPath else ret tt) ;;;
    mount <- getMountPath ;;
    ret (pathJoin [mount; path]).

Definition ReadSecret (path : string) : M gomap :=
  path <- secretPath path ;;
  client <- vaultClient ;;
  secret <- call client (CallRead path) ;;
  if noData secret
  then fail (PathError "ReadSecret" path ErrNoSecretData)
  else ret (dataOf secret).

Definition ListSecrets (path : string) : M (option (list string)) :=
  path <- secretPath path ;;
  client <- vaultClient ;;
  secret <- call client (CallList path) ;;
  if noData secret
  then fail (PathError "ListSecrets" path ErrNoSecretData)
  else
    match mapstructure.Decode None keysFromMap (dataOf secret) with
    | inl err => fail err
    | inr keys => ret keys
    end.

Definition WriteSecret (path : string) (data : gomap) : M unit :=
  path <- secretPath path ;;
  client <- vaultClient ;;
  call client (CallWrite path data) ;;;
  ret tt.

Definition DeleteSecret (path : string) : M unit :=
  path <- secretPath path ;;
  client <- vaultClient ;;
  call client (CallDelete path) ;;;
  ret tt.

End cubbyhole.

(** ** Package kv (v1) *)
Module kv1.

Definition defaultMountPath : string := "/secret".

Definition DefaultClient : Client := NewClient defaultMountPath None.

Definition secretPath (path : string) : M string :=
  if String.eqb path "" then fail (errors_New "vault: secret path is empty")
  else
    mount <- getMountPath ;;
    (if String.eqb mount "" then setMountPath defaultMountPath else ret tt) ;;;
    mount <- getMountPath ;;
    ret (pathJoin [mount; path]).

Definition ReadSecret (path : string) : M gomap :=
  path <- secretPath path ;;
  client <- vaultClient ;;
  secret <- call client (CallRead path) ;;
  if noData secret then ret None else ret (dataOf secret).

Definition ListSecrets (path : string) : M (option (list string)) :=
  path <- secretPath path ;;
  client <- vaultClient ;;
  secret <- call client (CallList path) ;;
  if noData secret then ret None
  else
    match mapstructure.Decode None keysFromMap (dataOf secret) with
    | inl err => fail err
    | inr keys => ret keys
    end.

Definition WriteSecret (path : string) (data : gomap) : M unit :=
  path <- secretPath path ;;
  client <- vaultClient ;;
  call client (CallWrite path data) ;;;
  ret tt.

Definition DeleteSecret (path : string) : M unit :=
  path <- secretPath path ;;
  client <- vaultClient ;;
  call client (CallDelete path) ;;;
  ret tt.

End kv1.

(** ** Package kv (v2) *)
Module kv2.

Definition defaultMountPath : string := "/secret".

Definition DefaultClient : Client := NewClient defaultMountPath None.

  (** [time.Time]: its fields are unexported, so the decoder sets none of
      them. *)
Record Time : Type := { wall : Z; ext : Z }.
Definition zeroTime : Time := {| wall := 0; ext := 0 |}.

  (** [SecretConfig]; its fields carry [json] tags only
      ([max_versions], [cas_required], [delete_version_after], each with
      [omitempty]).  [DeleteVersionAfter] is a [time.Duration], an int64. *)
Record SecretConfig : Type := {
  MaxVersions : Z;
  CASRequired : bool;
  DeleteVersionAfter : Z
}.
Definition zeroSecretConfig : SecretConfig :=
  {| MaxVersions := 0; CASRequired := false; DeleteVersionAfter := 0 |}.

  (** [SecretVersion]; [json] tags only. *)
Record SecretVersion : Type := {
  CreatedTime : Time;
  DeletionTime : Time;
  Destroyed : bool;
  Version : Z
}.
Definition zeroSecretVersion : SecretVersion :=
  {| CreatedTime := zeroTime; DeletionTime := zeroTime; Destroyed := false; Version := 0 |}.

  (** [SecretMetadata]; [json] tags only.  [mCreatedTime] and [mMaxVersions]
      are its fields [CreatedTime] and [MaxVersions], whose names the records
      above have taken. *)
Record SecretMetadata : Type := {
  mCreatedTime : Time;
  CurrentVersion : Z;
  mMaxVersions : Z;
  OldestVersion : Z;
  UpdatedTime : Time;
  Versions : option (list (string * SecretVersion))
}.
Definition zeroSecretMetadata : SecretMetadata :=
  {| mCreatedTime := zeroTime; CurrentVersion := 0; mMaxVersions := 0;
     OldestVersion := 0; UpdatedTime := zeroTime; Versions := None |}.

  (** [Secret]; [json] tags only. *)
Record Secret : Type := {
  Data : gomap;
  Metadata : SecretVersion
}.
Definition zeroSecret : Secret := {| Data := None; Metadata := zeroSecretVersion |}.

  (** *** [encoding/json] on a [SecretConfig] *)

  (** The value of a member of the marshalled object. *)
Inductive json : Type :=
| JNumber (n : Z)
| JBool (b : bool).

  (** [json.Marshal(cfg)]: the members of the object, a zero field being
      omitted. *)
Definition json_Marshal (cfg : SecretConfig) : list (string * json) :=
  ((if MaxVersions cfg =? 0 then [] else [("max_versions", JNumber (MaxVersions cfg))])
   ++ (if CASRequired cfg then [("cas_required", JBool true)] else [])
   ++ (if DeleteVersionAfter cfg =? 0 then []
       else [("delete_version_after", JNumber (DeleteVersionAfter cfg))]))%list.

  (** The float64 nearest to an integer (ties to even). *)
Definition float64 (n : Z) : spec_float := binary_normalize 53 1024 n 0 false.

  (** [json.Unmarshal(b, &data)] into a nil [map[string]interface{}]: a map
      is allocated, a number becomes a float64. *)
Definition json_Unmarshal (members : list (string * json)) : gomap :=
  Some (fold_left
          (fun m kv => assign m (fst kv)
                         match snd kv with
                         | JNumber n => VFloat (float64 n)
                         | JBool b => VBool b
                         end)
          members []).

  (** *** The decoders of the structs, field by field: a field without a
      [mapstructure] tag is looked up under its Go name *)

Definition TimeFromMap (name : string) (d : dict) : mapstructure.decoded Time :=
  (zeroTime, []).

Definition decodeTime : string -> value -> mapstructure.decoded Time :=
  mapstructure.decodeStruct zeroTime TimeFromMap.

Definition SecretConfigFromMap (name : string) (d : dict) : mapstructure.decoded SecretConfig :=
  let '(maxVersions, e1) :=
    mapstructure.decodeField 0 mapstructure.decodeInt d name "MaxVersions" in
  let '(casRequired, e2) :=
    mapstructure.decodeField false mapstructure.decodeBool d name "CASRequired" in
  let '(deleteVersionAfter, e3) :=
    mapstructure.decodeField 0 mapstructure.decodeInt d name "DeleteVersionAfter" in
  ({| MaxVersions := maxVersions; CASRequired := casRequired;
      DeleteVersionAfter := deleteVersionAfter |}, (e1 ++ e2 ++ e3)%list).

Definition SecretVersionFromMap (name : string) (d : dict) : mapstructure.decoded SecretVersion :=
  let '(createdTime, e1) := mapstructure.decodeField zeroTime decodeTime d name "CreatedTime" in
  let '(deletionTime, e2) := mapstructure.decodeField zeroTime decodeTime d name "DeletionTime" in
  let '(destroyed, e3) :=
    mapstructure.decodeField false mapstructure.decodeBool d name "Destroyed" in
  let '(version, e4) := mapstructure.decodeField 0 mapstructure.decodeInt d name "Version" in
  ({| CreatedTime := createdTime; DeletionTime := deletionTime;
      Destroyed := destroyed; Version := version |}, (e1 ++ e2 ++ e3 ++ e4)%list).

Definition decodeSecretVersion : string -> value -> mapstructure.decoded SecretVersion :=
  mapstructure.decodeStruct zeroSecretVersion SecretVersionFromMap.

Definition SecretMetadataFromMap (name : string) (d : dict) : mapstructure.decoded SecretMetadata :=
  let '(createdTime, e1) := mapstructure.decodeField zeroTime decodeTime d name "CreatedTime" in
  let '(currentVersion, e2) :=
    mapstructure.decodeField 0 mapstructure.decodeInt d name "CurrentVersion" in
  let '(maxVersions, e3) :=
    mapstructure.decodeField 0 mapstructure.decodeInt d name "MaxVersions" in
  let '(oldestVersion, e4) :=
    mapstructure.decodeField 0 mapstructure.decodeInt d name "OldestVersion" in
  let '(updatedTime, e5) := mapstructure.decodeField zeroTime decodeTime d name "UpdatedTime" in
  let '(versions, e6) :=
    mapstructure.decodeField None
      (mapstructure.decodeMap zeroSecretVersion decodeSecretVersion) d name "Versions" in
  ({| mCreatedTime := createdTime; CurrentVersion := currentVersion;
      mMaxVersions := maxVersions; OldestVersion := oldestVersion;
      UpdatedTime := updatedTime; Versions := versions |},
   (e1 ++ e2 ++ e3 ++ e4 ++ e5 ++ e6)%list).

Definition SecretFromMap (name : string) (d : dict) : mapstructure.decoded Secret :=
  let '(data, e1) :=
    mapstructure.decodeField None
      (mapstructure.decodeMap VNil mapstructure.decodeBasic) d name "Data" in
  let '(metadata, e2) :=
    mapstructure.decodeField zeroSecretVersion decodeSecretVersion d name "Metadata" in
  ({| Data := data; Metadata := metadata |}, (e1 ++ e2)%list).

  (** The auxiliary targets [struct { Data T `mapstructure:"data"` }]. *)
Definition auxFromMap {T} (zero : T) (fromMap : string -> dict -> mapstructure.decoded T)
    (name : string) (d : dict) : mapstructure.decoded T :=
  mapstructure.decodeField zero (mapstructure.decodeStruct zero fromMap) d name "data".

  (** The auxiliary target of [ListSecrets],
      [struct { Data struct { Keys []string `mapstructure:"keys"` } `json:"data"` }]:
      its outer field has no [mapstructure] tag. *)
Definition auxKeysFromMap (name : string) (d : dict) : mapstructure.decoded (option (list string)) :=
  mapstructure.decodeField None (mapstructure.decodeStruct None keysFromMap) d name "Data".

  (** *** The methods *)

Definition secretPath (path : string) (metadata : bool) : M string :=
  if String.eqb path "" then fail (errors_New "kv2: secret path is empty")
  else
    mount <- getMountPath ;;
    (if String.eqb mount "" then setMountPath defaultMountPath else ret tt) ;;;
    mount <- getMountPath ;;
    let fields := [mount] in
    let fields := if metadata then (fields ++ ["metadata"])%list
                  else (fields ++ ["data"])%list in
    ret (pathJoin (fields ++ [path])%list).

Definition SetEngineConfig (cfg : SecretConfig) : M unit :=
  client <- vaultClient ;;
  let b := json_Marshal cfg in
  let data := json_Unmarshal b in
  mount <- getMountPath ;;
  call client (CallWrite (pathJoin [mount; "config"]) data) ;;;
  ret tt.

Definition EngineConfig : M SecretConfig :=
  client <- vaultClient ;;
  mount <- getMountPath ;;
  secret <- call client (CallRead (pathJoin [mount; "config"])) ;;
  if noData secret then ret zeroSecretConfig
  else
    match mapstructure.Decode zeroSecretConfig
            (auxFromMap zeroSecretConfig SecretConfigFromMap) (dataOf secret) with
    | inl err => fail err
    | inr cfg => ret cfg
    end.

Definition ReadSecretVersion (path : string) (version : Z) : M Secret :=
  path <- secretPath path false ;;
  client <- vaultClient ;;
  secret <- (if -1 <? version
             then call client (CallReadWithData path [("version", [Itoa version])])
             else call client (CallRead path)) ;;
  if noData secret then ret zeroSecret
  else
    match mapstructure.Decode zeroSecret (auxFromMap zeroSecret SecretFromMap)
            (dataOf secret) with
    | inl err => fail err
    | inr sec => ret sec
    end.

Definition ReadSecretLatest (path : string) : M Secret :=
  ReadSecretVersion path (-1).

Definition WriteSecretVersion (path : string) (version : Z) (data : gomap) : M SecretVersion :=
  path <- secretPath path false ;;
  client <- vaultClient ;;
  let d := [("data", VMap data)] in
  let d := if -1 <? version
           then assign d "options" (VMap (Some [("cas", VInt version)]))
           else d in
  secret <- call client (CallWrite path (Some d)) ;;
  if noData secret then ret zeroSecretVersion
  else
    match mapstructure.Decode zeroSecretVersion
            (auxFromMap zeroSecretVersion SecretVersionFromMap) (dataOf secret) with
    | inl err => fail err
    | inr ver => ret ver
    end.

Definition WriteSecretLatest (path : string) (data : gomap) : M SecretVersion :=
  WriteSecretVersion path (-1) data.

Definition DeleteSecretLatest (path : string) : M unit :=
  path <- secretPath path false ;;
  client <- vaultClient ;;
  call client (CallDelete path) ;;;
  ret tt.

  (** The variadic [version ...int] is a slice: nil when the caller gives
      no version. *)
Definition DeleteSecretVersion (path : string) (version : option (list Z)) : M unit :=
  client <- vaultClient ;;
  mount <- getMountPath ;;
  let path := pathJoin [mount; "delete"; path] in
  call client (CallWrite path (Some [("versions", VInts version)])) ;;;
  ret tt.

Definition lenInts (version : option (list Z)) : nat :=
  match version with None => O | Some l => List.length l end.

Definition UndeleteSecretVersion (path : string) (version : option (list Z)) : M unit :=
  if Nat.eqb (lenInts version) 0
  then fail (errors_New "kv2: must specify at least one version")
  else
    client <- vaultClient ;;
    mount <- getMountPath ;;
    let path := pathJoin [mount; "undelete"; path] in
    call client (CallWrite path (Some [("versions", VInts version)])) ;;;
    ret tt.

Definition DestroySecretVersion (path : string) (version : option (list Z)) : M unit :=
  if Nat.eqb (lenInts version) 0
  then fail (errors_New "kv2: must specify at least one version")
  else
    client <- vaultClient ;;
    mount <- getMountPath ;;
    let path := pathJoin [mount; "destroy"; path] in
    call client (CallWrite path (Some [("versions", VInts version)])) ;;;
    ret tt.

Definition ListSecrets (path : string) : M (option (list string)) :=
  path <- secretPath path true ;;
  client <- vaultClient ;;
  secret <- call client (CallList path) ;;
  if noData secret then ret None
  else
    match mapstructure.Decode None auxKeysFromMap (dataOf secret) with
    | inl err => fail err
    | inr keys => ret keys
    end.

Definition ReadSecretMetadata (path : string) : M SecretMetadata :=
  path <- secretPath path true ;;
  client <- vaultClient ;;
  secret <- call client (CallList path) ;;
  if noData secret then ret zeroSecretMetadata
  else
    match mapstructure.Decode zeroSecretMetadata
            (auxFromMap zeroSecretMetadata SecretMetadataFromMap) (dataOf secret) with
    | inl err => fail err
    | inr md => ret md
    end.

Definition WriteSecretMetadata (path : string) (cfg : SecretConfig) : M unit :=
  path <- secretPath path true ;;
  client <- vaultClient ;;
  let b := json_Marshal cfg in
  let data := json_Unmarshal b in
  call client (CallWrite path data) ;;;
  ret tt.

Definition DeleteSecretMetadata (path : string) : M unit :=
  path <- secretPath path true ;;
  client <- vaultClient ;;
  call client (CallDelete path) ;;;
  ret tt.

End kv2.

(** ** Vocabulary of the statements *)

(** The client [vaultClient] hands to a method in state [s]: the injected
    one, else the one the environment gives, if it gives one. *)
Definition theClient (s : State) : option vault.LogicalClient :=
  match client (self s) with
  | Some cl => Some cl
  | None => match api_NewClient s with
            | inr cl => Some cl
            | inl _ => None
            end
  end.

(** The mount path a method that defaults it works with. *)
Definition mountOr (dflt : string) (s : State) : string :=
  if String.eqb (mountPath (self s)) "" then dflt else mountPath (self s).

(** The calls a computation adds to those already made. *)
Definition issued {A} (m : M A) (s : State) : list Call :=
  skipn (List.length (calls s)) (calls (snd (m s))).

(** A transport that answers every call with [r]. *)
Definition mock (r : vault.Response) : vault.LogicalClient :=
  {| vault.Read := fun _ => r;
     vault.ReadWithData := fun _ _ => r;
     vault.List := fun _ => r;
     vault.Write := fun _ _ => r;
     vault.Delete := fun _ => r;
     vault.DeleteWithData := fun _ _ => r;
     vault.Unwrap := fun _ => r |}.

(** A response without error that carries the envelope [data]. *)
Definition envelope (data : gomap) : vault.Response :=
  (Some {| vault.Data := data |}, None).

(** A client in a process whose environment yields no transport, before any
    call. *)
Definition start (c : Client) : State :=
  {| self := c;
     api_NewClient := inl (errors_New "api: no client");
     calls := [] |}.

(** The state in which a method that went through [secretPath] and
    [vaultClient] makes its call: the mount path defaulted, the client
    kept. *)
Definition ready (dflt : string) (cl : vault.LogicalClient) (s : State) : State :=
  {| self := {| mountPath := mountOr dflt s; client := Some cl |};
     api_NewClient := api_NewClient s;
     calls := calls s |}.

(** The state after one more call. *)
Definition called (k : Call) (s : State) : State :=
  {| self := self s; api_NewClient := api_NewClient s; calls := calls s ++ [k] |}.

(** The state in which a method that went through [vaultClient] alone makes
    its call: the client kept, the mount path as it was. *)
Definition adopted (cl : vault.LogicalClient) (s : State) : State :=
  {| self := {| mountPath := mountPath (self s); client := Some cl |};
     api_NewClient := api_NewClient s;
     calls := calls s |}.

(** How a mount path may differ between two states: not at all, or it was
    empty and is now the default. *)
Definition mountStep (dflt : string) (s s' : State) : Prop :=
  mountPath (self s') = mountPath (self s)
  \/ (mountPath (self s) = "" /\ mountPath (self s') = dflt).

(** A computation whose every run changes the mount path only that way. *)
Definition respects (dflt : string) {A} (m : M A) : Prop :=
  forall s, mountStep dflt s (snd (m s)).

(** ** Sessions: the methods of one client called one after another *)

(** The calls the methods make: never [DeleteWithData], never [Unwrap]. *)
Definition plain (k : Call) : bool :=
  match k with
  | CallDeleteWithData _ _ | CallUnwrap _ => false
  | _ => true
  end.

(** A computation that makes no call. *)
Definition silent {A} (m : M A) : Prop :=
  forall s, calls (snd (m s)) = calls s.

(** A computation that keeps the calls made and adds at most one, a plain
    one. *)
Definition logs {A} (m : M A) : Prop :=
  forall s, exists new,
    calls (snd (m s)) = (calls s ++ new)%list
    /\ (List.length new <= 1)%nat
    /\ forallb plain new = true.

(** A computation that keeps the transport: the client [vaultClient] hands
    out stays the same, the environment is not touched, an injected client
    is not replaced. *)
Definition keeps {A} (m : M A) : Prop :=
  forall s,
    theClient (snd (m s)) = theClient s
    /\ api_NewClient (snd (m s)) = api_NewClient s
    /\ (forall cl, client (self s) = Some cl -> client (self (snd (m s))) = Some cl).

(** One call of a method of the cubbyhole or of the KVv1 client (the two
    packages export the same four methods). *)
Inductive storeOp : Type :=
| OpReadSecret (path : string)
| OpListSecrets (path : string)
| OpWriteSecret (path : string) (data : gomap)
| OpDeleteSecret (path : string).

(** The state a call leaves. *)
Definition cubbyhole_after (o : storeOp) (s : State) : State :=
  match o with
  | OpReadSecret path => snd (cubbyhole.ReadSecret path s)
  | OpListSecrets path => snd (cubbyhole.ListSecrets path s)
  | OpWriteSecret path data => snd (cubbyhole.WriteSecret path data s)
  | OpDeleteSecret path => snd (cubbyhole.DeleteSecret path s)
  end.

Definition kv1_after (o : storeOp) (s : State) : State :=
  match o with
  | OpReadSecret path => snd (kv1.ReadSecret path s)
  | OpListSecrets path => snd (kv1.ListSecrets path s)
  | OpWriteSecret path data => snd (kv1.WriteSecret path data s)
  | OpDeleteSecret path => snd (kv1.DeleteSecret path s)
  end.

(** One call of a method of the KVv2 client. *)
Inductive kv2Op : Type :=
| OpSetEngineConfig (cfg : kv2.SecretConfig)
| OpEngineConfig
| OpReadSecretLatest (path : string)
| OpReadSecretVersion (path : string) (version : Z)
| OpWriteSecretLatest (path : string) (data : gomap)
| OpWriteSecretVersion (path : string) (version : Z) (data : gomap)
| OpDeleteSecretLatest (path : string)
| OpDeleteSecretVersion (path : string) (version : option (list Z))
| OpUndeleteSecretVersion (path : string) (version : option (list Z))
| OpDestroySecretVersion (path : string) (version : option (list Z))
| OpListSecretsV2 (path : string)
| OpReadSecretMetadata (path : string)
| OpWriteSecretMetadata (path : string) (cfg : kv2.SecretConfig)
| OpDeleteSecretMetadata (path : string).

Definition kv2_after (o : kv2Op) (s : State) : State :=
  match o with
  | OpSetEngineConfig cfg => snd (kv2.SetEngineConfig cfg s)
  | OpEngineConfig => snd (kv2.EngineConfig s)
  | OpReadSecretLatest path => snd (kv2.ReadSecretLatest path s)
  | OpReadSecretVersion path version => snd (kv2.ReadSecretVersion path version s)
  | OpWriteSecretLatest path data => snd (kv2.WriteSecretLatest path data s)
  | OpWriteSecretVersion path version data =>
      snd (kv2.WriteSecretVersion path version data s)
  | OpDeleteSecretLatest path => snd (kv2.DeleteSecretLatest path s)
  | OpDeleteSecretVersion path version => snd (kv2.DeleteSecretVersion path version s)
  | OpUndeleteSecretVersion path version => snd (kv2.UndeleteSecretVersion path version s)
  | OpDestroySecretVersion path version => snd (kv2.DestroySecretVersion path version s)
  | OpListSecretsV2 path => snd (kv2.ListSecrets path s)
  | OpReadSecretMetadata path => snd (kv2.ReadSecretMetadata path s)
  | OpWriteSecretMetadata path cfg => snd (kv2.WriteSecretMetadata path cfg s)
  | OpDeleteSecretMetadata path => snd (kv2.DeleteSecretMetadata path s)
  end.

(** The state after a sequence of calls on the same client. *)
Definition session {Op} (after : Op -> State -> State) (ops : list Op) (s : State) : State :=
  fold_left (fun s o => after o s) ops s.

(** What a method that forwards the transport's verdict returns. *)
Definition verdict (r : vault.Response) : error + unit :=
  match snd r with
  | Some err => inl err
  | None => inr tt
  end.

(** A map has no key twice (every Go map is such). *)
Definition distinctKeys {V} (d : list (string * V)) : Prop := NoDup (map fst d).

(** * Properties *)

(** ** The building blocks *)

Lemma bind_eq {A B} (m : M A) (k : A -> M B) (s : State) :
  bind m k s = match m s with
               | (inl e, s') => (inl e, s')
               | (inr a, s') => k a s'
               end.
Proof. reflexivity. Qed.

Lemma eqb_empty_false (p : string) : p <> "" -> String.eqb p "" = false.
Proof. intro H. now apply String.eqb_neq. Qed.

Lemma skipn_app_exact {A} (l new : list A) : skipn (List.length l) (l ++ new) = new.
Proof. induction l as [|x l IH]; simpl; auto. Qed.

Lemma skipn_length_nil {A} (l : list A) : skipn (List.length l) l = [].
Proof. induction l as [|x l IH]; simpl; auto. Qed.

Arguments pathJoin : simpl never.
Arguments Itoa : simpl never.

Lemma call_ok (cl : vault.LogicalClient) (k : Call) (secret : option vault.Secret) (s : State) :
  answer cl k = (secret, None) -> call cl k s = (inr secret, called k s).
Proof. intro H. unfold call. now rewrite H. Qed.

Lemma call_err (cl : vault.LogicalClient) (k : Call) (secret : option vault.Secret)
    (err : error) (s : State) :
  answer cl k = (secret, Some err) -> call cl k s = (inl err, called k s).
Proof. intro H. unfold call. now rewrite H. Qed.

Lemma call_calls (cl : vault.LogicalClient) (k : Call) (s : State) :
  snd (call cl k s) = called k s.
Proof. unfold call. destruct (answer cl k) as [secret [err|]]; reflexivity. Qed.

Ltac prelude :=
  let mp := fresh "mp" in
  let c := fresh "c" in
  let env := fresh "env" in
  let cs := fresh "cs" in
  let E := fresh "E" in
  intros A k path s cl Hpath Hcl;
  destruct s as [[mp c] env cs];
  unfold theClient in Hcl; cbn in Hcl;
  unfold bind, getMountPath, setMountPath, ret, fail, vaultClient, ready, mountOr;
  rewrite (eqb_empty_false path Hpath); cbn;
  destruct (String.eqb mp "") eqn:E; cbn; rewrite ?E;
  (destruct c as [c|]; [ injection Hcl as ->; reflexivity
                       | destruct env as [err|c]; [ discriminate Hcl
                                                 | injection Hcl as ->; reflexivity ] ]).

Lemma cubbyhole_prelude :
  forall A (k : string -> vault.LogicalClient -> M A) path s cl,
    path <> "" -> theClient s = Some cl ->
    (p <- cubbyhole.secretPath path ;; c <- vaultClient ;; k p c) s
    = k (pathJoin [mountOr cubbyhole.defaultMountPath s; path]) cl
        (ready cubbyhole.defaultMountPath cl s).
Proof. unfold cubbyhole.secretPath. prelude. Qed.

Lemma kv1_prelude :
  forall A (k : string -> vault.LogicalClient -> M A) path s cl,
    path <> "" -> theClient s = Some cl ->
    (p <- kv1.secretPath path ;; c <- vaultClient ;; k p c) s
    = k (pathJoin [mountOr kv1.defaultMountPath s; path]) cl
        (ready kv1.defaultMountPath cl s).
Proof. unfold kv1.secretPath. prelude. Qed.

Lemma kv2_prelude (metadata : bool) :
  forall A (k : string -> vault.LogicalClient -> M A) path s cl,
    path <> "" -> theClient s = Some cl ->
    (p <- kv2.secretPath path metadata ;; c <- vaultClient ;; k p c) s
    = k (pathJoin [mountOr kv2.defaultMountPath s;
                   if metadata then "metadata" else "data"; path]) cl
        (ready kv2.defaultMountPath cl s).
Proof. unfold kv2.secretPath. destruct metadata; prelude. Qed.

Lemma issued_one {A} (m : M A) (s s1 : State) (k : Call) :
  calls s1 = calls s -> snd (m s) = called k s1 -> issued m s = [k].
Proof.
  intros Hc Hm. unfold issued. rewrite Hm. unfold called; cbn.
  rewrite Hc. apply skipn_app_exact.
Qed.

Lemma issued_none {A} (m : M A) (s s1 : State) :
  calls s1 = calls s -> snd (m s) = s1 -> issued m s = [].
Proof.
  intros Hc Hm. unfold issued. rewrite Hm, Hc. apply skipn_length_nil.
Qed.

Lemma noData_true (secret : option vault.Secret) :
  secret = None \/ (exists sec, secret = Some sec /\ len (vault.Data sec) = 0%nat) ->
  noData secret = true.
Proof.
  intros [-> | [sec [-> H]]]; cbn; [reflexivity | now rewrite H].
Qed.

Lemma noData_false (sec : vault.Secret) :
  len (vault.Data sec) <> 0%nat -> noData (Some sec) = false.
Proof. intro H. cbn. now apply Nat.eqb_neq. Qed.

(** The numeral [Itoa] prints denotes the number printed. *)
Lemma Itoa_decimal (n : Z) :
  option_map Z.of_int (NilZero.int_of_string (Itoa n)) = Some n.
Proof.
  unfold Itoa. destruct n as [|p|p].
  - reflexivity.
  - rewrite NilZero.isi.
    + cbn [option_map]. now rewrite DecimalZ.of_to.
    + cbn. intros [= H]. now apply (DecimalPos.Unsigned.to_uint_nonnil p).
    + discriminate.
  - rewrite NilZero.isi.
    + cbn [option_map]. now rewrite DecimalZ.of_to.
    + discriminate.
    + cbn. intros [= H]. now apply (DecimalPos.Unsigned.to_uint_nonnil p).
Qed.

(** ** Package cubbyhole: reading *)

(** C5. For a non-empty path, [ReadSecret] of the single-value store, on a
    transport that answers the read without error: a nil or zero-length
    envelope gives a [PathError] whose path is the mount joined with the
    path and whose cause is the sentinel [ErrNoSecretData] (found by
    unwrapping and by [errors.Is]); any other envelope gives its data map
    itself and no error. *)
Theorem cubbyhole_ReadSecret_result :
  forall (s : State) (cl : vault.LogicalClient) (path : string)
         (secret : option vault.Secret),
    path <> "" ->
    theClient s = Some cl ->
    vault.Read cl (pathJoin [mountOr cubbyhole.defaultMountPath s; path]) = (secret, None) ->
    (secret = None \/ (exists sec, secret = Some sec /\ len (vault.Data sec) = 0%nat) ->
     exists err,
       fst (cubbyhole.ReadSecret path s) = inl err
       /\ err = PathError "ReadSecret"
                  (pathJoin [mountOr cubbyhole.defaultMountPath s; path]) ErrNoSecretData
       /\ errors_Unwrap err = Some ErrNoSecretData
       /\ errors_Is err ErrNoSecretData = true)
    /\ (forall sec, secret = Some sec -> len (vault.Data sec) <> 0%nat ->
        fst (cubbyhole.ReadSecret path s) = inr (vault.Data sec)).
Proof.
  intros s cl path secret Hpath Hcl Hread.
  unfold cubbyhole.ReadSecret.
  rewrite (cubbyhole_prelude _ _ path s cl Hpath Hcl).
  rewrite bind_eq, (call_ok cl (CallRead _) secret _ Hread).
  split.
  - intro Hempty. rewrite (noData_true _ Hempty).
    eexists. split; [reflexivity|]. split; [reflexivity|]. split; reflexivity.
  - intros sec -> Hlen. now rewrite (noData_false _ Hlen).
Qed.

Lemma cubbyhole_ReadSecret_result_witness :
  fst (cubbyhole.ReadSecret "test"
         (start (NewClient "" (Some (mock (envelope (Some [("foo", VString "bar")])))))))
  = inr (Some [("foo", VString "bar")])
  /\ exists err,
       fst (cubbyhole.ReadSecret "test" (start (NewClient "" (Some (mock (None, None))))))
       = inl err
       /\ errors_Is err ErrNoSecretData = true.
Proof.
  split.
  - refine (proj2 (cubbyhole_ReadSecret_result
                     (start (NewClient "" (Some (mock (envelope (Some [("foo", VString "bar")]))))))
                     _ "test" _ _ eq_refl eq_refl) _ eq_refl _);
      [discriminate | cbn; discriminate].
  - destruct (proj1 (cubbyhole_ReadSecret_result
                       (start (NewClient "" (Some (mock (None, None)))))
                       _ "test" None ltac:(discriminate) eq_refl eq_refl) (or_introl eq_refl))
      as [err [H1 [_ [_ H4]]]].
    exists err. split; assumption.
Defined.

(** ** Package kv (v1): an empty response is a zero value *)

(** C6. For a non-empty path and a transport that answers without error
    with a nil or zero-length envelope, [ReadSecret] and [ListSecrets] of
    the versionless KV client return nil and no error, where the same
    operations of the single-value store return the not-found
    [PathError]. *)
Theorem kv1_empty_response_zero_value :
  forall (s : State) (cl : vault.LogicalClient) (path : string)
         (secret : option vault.Secret),
    path <> "" ->
    theClient s = Some cl ->
    secret = None \/ (exists sec, secret = Some sec /\ len (vault.Data sec) = 0%nat) ->
    (vault.Read cl (pathJoin [mountOr kv1.defaultMountPath s; path]) = (secret, None) ->
     fst (kv1.ReadSecret path s) = inr None)
    /\ (vault.List cl (pathJoin [mountOr kv1.defaultMountPath s; path]) = (secret, None) ->
        fst (kv1.ListSecrets path s) = inr None)
    /\ (vault.Read cl (pathJoin [mountOr cubbyhole.defaultMountPath s; path]) = (secret, None) ->
        fst (cubbyhole.ReadSecret path s)
        = inl (PathError "ReadSecret"
                 (pathJoin [mountOr cubbyhole.defaultMountPath s; path]) ErrNoSecretData))
    /\ (vault.List cl (pathJoin [mountOr cubbyhole.defaultMountPath s; path]) = (secret, None) ->
        fst (cubbyhole.ListSecrets path s)
        = inl (PathError "ListSecrets"
                 (pathJoin [mountOr cubbyhole.defaultMountPath s; path]) ErrNoSecretData)).
Proof.
  intros s cl path secret Hpath Hcl Hempty.
  pose proof (noData_true _ Hempty) as Hno.
  repeat split; intro Hresp.
  - unfold kv1.ReadSecret. rewrite (kv1_prelude _ _ path s cl Hpath Hcl).
    rewrite bind_eq, (call_ok cl (CallRead _) secret _ Hresp). now rewrite Hno.
  - unfold kv1.ListSecrets. rewrite (kv1_prelude _ _ path s cl Hpath Hcl).
    rewrite bind_eq, (call_ok cl (CallList _) secret _ Hresp). now rewrite Hno.
  - unfold cubbyhole.ReadSecret. rewrite (cubbyhole_prelude _ _ path s cl Hpath Hcl).
    rewrite bind_eq, (call_ok cl (CallRead _) secret _ Hresp). now rewrite Hno.
  - unfold cubbyhole.ListSecrets. rewrite (cubbyhole_prelude _ _ path s cl Hpath Hcl).
    rewrite bind_eq, (call_ok cl (CallList _) secret _ Hresp). now rewrite Hno.
Qed.

Lemma kv1_empty_response_zero_value_witness :
  fst (kv1.ReadSecret "test" (start (NewClient "" (Some (mock (envelope (Some [])))))))
  = inr None
  /\ fst (kv1.ListSecrets "test" (start (NewClient "" (Some (mock (envelope (Some [])))))))
     = inr None.
Proof.
  pose proof (kv1_empty_response_zero_value
                (start (NewClient "" (Some (mock (envelope (Some []))))))
                _ "test" (Some {| vault.Data := Some [] |})
                ltac:(discriminate) eq_refl
                (or_intror (ex_intro _ _ (conj eq_refl eq_refl)))) as [H1 [H2 _]].
  split; [exact (H1 eq_refl) | exact (H2 eq_refl)].
Defined.

(** ** Package kv (v2): reading and writing a version *)

Lemma kv2_secretPath_empty (metadata : bool) (s : State) :
  kv2.secretPath "" metadata s = (inl (errors_New "kv2: secret path is empty"), s).
Proof. reflexivity. Qed.

Lemma vaultClient_fails (s : State) :
  theClient s = None -> exists err, vaultClient s = (inl err, s).
Proof.
  unfold theClient, vaultClient. destruct (client (self s)); [discriminate|].
  destruct (api_NewClient s) as [err|cl]; [|discriminate].
  intros _. now exists err.
Qed.

Lemma secretPath_calls (metadata : bool) (path : string) (s : State) :
  calls (snd (kv2.secretPath path metadata s)) = calls s.
Proof.
  unfold kv2.secretPath. destruct (String.eqb path ""); [reflexivity|].
  unfold bind, getMountPath, setMountPath, ret; cbn.
  destruct (String.eqb (mountPath (self s)) ""); reflexivity.
Qed.

(** Without a client the method ends after [vaultClient], before any
    call. *)
Lemma kv2_prelude_fails (metadata : bool) :
  forall A (k : string -> vault.LogicalClient -> M A) path s,
    theClient s = None ->
    issued (p <- kv2.secretPath path metadata ;; c <- vaultClient ;; k p c) s = [].
Proof.
  intros A k path s Hcl.
  apply (issued_none _ s _ (secretPath_calls metadata path s)).
  rewrite bind_eq.
  destruct (kv2.secretPath path metadata s) as [[err|p] s1] eqn:E; [reflexivity|].
  assert (theClient s1 = None) as Hcl1.
  { revert E. unfold kv2.secretPath. destruct (String.eqb path ""); [discriminate|].
    unfold bind, getMountPath, setMountPath, ret; cbn.
    destruct (String.eqb (mountPath (self s)) ""); cbn; intros [= _ <-]; exact Hcl. }
  rewrite bind_eq. destruct (vaultClient_fails s1 Hcl1) as [err ->]. reflexivity.
Qed.

(** C7. [ReadSecretVersion] with a negative version is [ReadSecretLatest]
    (same result, same state, for every path and every transport) and, for
    a non-empty path, makes one plain [Read] of mount/data/path; with a
    version that is zero or more it makes one [ReadWithData] of that path
    whose query holds the decimal numeral of the version under
    [version]. *)
Theorem kv2_ReadSecretVersion_calls :
  forall (s : State) (path : string) (version : Z),
    (version < 0 -> kv2.ReadSecretVersion path version s = kv2.ReadSecretLatest path s)
    /\ (forall cl, path <> "" -> theClient s = Some cl ->
        (version < 0 ->
         issued (kv2.ReadSecretVersion path version) s
         = [CallRead (pathJoin [mountOr kv2.defaultMountPath s; "data"; path])]
         /\ issued (kv2.ReadSecretLatest path) s
            = [CallRead (pathJoin [mountOr kv2.defaultMountPath s; "data"; path])])
        /\ (0 <= version ->
            issued (kv2.ReadSecretVersion path version) s
            = [CallReadWithData (pathJoin [mountOr kv2.defaultMountPath s; "data"; path])
                 [("version", [Itoa version])]]
            /\ option_map Z.of_int (NilZero.int_of_string (Itoa version)) = Some version)).
Proof.
  intros s path version.
  assert (forall v, v < 0 -> kv2.ReadSecretVersion path v s = kv2.ReadSecretLatest path s) as Hneg.
  { intros v Hv. unfold kv2.ReadSecretLatest, kv2.ReadSecretVersion.
    replace (-1 <? v) with false by (symmetry; apply Z.ltb_ge; lia). reflexivity. }
  split; [apply Hneg|].
  intros cl Hpath Hcl.
  assert (forall v k,
             (if -1 <? v
              then call cl (CallReadWithData
                              (pathJoin [mountOr kv2.defaultMountPath s; "data"; path])
                              [("version", [Itoa v])])
              else call cl (CallRead (pathJoin [mountOr kv2.defaultMountPath s; "data"; path])))
             = call cl k ->
             issued (kv2.ReadSecretVersion path v) s = [k]) as Hone.
  { intros v k Hk.
    apply (issued_one _ s (ready kv2.defaultMountPath cl s)); [reflexivity|].
    unfold kv2.ReadSecretVersion.
    rewrite (kv2_prelude false _ _ path s cl Hpath Hcl).
    rewrite bind_eq, Hk.
    pose proof (call_calls cl k (ready kv2.defaultMountPath cl s)) as Hs.
    destruct (call cl k (ready kv2.defaultMountPath cl s)) as [[err|secret] s2];
      cbn in Hs; subst s2; [reflexivity|].
    destruct (noData secret); [reflexivity|].
    destruct (mapstructure.Decode _ _ _); reflexivity. }
  split.
  - intro Hv. assert ((-1 <? version) = false) as E by (apply Z.ltb_ge; lia).
    split.
    + apply Hone. now rewrite E.
    + exact (Hone (-1) _ eq_refl).
  - intro Hv. assert ((-1 <? version) = true) as E by (apply Z.ltb_lt; lia).
    split; [|apply Itoa_decimal].
    apply Hone. now rewrite E.
Qed.

Lemma kv2_ReadSecretVersion_calls_witness :
  issued (kv2.ReadSecretVersion "foo" (-1)) (start (NewClient "" (Some (mock (None, None)))))
  = [CallRead "/secret/data/foo"]
  /\ issued (kv2.ReadSecretVersion "foo" 5) (start (NewClient "" (Some (mock (None, None)))))
     = [CallReadWithData "/secret/data/foo" [("version", ["5"])]].
Proof.
  split.
  - exact (proj1 (proj1 (proj2 (kv2_ReadSecretVersion_calls
                                  (start (NewClient "" (Some (mock (None, None))))) "foo" (-1))
                           _ ltac:(discriminate) eq_refl) eq_refl)).
  - exact (proj1 (proj2 (proj2 (kv2_ReadSecretVersion_calls
                                  (start (NewClient "" (Some (mock (None, None))))) "foo" 5)
                           _ ltac:(discriminate) eq_refl) ltac:(discriminate))).
Defined.

(** C1. The payload [WriteSecretVersion] hands to [Write] holds the
    caller's data map itself under [data]; for a negative version it has no
    [options] key, for a version that is zero or more its [options] is the
    map with the single entry [cas] = that version.  No other call is made,
    whatever the path; and for a non-empty path and an available client the
    write of mount/data/path with that payload is made. *)
Theorem kv2_WriteSecretVersion_payload :
  forall (s : State) (path : string) (version : Z) (data : gomap),
  exists d : dict,
    index d "data" = Some (VMap data)
    /\ (version < 0 -> index d "options" = None /\ map fst d = ["data"])
    /\ (0 <= version ->
        index d "options" = Some (VMap (Some [("cas", VInt version)]))
        /\ map fst d = ["data"; "options"])
    /\ (forall k, In k (issued (kv2.WriteSecretVersion path version data) s) ->
        exists p, k = CallWrite p (Some d))
    /\ (forall cl, path <> "" -> theClient s = Some cl ->
        issued (kv2.WriteSecretVersion path version data) s
        = [CallWrite (pathJoin [mountOr kv2.defaultMountPath s; "data"; path]) (Some d)]).
Proof.
  intros s path version data.
  exists (if -1 <? version
          then assign [("data", VMap data)] "options" (VMap (Some [("cas", VInt version)]))
          else [("data", VMap data)]).
  assert (forall cl, path <> "" -> theClient s = Some cl ->
            issued (kv2.WriteSecretVersion path version data) s
            = [CallWrite (pathJoin [mountOr kv2.defaultMountPath s; "data"; path])
                 (Some (if -1 <? version
                        then assign [("data", VMap data)] "options"
                               (VMap (Some [("cas", VInt version)]))
                        else [("data", VMap data)]))]) as Hone.
  { intros cl Hpath Hcl.
    apply (issued_one _ s (ready kv2.defaultMountPath cl s)); [reflexivity|].
    unfold kv2.WriteSecretVersion.
    rewrite (kv2_prelude false _ _ path s cl Hpath Hcl).
    rewrite bind_eq.
    match goal with |- context [call cl ?k ?s1] =>
      pose proof (call_calls cl k s1) as Hs;
      destruct (call cl k s1) as [[err|secret] s2]; cbn in Hs; subst s2
    end; [reflexivity|].
    destruct (noData secret); [reflexivity|].
    destruct (mapstructure.Decode _ _ _); reflexivity. }
  split; [destruct (-1 <? version); reflexivity|].
  split; [intro Hv; replace (-1 <? version) with false
            by (symmetry; apply Z.ltb_ge; lia); split; reflexivity|].
  split; [intro Hv; replace (-1 <? version) with true
            by (symmetry; apply Z.ltb_lt; lia); split; reflexivity|].
  split; [|exact Hone].
  intros k Hin.
  destruct (String.eqb_spec path "") as [->|Hpath].
  - exfalso. unfold kv2.WriteSecretVersion in Hin.
    rewrite (issued_none _ s s eq_refl) in Hin; [exact Hin|reflexivity].
  - destruct (theClient s) as [cl|] eqn:Hcl.
    + rewrite (Hone cl Hpath eq_refl) in Hin. destruct Hin as [<-|[]]. eexists; reflexivity.
    + exfalso. unfold kv2.WriteSecretVersion in Hin.
      rewrite (kv2_prelude_fails false _ _ path s Hcl) in Hin. exact Hin.
Qed.

Lemma kv2_WriteSecretVersion_payload_witness :
  exists d : dict,
    issued (kv2.WriteSecretVersion "foo" 5 (Some [("a", VInt 1)]))
      (start (NewClient "" (Some (mock (None, None)))))
    = [CallWrite (pathJoin ["/secret"; "data"; "foo"]) (Some d)]
    /\ index d "data" = Some (VMap (Some [("a", VInt 1)]))
    /\ index d "options" = Some (VMap (Some [("cas", VInt 5)])).
Proof.
  destruct (kv2_WriteSecretVersion_payload
              (start (NewClient "" (Some (mock (None, None))))) "foo" 5
              (Some [("a", VInt 1)])) as [d [Hdata [_ [Hcas [_ Hcall]]]]].
  exists d. split; [|split].
  - exact (Hcall _ ltac:(discriminate) eq_refl).
  - exact Hdata.
  - exact (proj1 (Hcas ltac:(discriminate))).
Defined.

(** ** The mount path: defaulted by [secretPath] only, never changed
    otherwise *)

Lemma mountStep_refl (dflt : string) (s : State) : mountStep dflt s s.
Proof. now left. Qed.

Lemma mountStep_trans (dflt : string) (s s1 s2 : State) :
  mountStep dflt s s1 -> mountStep dflt s1 s2 -> mountStep dflt s s2.
Proof.
  unfold mountStep. intros [H1|[H1 H1']] [H2|[H2 H2']].
  - left. congruence.
  - right. split; congruence.
  - right. split; congruence.
  - right. split; congruence.
Qed.

Lemma mountStep_stable (dflt : string) (s s' : State) :
  mountStep dflt s s' -> mountPath (self s) <> "" ->
  mountPath (self s') = mountPath (self s).
Proof. intros [H|[H _]] Hne; [exact H | contradiction]. Qed.

Create HintDb respects.

Lemma respects_ret (dflt : string) {A} (a : A) : respects dflt (ret a).
Proof. intro s. apply mountStep_refl. Qed.

Lemma respects_fail (dflt : string) {A} (e : error) : respects dflt (@fail A e).
Proof. intro s. apply mountStep_refl. Qed.

Lemma respects_bind (dflt : string) {A B} (m : M A) (k : A -> M B) :
  respects dflt m -> (forall a, respects dflt (k a)) -> respects dflt (bind m k).
Proof.
  intros Hm Hk s. rewrite bind_eq. specialize (Hm s).
  destruct (m s) as [[e|a] s1]; cbn in *; [exact Hm|].
  exact (mountStep_trans dflt s s1 _ Hm (Hk a s1)).
Qed.

Lemma respects_getMountPath (dflt : string) : respects dflt getMountPath.
Proof. intro s. apply mountStep_refl. Qed.

Lemma respects_vaultClient (dflt : string) : respects dflt vaultClient.
Proof.
  intro s. unfold vaultClient. destruct (client (self s)); [apply mountStep_refl|].
  destruct (api_NewClient s); now left.
Qed.

Lemma respects_call (dflt : string) (cl : vault.LogicalClient) (k : Call) :
  respects dflt (call cl k).
Proof. intro s. rewrite call_calls. now left. Qed.

Lemma respects_cubbyhole_secretPath (path : string) :
  respects cubbyhole.defaultMountPath (cubbyhole.secretPath path).
Proof.
  intro s. unfold cubbyhole.secretPath. destruct (String.eqb path ""); [now left|].
  unfold bind, getMountPath, setMountPath, ret; cbn.
  destruct (String.eqb_spec (mountPath (self s)) "") as [E|E]; cbn;
    [right; now split | now left].
Qed.

Lemma respects_kv1_secretPath (path : string) :
  respects kv1.defaultMountPath (kv1.secretPath path).
Proof.
  intro s. unfold kv1.secretPath. destruct (String.eqb path ""); [now left|].
  unfold bind, getMountPath, setMountPath, ret; cbn.
  destruct (String.eqb_spec (mountPath (self s)) "") as [E|E]; cbn;
    [right; now split | now left].
Qed.

Lemma respects_kv2_secretPath (path : string) (metadata : bool) :
  respects kv2.defaultMountPath (kv2.secretPath path metadata).
Proof.
  intro s. unfold kv2.secretPath. destruct (String.eqb path ""); [now left|].
  unfold bind, getMountPath, setMountPath, ret; cbn.
  destruct (String.eqb_spec (mountPath (self s)) "") as [E|E]; cbn;
    [right; now split | now left].
Qed.

#[local] Hint Resolve respects_ret respects_fail respects_getMountPath respects_vaultClient
  respects_call respects_cubbyhole_secretPath respects_kv1_secretPath
  respects_kv2_secretPath : respects.

Ltac respects_tac :=
  repeat first
    [ apply respects_bind; [ | intros ]
    | solve [ auto with respects ]
    | match goal with
      | |- respects _ (if ?b then _ else _) => destruct b
      | |- respects _ (match ?x with _ => _ end) => destruct x
      end ].

(** Every method of the three clients changes the mount path in one way
    only: from empty to the default of its package. *)
Lemma cubbyhole_respects (path : string) (data : gomap) :
  respects cubbyhole.defaultMountPath (cubbyhole.ReadSecret path)
  /\ respects cubbyhole.defaultMountPath (cubbyhole.ListSecrets path)
  /\ respects cubbyhole.defaultMountPath (cubbyhole.WriteSecret path data)
  /\ respects cubbyhole.defaultMountPath (cubbyhole.DeleteSecret path).
Proof.
  unfold cubbyhole.ReadSecret, cubbyhole.ListSecrets, cubbyhole.WriteSecret,
    cubbyhole.DeleteSecret.
  repeat split; respects_tac.
Qed.

Lemma kv1_respects (path : string) (data : gomap) :
  respects kv1.defaultMountPath (kv1.ReadSecret path)
  /\ respects kv1.defaultMountPath (kv1.ListSecrets path)
  /\ respects kv1.defaultMountPath (kv1.WriteSecret path data)
  /\ respects kv1.defaultMountPath (kv1.DeleteSecret path).
Proof.
  unfold kv1.ReadSecret, kv1.ListSecrets, kv1.WriteSecret, kv1.DeleteSecret.
  repeat split; respects_tac.
Qed.

Lemma kv2_respects (path : string) (version : Z) (versions : option (list Z))
    (data : gomap) (cfg : kv2.SecretConfig) :
  respects kv2.defaultMountPath (kv2.SetEngineConfig cfg)
  /\ respects kv2.defaultMountPath kv2.EngineConfig
  /\ respects kv2.defaultMountPath (kv2.ReadSecretLatest path)
  /\ respects kv2.defaultMountPath (kv2.ReadSecretVersion path version)
  /\ respects kv2.defaultMountPath (kv2.WriteSecretLatest path data)
  /\ respects kv2.defaultMountPath (kv2.WriteSecretVersion path version data)
  /\ respects kv2.defaultMountPath (kv2.DeleteSecretLatest path)
  /\ respects kv2.defaultMountPath (kv2.DeleteSecretVersion path versions)
  /\ respects kv2.defaultMountPath (kv2.UndeleteSecretVersion path versions)
  /\ respects kv2.defaultMountPath (kv2.DestroySecretVersion path versions)
  /\ respects kv2.defaultMountPath (kv2.ListSecrets path)
  /\ respects kv2.defaultMountPath (kv2.ReadSecretMetadata path)
  /\ respects kv2.defaultMountPath (kv2.WriteSecretMetadata path cfg)
  /\ respects kv2.defaultMountPath (kv2.DeleteSecretMetadata path).
Proof.
  unfold kv2.SetEngineConfig, kv2.EngineConfig, kv2.ReadSecretLatest,
    kv2.WriteSecretLatest, kv2.ReadSecretVersion, kv2.WriteSecretVersion,
    kv2.DeleteSecretLatest, kv2.DeleteSecretVersion, kv2.UndeleteSecretVersion,
    kv2.DestroySecretVersion, kv2.ListSecrets, kv2.ReadSecretMetadata,
    kv2.WriteSecretMetadata, kv2.DeleteSecretMetadata.
  repeat split; respects_tac.
Qed.

(** ** Validation errors *)

(** A method that starts with [secretPath] rejects the empty path at once:
    it returns the validation error of its package and leaves the state,
    hence the mount path and the list of calls, as it was. *)
Lemma cubbyhole_empty_path (s : State) (data : gomap) :
  cubbyhole.ReadSecret "" s = (inl ErrEmptyPath, s)
  /\ cubbyhole.ListSecrets "" s = (inl ErrEmptyPath, s)
  /\ cubbyhole.WriteSecret "" data s = (inl ErrEmptyPath, s)
  /\ cubbyhole.DeleteSecret "" s = (inl ErrEmptyPath, s).
Proof. repeat split. Qed.

Lemma kv1_empty_path (s : State) (data : gomap) :
  kv1.ReadSecret "" s = (inl (errors_New "vault: secret path is empty"), s)
  /\ kv1.ListSecrets "" s = (inl (errors_New "vault: secret path is empty"), s)
  /\ kv1.WriteSecret "" data s = (inl (errors_New "vault: secret path is empty"), s)
  /\ kv1.DeleteSecret "" s = (inl (errors_New "vault: secret path is empty"), s).
Proof. repeat split. Qed.

Lemma kv2_empty_path (s : State) (version : Z) (data : gomap) (cfg : kv2.SecretConfig) :
  kv2.ReadSecretLatest "" s = (inl (errors_New "kv2: secret path is empty"), s)
  /\ kv2.ReadSecretVersion "" version s = (inl (errors_New "kv2: secret path is empty"), s)
  /\ kv2.WriteSecretLatest "" data s = (inl (errors_New "kv2: secret path is empty"), s)
  /\ kv2.WriteSecretVersion "" version data s
     = (inl (errors_New "kv2: secret path is empty"), s)
  /\ kv2.DeleteSecretLatest "" s = (inl (errors_New "kv2: secret path is empty"), s)
  /\ kv2.ListSecrets "" s = (inl (errors_New "kv2: secret path is empty"), s)
  /\ kv2.ReadSecretMetadata "" s = (inl (errors_New "kv2: secret path is empty"), s)
  /\ kv2.WriteSecretMetadata "" cfg s = (inl (errors_New "kv2: secret path is empty"), s)
  /\ kv2.DeleteSecretMetadata "" s = (inl (errors_New "kv2: secret path is empty"), s).
Proof. repeat split. Qed.

(** [UndeleteSecretVersion] and [DestroySecretVersion] reject a call
    without versions before anything else. *)
Lemma kv2_Undelete_Destroy_no_versions (s : State) (path : string)
    (version : option (list Z)) :
  kv2.lenInts version = 0%nat ->
  kv2.UndeleteSecretVersion path version s
  = (inl (errors_New "kv2: must specify at least one version"), s)
  /\ kv2.DestroySecretVersion path version s
     = (inl (errors_New "kv2: must specify at least one version"), s).
Proof.
  intro H. unfold kv2.UndeleteSecretVersion, kv2.DestroySecretVersion.
  rewrite H. split; reflexivity.
Qed.

Lemma vaultClient_ok (s : State) (cl : vault.LogicalClient) :
  theClient s = Some cl -> vaultClient s = (inr cl, adopted cl s).
Proof.
  destruct s as [[mp c] env cs]. unfold theClient, vaultClient, adopted; cbn.
  destruct c as [c|]; [now intros [= ->]|].
  destruct env as [err|c]; [discriminate|now intros [= ->]].
Qed.

(** The methods that build their path without [secretPath]: the write goes
    to the mount path as it is, joined with the action and the path. *)
Lemma kv2_action_run (s : State) (cl : vault.LogicalClient) (action path : string)
    (version : option (list Z)) :
  theClient s = Some cl ->
  (client <- vaultClient ;;
   mount <- getMountPath ;;
   call client (CallWrite (pathJoin [mount; action; path])
                  (Some [("versions", VInts version)])) ;;;
   ret tt) s
  = (match snd (vault.Write cl (pathJoin [mountPath (self s); action; path])
                  (Some [("versions", VInts version)])) with
     | Some err => inl err
     | None => inr tt
     end,
     called (CallWrite (pathJoin [mountPath (self s); action; path])
               (Some [("versions", VInts version)])) (adopted cl s)).
Proof.
  intro Hcl. rewrite bind_eq, (vaultClient_ok s cl Hcl).
  unfold bind, getMountPath, call, ret; cbn.
  destruct (vault.Write cl _ _) as [secret [err|]]; reflexivity.
Qed.

(** C2. [DeleteSecretVersion] called without versions does not return a
    validation error: it writes [versions] = nil to mount/delete/path and
    returns what the transport returns.  ([UndeleteSecretVersion] and
    [DestroySecretVersion] do validate: [kv2_Undelete_Destroy_no_versions].) *)
Theorem kv2_DeleteSecretVersion_no_versions_writes :
  forall (s : State) (cl : vault.LogicalClient) (path : string)
         (version : option (list Z)),
    theClient s = Some cl ->
    kv2.lenInts version = 0%nat ->
    issued (kv2.DeleteSecretVersion path version) s
    = [CallWrite (pathJoin [mountPath (self s); "delete"; path])
         (Some [("versions", VInts version)])]
    /\ (snd (vault.Write cl (pathJoin [mountPath (self s); "delete"; path])
               (Some [("versions", VInts version)])) = None ->
        fst (kv2.DeleteSecretVersion path version s) = inr tt).
Proof.
  intros s cl path version Hcl _.
  unfold issued, kv2.DeleteSecretVersion. rewrite (kv2_action_run s cl _ _ _ Hcl). cbn.
  split; [apply skipn_app_exact|]. now intros ->.
Qed.

Lemma kv2_DeleteSecretVersion_no_versions_writes_witness :
  issued (kv2.DeleteSecretVersion "foo" None)
    (start (NewClient "/secret" (Some (mock (None, None)))))
  = [CallWrite (pathJoin ["/secret"; "delete"; "foo"]) (Some [("versions", VInts None)])]
  /\ fst (kv2.DeleteSecretVersion "foo" None
            (start (NewClient "/secret" (Some (mock (None, None))))))
     = inr tt.
Proof.
  destruct (kv2_DeleteSecretVersion_no_versions_writes
              (start (NewClient "/secret" (Some (mock (None, None))))) _ "foo" None
              eq_refl eq_refl) as [H1 H2].
  split; [exact H1 | exact (H2 eq_refl)].
Defined.

(** C3. [DeleteSecretVersion], [UndeleteSecretVersion] and
    [DestroySecretVersion] do not validate the path: with the empty path
    and at least one version each of them makes its write, to the mount
    path joined with the action alone.  (Every other method that takes a
    path does reject the empty one without a call: [cubbyhole_empty_path],
    [kv1_empty_path], [kv2_empty_path].) *)
Theorem kv2_version_actions_accept_empty_path :
  forall (s : State) (cl : vault.LogicalClient) (version : option (list Z)),
    theClient s = Some cl ->
    kv2.lenInts version <> 0%nat ->
    issued (kv2.DeleteSecretVersion "" version) s
    = [CallWrite (pathJoin [mountPath (self s); "delete"; ""])
         (Some [("versions", VInts version)])]
    /\ issued (kv2.UndeleteSecretVersion "" version) s
       = [CallWrite (pathJoin [mountPath (self s); "undelete"; ""])
            (Some [("versions", VInts version)])]
    /\ issued (kv2.DestroySecretVersion "" version) s
       = [CallWrite (pathJoin [mountPath (self s); "destroy"; ""])
            (Some [("versions", VInts version)])].
Proof.
  intros s cl version Hcl Hlen.
  apply Nat.eqb_neq in Hlen.
  unfold issued, kv2.DeleteSecretVersion, kv2.UndeleteSecretVersion,
    kv2.DestroySecretVersion.
  rewrite Hlen, !(kv2_action_run s cl _ _ _ Hcl). cbn.
  repeat split; apply skipn_app_exact.
Qed.

Lemma kv2_version_actions_accept_empty_path_witness :
  issued (kv2.DeleteSecretVersion "" (Some [1]))
    (start (NewClient "/secret" (Some (mock (None, None)))))
  = [CallWrite (pathJoin ["/secret"; "delete"; ""]) (Some [("versions", VInts (Some [1]))])]
  /\ pathJoin ["/secret"; "delete"; ""] = "/secret/delete".
Proof.
  split; [|reflexivity].
  exact (proj1 (kv2_version_actions_accept_empty_path
                  (start (NewClient "/secret" (Some (mock (None, None))))) _ (Some [1])
                  eq_refl ltac:(discriminate))).
Defined.

(** C4. The methods of the versioned client that do not go through
    [secretPath] do not default the mount path: on a client whose mount
    path is empty they build their transport path from the empty mount
    path and leave it empty. *)
Theorem kv2_mount_not_defaulted :
  forall (s : State) (cl : vault.LogicalClient) (path : string)
         (version : option (list Z)) (cfg : kv2.SecretConfig),
    theClient s = Some cl ->
    mountPath (self s) = "" ->
    (issued (kv2.SetEngineConfig cfg) s
     = [CallWrite (pathJoin [""; "config"]) (kv2.json_Unmarshal (kv2.json_Marshal cfg))]
     /\ mountPath (self (snd (kv2.SetEngineConfig cfg s))) = "")
    /\ (issued kv2.EngineConfig s = [CallRead (pathJoin [""; "config"])]
        /\ mountPath (self (snd (kv2.EngineConfig s))) = "")
    /\ (issued (kv2.DeleteSecretVersion path version) s
        = [CallWrite (pathJoin [""; "delete"; path]) (Some [("versions", VInts version)])]
        /\ mountPath (self (snd (kv2.DeleteSecretVersion path version s))) = "")
    /\ (kv2.lenInts version <> 0%nat ->
        (issued (kv2.UndeleteSecretVersion path version) s
         = [CallWrite (pathJoin [""; "undelete"; path]) (Some [("versions", VInts version)])]
         /\ mountPath (self (snd (kv2.UndeleteSecretVersion path version s))) = "")
        /\ (issued (kv2.DestroySecretVersion path version) s
            = [CallWrite (pathJoin [""; "destroy"; path])
                 (Some [("versions", VInts version)])]
            /\ mountPath (self (snd (kv2.DestroySecretVersion path version s))) = "")).
Proof.
  intros s cl path version cfg Hcl Hmount.
  split; [|split; [|split]].
  - unfold issued, kv2.SetEngineConfig.
    rewrite bind_eq, (vaultClient_ok s cl Hcl).
    unfold bind, getMountPath, ret; cbn. rewrite Hmount.
    match goal with |- context [call ?c ?k ?st] =>
      pose proof (call_calls c k st) as Hs; destruct (call c k st) as [[e|x] s2];
      cbn in Hs; subst s2 end; cbn; (split; [apply skipn_app_exact | exact Hmount]).
  - unfold issued, kv2.EngineConfig.
    rewrite bind_eq, (vaultClient_ok s cl Hcl).
    unfold bind, getMountPath, ret; cbn. rewrite Hmount.
    match goal with |- context [call ?c ?k ?st] =>
      pose proof (call_calls c k st) as Hs; destruct (call c k st) as [[e|x] s2];
      cbn in Hs; subst s2 end; cbn; [split; [apply skipn_app_exact | exact Hmount]|].
    destruct (noData x); cbn; [split; [apply skipn_app_exact | exact Hmount]|].
    destruct (mapstructure.Decode _ _ _); cbn; (split; [apply skipn_app_exact | exact Hmount]).
  - unfold issued, kv2.DeleteSecretVersion. rewrite (kv2_action_run s cl _ _ _ Hcl). cbn.
    rewrite Hmount. split; [apply skipn_app_exact | reflexivity].
  - intro Hlen. apply Nat.eqb_neq in Hlen.
    unfold issued, kv2.UndeleteSecretVersion, kv2.DestroySecretVersion.
    rewrite Hlen, !(kv2_action_run s cl _ _ _ Hcl). cbn. rewrite Hmount.
    repeat split; apply skipn_app_exact.
Qed.

Lemma kv2_mount_not_defaulted_witness :
  issued (kv2.DeleteSecretVersion "foo" (Some [1]))
    (start (NewClient "" (Some (mock (None, None)))))
  = [CallWrite (pathJoin [""; "delete"; "foo"]) (Some [("versions", VInts (Some [1]))])]
  /\ mountPath (self (snd (kv2.DeleteSecretVersion "foo" (Some [1])
                            (start (NewClient "" (Some (mock (None, None)))))))) = ""
  /\ pathJoin [""; "delete"; "foo"] = "delete/foo".
Proof.
  destruct (kv2_mount_not_defaulted
              (start (NewClient "" (Some (mock (None, None))))) _ "foo" (Some [1])
              kv2.zeroSecretConfig eq_refl eq_refl) as [_ [_ [[H1 H2] _]]].
  repeat split; assumption.
Defined.

(** ** Decoding a response *)

(** No entry for a field: no key is the field name, exactly or up to
    case. *)
Lemma field_None_iff (d : dict) (fieldName : string) :
  mapstructure.field d fieldName = None
  <-> forall k v, In (k, v) d -> k <> fieldName /\ mapstructure.EqualFold k fieldName = false.
Proof.
  unfold mapstructure.field. split.
  - intros H k v Hin.
    destruct (index d fieldName) as [x|] eqn:Hi; [discriminate|].
    split.
    + intros ->. induction d as [|[k' v'] d IH]; [exact Hin|].
      cbn in Hi. destruct (String.eqb_spec k' fieldName) as [E|E]; [discriminate|].
      destruct Hin as [[= -> _]|Hin]; [now apply E|].
      cbn in H. destruct (mapstructure.EqualFold k' fieldName); [discriminate|].
      now apply IH.
    + clear Hi. induction d as [|[k' v'] d IH]; [destruct Hin|].
      cbn in H. destruct (mapstructure.EqualFold k' fieldName) eqn:E; [discriminate|].
      destruct Hin as [[= -> _]|Hin]; [exact E|]. now apply IH.
  - intro H. induction d as [|[k' v'] d IH]; [reflexivity|].
    cbn. destruct (H k' v' (or_introl eq_refl)) as [Hne Hf].
    destruct (String.eqb_spec k' fieldName) as [E|_]; [contradiction|].
    assert (forall k v, In (k, v) d ->
              k <> fieldName /\ mapstructure.EqualFold k fieldName = false) as H'
      by (intros k v Hin; apply (H k v); now right).
    specialize (IH H').
    destruct (index d fieldName) as [x|]; [discriminate|].
    now rewrite Hf.
Qed.

(** What a method that decodes returns once the transport has answered. *)
Lemma kv2_EngineConfig_run (s : State) (cl : vault.LogicalClient)
    (secret : option vault.Secret) :
  theClient s = Some cl ->
  vault.Read cl (pathJoin [mountPath (self s); "config"]) = (secret, None) ->
  fst (kv2.EngineConfig s)
  = if noData secret then inr kv2.zeroSecretConfig
    else mapstructure.Decode kv2.zeroSecretConfig
           (kv2.auxFromMap kv2.zeroSecretConfig kv2.SecretConfigFromMap) (dataOf secret).
Proof.
  intros Hcl Hread. unfold kv2.EngineConfig.
  rewrite bind_eq, (vaultClient_ok s cl Hcl).
  unfold bind, getMountPath; cbn.
  rewrite (call_ok cl (CallRead _) secret _ Hread).
  destruct (noData secret); [reflexivity|].
  destruct (mapstructure.Decode _ _ _); reflexivity.
Qed.

Lemma kv2_SetEngineConfig_run (s : State) (cl : vault.LogicalClient)
    (cfg : kv2.SecretConfig) :
  theClient s = Some cl ->
  snd (kv2.SetEngineConfig cfg s)
  = called (CallWrite (pathJoin [mountPath (self s); "config"])
              (kv2.json_Unmarshal (kv2.json_Marshal cfg))) (adopted cl s).
Proof.
  intro Hcl. unfold kv2.SetEngineConfig.
  rewrite bind_eq, (vaultClient_ok s cl Hcl).
  unfold bind, getMountPath, ret; cbn.
  match goal with |- context [call ?c ?k ?st] =>
    pose proof (call_calls c k st) as Hs; destruct (call c k st) as [[e|x] s2];
    cbn in Hs; subst s2 end; reflexivity.
Qed.

(** The map [SetEngineConfig] writes has no entry that the decoder of
    [EngineConfig] reads: read back as the envelope or as its [data] field,
    it decodes to the zero configuration. *)
Lemma kv2_written_config_decodes_to_zero (cfg : kv2.SecretConfig) :
  let written := kv2.json_Unmarshal (kv2.json_Marshal cfg) in
  (if noData (Some {| vault.Data := written |}) then inr kv2.zeroSecretConfig
   else mapstructure.Decode kv2.zeroSecretConfig
          (kv2.auxFromMap kv2.zeroSecretConfig kv2.SecretConfigFromMap) written)
  = inr kv2.zeroSecretConfig
  /\ mapstructure.Decode kv2.zeroSecretConfig
       (kv2.auxFromMap kv2.zeroSecretConfig kv2.SecretConfigFromMap)
       (Some [("data", VMap written)])
     = inr kv2.zeroSecretConfig.
Proof.
  destruct cfg as [mv cas dva]. unfold kv2.json_Marshal; cbn [kv2.MaxVersions
    kv2.CASRequired kv2.DeleteVersionAfter].
  destruct (mv =? 0), cas, (dva =? 0); split; reflexivity.
Qed.

(** C8. Writing a configuration with [SetEngineConfig] and reading it back
    with [EngineConfig] from a transport that returns the map just written
    (as the envelope, or under the envelope's [data] key) does not give the
    configuration back: the read returns the zero configuration, whatever
    was written. *)
Theorem kv2_EngineConfig_after_SetEngineConfig :
  forall (s : State) (cl : vault.LogicalClient) (cfg : kv2.SecretConfig),
    theClient s = Some cl ->
    let written := kv2.json_Unmarshal (kv2.json_Marshal cfg) in
    let config := pathJoin [mountPath (self s); "config"] in
    issued (kv2.SetEngineConfig cfg) s = [CallWrite config written]
    /\ (vault.Read cl config = envelope written ->
        fst (kv2.EngineConfig (snd (kv2.SetEngineConfig cfg s))) = inr kv2.zeroSecretConfig)
    /\ (vault.Read cl config = envelope (Some [("data", VMap written)]) ->
        fst (kv2.EngineConfig (snd (kv2.SetEngineConfig cfg s))) = inr kv2.zeroSecretConfig).
Proof.
  intros s cl cfg Hcl written config.
  pose proof (kv2_SetEngineConfig_run s cl cfg Hcl) as Hset.
  destruct (kv2_written_config_decodes_to_zero cfg) as [Hplain Hnested].
  assert (theClient (snd (kv2.SetEngineConfig cfg s)) = Some cl) as Hcl'
    by (rewrite Hset; reflexivity).
  split; [|split].
  - apply (issued_one _ s (adopted cl s) _ eq_refl Hset).
  - intro Hread.
    rewrite (kv2_EngineConfig_run _ cl (Some {| vault.Data := written |}) Hcl').
    + exact Hplain.
    + rewrite Hset. exact Hread.
  - intro Hread.
    rewrite (kv2_EngineConfig_run _ cl
               (Some {| vault.Data := Some [("data", VMap written)] |}) Hcl').
    + exact Hnested.
    + rewrite Hset. exact Hread.
Qed.

Lemma kv2_EngineConfig_after_SetEngineConfig_witness :
  let cfg := {| kv2.MaxVersions := 5; kv2.CASRequired := false;
                kv2.DeleteVersionAfter := 0 |} in
  let written := kv2.json_Unmarshal (kv2.json_Marshal cfg) in
  let s := start (NewClient "/secret" (Some (mock (envelope (Some [("data", VMap written)]))))) in
  fst (kv2.EngineConfig (snd (kv2.SetEngineConfig cfg s))) = inr kv2.zeroSecretConfig
  /\ kv2.zeroSecretConfig <> cfg.
Proof.
  intros cfg written s. split; [|discriminate].
  exact (proj2 (proj2 (kv2_EngineConfig_after_SetEngineConfig s _ cfg eq_refl)) eq_refl).
Defined.

(** [ReadSecretMetadata] and [ListSecrets] of the versioned client make the
    same single call, a [List] of mount/metadata/path, whatever the
    transport answers. *)
Lemma kv2_metadata_lists (s : State) (cl : vault.LogicalClient) (path : string) :
  path <> "" ->
  theClient s = Some cl ->
  issued (kv2.ReadSecretMetadata path) s
  = [CallList (pathJoin [mountOr kv2.defaultMountPath s; "metadata"; path])]
  /\ issued (kv2.ListSecrets path) s
     = [CallList (pathJoin [mountOr kv2.defaultMountPath s; "metadata"; path])].
Proof.
  intros Hpath Hcl.
  split; apply (issued_one _ s (ready kv2.defaultMountPath cl s) _ eq_refl);
    unfold kv2.ReadSecretMetadata, kv2.ListSecrets;
    rewrite (kv2_prelude true _ _ path s cl Hpath Hcl), bind_eq;
    match goal with |- context [call ?c ?k ?st] =>
      pose proof (call_calls c k st) as Hs; destruct (call c k st) as [[e|x] s2];
      cbn in Hs; subst s2 end; try reflexivity;
    (destruct (noData x); [reflexivity|]);
    destruct (mapstructure.Decode _ _ _); reflexivity.
Qed.

Lemma kv2_ReadSecretMetadata_run (s : State) (cl : vault.LogicalClient) (path : string)
    (secret : option vault.Secret) :
  path <> "" ->
  theClient s = Some cl ->
  vault.List cl (pathJoin [mountOr kv2.defaultMountPath s; "metadata"; path])
  = (secret, None) ->
  fst (kv2.ReadSecretMetadata path s)
  = if noData secret then inr kv2.zeroSecretMetadata
    else mapstructure.Decode kv2.zeroSecretMetadata
           (kv2.auxFromMap kv2.zeroSecretMetadata kv2.SecretMetadataFromMap)
           (dataOf secret).
Proof.
  intros Hpath Hcl Hlist. unfold kv2.ReadSecretMetadata.
  rewrite (kv2_prelude true _ _ path s cl Hpath Hcl), bind_eq.
  rewrite (call_ok cl (CallList _) secret _ Hlist).
  destruct (noData secret); [reflexivity|].
  destruct (mapstructure.Decode _ _ _); reflexivity.
Qed.

(** No input decodes into a time other than the zero time. *)
Lemma decodeTime_zero (d : dict) (name fieldName : string) :
  fst (mapstructure.decodeField kv2.zeroTime kv2.decodeTime d name fieldName) = kv2.zeroTime.
Proof.
  unfold mapstructure.decodeField.
  destruct (mapstructure.field d fieldName) as [v|]; [|reflexivity].
  destruct v as [| | | | | | | |[m|]]; reflexivity.
Qed.

(** No response gives a metadata whose times are set: the decoder cannot
    fill a [time.Time] from a value of an envelope. *)
Lemma SecretMetadataFromMap_times (name : string) (d : dict) :
  kv2.mCreatedTime (fst (kv2.SecretMetadataFromMap name d)) = kv2.zeroTime
  /\ kv2.UpdatedTime (fst (kv2.SecretMetadataFromMap name d)) = kv2.zeroTime.
Proof.
  unfold kv2.SecretMetadataFromMap.
  pose proof (decodeTime_zero d name "CreatedTime") as Hc.
  pose proof (decodeTime_zero d name "UpdatedTime") as Hu.
  destruct (mapstructure.decodeField kv2.zeroTime kv2.decodeTime d name "CreatedTime").
  destruct (mapstructure.decodeField 0 mapstructure.decodeInt d name "CurrentVersion").
  destruct (mapstructure.decodeField 0 mapstructure.decodeInt d name "MaxVersions").
  destruct (mapstructure.decodeField 0 mapstructure.decodeInt d name "OldestVersion").
  destruct (mapstructure.decodeField kv2.zeroTime kv2.decodeTime d name "UpdatedTime").
  destruct (mapstructure.decodeField None _ d name "Versions").
  cbn in *. now split.
Qed.

Lemma kv2_ReadSecretMetadata_times (s : State) (cl : vault.LogicalClient) (path : string)
    (secret : option vault.Secret) (md : kv2.SecretMetadata) :
  path <> "" ->
  theClient s = Some cl ->
  vault.List cl (pathJoin [mountOr kv2.defaultMountPath s; "metadata"; path])
  = (secret, None) ->
  fst (kv2.ReadSecretMetadata path s) = inr md ->
  kv2.mCreatedTime md = kv2.zeroTime /\ kv2.UpdatedTime md = kv2.zeroTime.
Proof.
  intros Hpath Hcl Hlist.
  rewrite (kv2_ReadSecretMetadata_run s cl path secret Hpath Hcl Hlist).
  destruct (noData secret); [now intros [= <-]|].
  unfold mapstructure.Decode, mapstructure.decodeStruct, kv2.auxFromMap,
    mapstructure.decodeField.
  assert (forall d, match mapstructure.field d "data" with
                    | Some v =>
                        mapstructure.decode kv2.zeroSecretMetadata
                          (fun name data =>
                             match data with
                             | VMap (Some d0) => kv2.SecretMetadataFromMap name d0
                             | VMap None => kv2.SecretMetadataFromMap name []
                             | _ => (kv2.zeroSecretMetadata, [name])
                             end) (mapstructure.qualify "" "data") v
                    | None => (kv2.zeroSecretMetadata, [])
                    end = (md, []) ->
                    kv2.mCreatedTime md = kv2.zeroTime /\ kv2.UpdatedTime md = kv2.zeroTime)
    as Hd.
  { intros d. destruct (mapstructure.field d "data") as [v|]; [|now intros [= <-]].
    destruct v as [| | | | | | | |[m|]]; cbn; try (now intros [= <-]);
      intro E;
      match type of E with
      | kv2.SecretMetadataFromMap ?n ?d0 = _ =>
          pose proof (SecretMetadataFromMap_times n d0) as T; rewrite E in T; exact T
      end. }
  destruct (dataOf secret) as [d|].
  - specialize (Hd d).
    destruct (match mapstructure.field d "data" with Some _ => _ | None => _ end)
      as [aux [|e es]]; [|discriminate].
    intros [= ->]. now apply Hd.
  - specialize (Hd []). cbn in Hd |- *. intros [= <-]. now split.
Qed.

(** C9. [ReadSecretMetadata] lists (it does not read) mount/metadata/path,
    the call [ListSecrets] makes, and decodes the envelope's [data] field;
    but the decoder looks the fields up under their Go names, so the
    entries [created_time], [current_version], [max_versions],
    [oldest_version] and [updated_time] of a response are not decoded:
    whatever they hold, the result is the zero metadata. *)
Theorem kv2_ReadSecretMetadata_drops_wire_fields :
  forall (s : State) (cl : vault.LogicalClient) (path : string),
    path <> "" ->
    theClient s = Some cl ->
    (issued (kv2.ReadSecretMetadata path) s
     = [CallList (pathJoin [mountOr kv2.defaultMountPath s; "metadata"; path])]
     /\ issued (kv2.ListSecrets path) s = issued (kv2.ReadSecretMetadata path) s)
    /\ (forall created current max oldest updated : value,
        vault.List cl (pathJoin [mountOr kv2.defaultMountPath s; "metadata"; path])
        = envelope (Some [("data", VMap (Some [("created_time", created);
                                               ("current_version", current);
                                               ("max_versions", max);
                                               ("oldest_version", oldest);
                                               ("updated_time", updated)]))]) ->
        fst (kv2.ReadSecretMetadata path s) = inr kv2.zeroSecretMetadata).
Proof.
  intros s cl path Hpath Hcl.
  destruct (kv2_metadata_lists s cl path Hpath Hcl) as [Hmd Hls].
  split; [split; [exact Hmd | now rewrite Hmd, Hls]|].
  intros created current max oldest updated Hlist.
  rewrite (kv2_ReadSecretMetadata_run s cl path _ Hpath Hcl Hlist).
  reflexivity.
Qed.

Lemma kv2_ReadSecretMetadata_drops_wire_fields_witness :
  fst (kv2.ReadSecretMetadata "foo"
         (start (NewClient ""
                   (Some (mock (envelope
                                  (Some [("data",
                                          VMap (Some [("created_time", VString "2018-03-22T02:24:06Z");
                                                      ("current_version", VInt 3);
                                                      ("max_versions", VInt 10);
                                                      ("oldest_version", VInt 1);
                                                      ("updated_time", VString "2018-03-22T02:36:43Z")]))])))))))
  = inr kv2.zeroSecretMetadata.
Proof.
  exact (proj2 (kv2_ReadSecretMetadata_drops_wire_fields
                  (start (NewClient "" (Some (mock _)))) _ "foo"
                  ltac:(discriminate) eq_refl)
           (VString "2018-03-22T02:24:06Z") (VInt 3) (VInt 10) (VInt 1)
           (VString "2018-03-22T02:36:43Z") eq_refl).
Defined.

(** ** Listing keys *)

Lemma ListSecrets_run_cubbyhole (s : State) (cl : vault.LogicalClient) (path : string)
    (secret : option vault.Secret) :
  path <> "" ->
  theClient s = Some cl ->
  vault.List cl (pathJoin [mountOr cubbyhole.defaultMountPath s; path]) = (secret, None) ->
  fst (cubbyhole.ListSecrets path s)
  = if noData secret
    then inl (PathError "ListSecrets"
                (pathJoin [mountOr cubbyhole.defaultMountPath s; path]) ErrNoSecretData)
    else mapstructure.Decode None keysFromMap (dataOf secret).
Proof.
  intros Hpath Hcl Hlist. unfold cubbyhole.ListSecrets.
  rewrite (cubbyhole_prelude _ _ path s cl Hpath Hcl), bind_eq.
  rewrite (call_ok cl (CallList _) secret _ Hlist).
  destruct (noData secret); [reflexivity|].
  destruct (mapstructure.Decode _ _ _); reflexivity.
Qed.

Lemma ListSecrets_run_kv1 (s : State) (cl : vault.LogicalClient) (path : string)
    (secret : option vault.Secret) :
  path <> "" ->
  theClient s = Some cl ->
  vault.List cl (pathJoin [mountOr kv1.defaultMountPath s; path]) = (secret, None) ->
  fst (kv1.ListSecrets path s)
  = if noData secret then inr None
    else mapstructure.Decode None keysFromMap (dataOf secret).
Proof.
  intros Hpath Hcl Hlist. unfold kv1.ListSecrets.
  rewrite (kv1_prelude _ _ path s cl Hpath Hcl), bind_eq.
  rewrite (call_ok cl (CallList _) secret _ Hlist).
  destruct (noData secret); [reflexivity|].
  destruct (mapstructure.Decode _ _ _); reflexivity.
Qed.

Lemma ListSecrets_run_kv2 (s : State) (cl : vault.LogicalClient) (path : string)
    (secret : option vault.Secret) :
  path <> "" ->
  theClient s = Some cl ->
  vault.List cl (pathJoin [mountOr kv2.defaultMountPath s; "metadata"; path])
  = (secret, None) ->
  fst (kv2.ListSecrets path s)
  = if noData secret then inr None
    else mapstructure.Decode None kv2.auxKeysFromMap (dataOf secret).
Proof.
  intros Hpath Hcl Hlist. unfold kv2.ListSecrets.
  rewrite (kv2_prelude true _ _ path s cl Hpath Hcl), bind_eq.
  rewrite (call_ok cl (CallList _) secret _ Hlist).
  destruct (noData secret); [reflexivity|].
  destruct (mapstructure.Decode _ _ _); reflexivity.
Qed.

Lemma keys_absent (name : string) (d : dict) :
  mapstructure.field d "keys" = None -> keysFromMap name d = (None, []).
Proof. intro H. unfold keysFromMap, mapstructure.decodeField. now rewrite H. Qed.

Lemma noData_entries (env : dict) :
  env <> [] -> noData (Some {| vault.Data := Some env |}) = false.
Proof. intro H. destruct env; [contradiction|reflexivity]. Qed.

(** C10, as amended. For a non-empty path, when the envelope of the list
    response is not empty and has no entry the decoder takes for [keys]
    (for the versioned client: its entry for [Data] is missing, or nil, or
    a map without an entry for [keys]), [ListSecrets] of each of the three
    clients returns a nil list and no error. *)
Theorem ListSecrets_without_keys :
  forall (s : State) (cl : vault.LogicalClient) (path : string) (env : dict),
    path <> "" ->
    theClient s = Some cl ->
    env <> [] ->
    (vault.List cl (pathJoin [mountOr cubbyhole.defaultMountPath s; path])
     = envelope (Some env) ->
     mapstructure.field env "keys" = None ->
     fst (cubbyhole.ListSecrets path s) = inr None)
    /\ (vault.List cl (pathJoin [mountOr kv1.defaultMountPath s; path])
        = envelope (Some env) ->
        mapstructure.field env "keys" = None ->
        fst (kv1.ListSecrets path s) = inr None)
    /\ (vault.List cl (pathJoin [mountOr kv2.defaultMountPath s; "metadata"; path])
        = envelope (Some env) ->
        mapstructure.field env "Data" = None
        \/ mapstructure.field env "Data" = Some VNil
        \/ (exists m, mapstructure.field env "Data" = Some (VMap m)
                      /\ mapstructure.field (match m with Some d => d | None => [] end) "keys"
                         = None) ->
        fst (kv2.ListSecrets path s) = inr None).
Proof.
  intros s cl path env Hpath Hcl Henv.
  pose proof (noData_entries env Henv) as Hno.
  split; [|split].
  - intros Hlist Hkeys.
    rewrite (ListSecrets_run_cubbyhole s cl path _ Hpath Hcl Hlist), Hno.
    unfold mapstructure.Decode, mapstructure.decodeStruct; cbn [dataOf vault.Data].
    now rewrite (keys_absent "" env Hkeys).
  - intros Hlist Hkeys.
    rewrite (ListSecrets_run_kv1 s cl path _ Hpath Hcl Hlist), Hno.
    unfold mapstructure.Decode, mapstructure.decodeStruct; cbn [dataOf vault.Data].
    now rewrite (keys_absent "" env Hkeys).
  - intros Hlist Hdata.
    rewrite (ListSecrets_run_kv2 s cl path _ Hpath Hcl Hlist), Hno.
    unfold mapstructure.Decode; cbn [dataOf vault.Data mapstructure.decodeStruct].
    unfold kv2.auxKeysFromMap, mapstructure.decodeField.
    destruct Hdata as [-> | [-> | [m [-> Hkeys]]]]; [reflexivity | reflexivity |].
    cbn [mapstructure.decode mapstructure.qualify String.eqb].
    unfold mapstructure.decodeStruct.
    destruct m as [d|]; now rewrite (keys_absent _ _ Hkeys).
Qed.

Lemma ListSecrets_without_keys_witness :
  fst (cubbyhole.ListSecrets "foo"
         (start (NewClient "" (Some (mock (envelope (Some [("other", VInt 1)])))))))
  = inr None
  /\ fst (kv2.ListSecrets "foo"
            (start (NewClient ""
                      (Some (mock (envelope (Some [("data", VMap (Some [("other", VInt 1)]))])))))))
     = inr None.
Proof.
  split.
  - exact (proj1 (ListSecrets_without_keys
                    (start (NewClient "" (Some (mock (envelope (Some [("other", VInt 1)]))))))
                    _ "foo" [("other", VInt 1)]
                    ltac:(discriminate) eq_refl ltac:(discriminate)) eq_refl eq_refl).
  - exact (proj2 (proj2 (ListSecrets_without_keys
                    (start (NewClient ""
                              (Some (mock (envelope
                                             (Some [("data", VMap (Some [("other", VInt 1)]))]))))))
                    _ "foo" [("data", VMap (Some [("other", VInt 1)]))]
                    ltac:(discriminate) eq_refl ltac:(discriminate))) eq_refl
             (or_intror (or_intror (ex_intro _ (Some [("other", VInt 1)])
                                      (conj eq_refl eq_refl))))).
Defined.

(** C10, as first stated, fails: an envelope whose [data] entry is not a
    map is not empty and has no [keys] under [data], and [ListSecrets] of
    the versioned client returns a decode error for it. *)
Lemma ListSecrets_data_not_a_map :
  let env := [("data", VString "x")] in
  let s := start (NewClient "" (Some (mock (envelope (Some env))))) in
  env <> []
  /\ match index env "data" with
     | Some (VMap (Some d)) => index d "keys"
     | _ => None
     end = None
  /\ fst (kv2.ListSecrets "foo" s) = inl (mapstructure_Error ["Data"])
  /\ fst (kv2.ListSecrets "foo" s) <> inr None.
Proof.
  cbv zeta. split; [discriminate|]. split; [reflexivity|].
  split; [reflexivity|discriminate].
Qed.

(** ** The mount path once set *)




Ltac secretPath_runs Hpath :=
  rewrite (eqb_empty_false _ Hpath);
  unfold bind, getMountPath, setMountPath, ret, mountOr; cbn;
  match goal with
  | |- context [String.eqb (mountPath (self ?s)) ""] =>
      let E := fresh "E" in
      destruct (String.eqb (mountPath (self s)) "") eqn:E; cbn; rewrite ?E
  end.

Lemma cubbyhole_secretPath_defaults (path : string) (s : State) :
  path <> "" ->
  (exists p, cubbyhole.secretPath path s = (inr p, snd (cubbyhole.secretPath path s)))
  /\ mountPath (self (snd (cubbyhole.secretPath path s)))
     = mountOr cubbyhole.defaultMountPath s.
Proof.
  intro Hpath. unfold cubbyhole.secretPath. secretPath_runs Hpath;
    (split; [eexists; reflexivity | reflexivity]).
Qed.

Lemma kv1_secretPath_defaults (path : string) (s : State) :
  path <> "" ->
  (exists p, kv1.secretPath path s = (inr p, snd (kv1.secretPath path s)))
  /\ mountPath (self (snd (kv1.secretPath path s))) = mountOr kv1.defaultMountPath s.
Proof.
  intro Hpath. unfold kv1.secretPath. secretPath_runs Hpath;
    (split; [eexists; reflexivity | reflexivity]).
Qed.

Lemma kv2_secretPath_defaults (path : string) (metadata : bool) (s : State) :
  path <> "" ->
  (exists p, kv2.secretPath path metadata s
             = (inr p, snd (kv2.secretPath path metadata s)))
  /\ mountPath (self (snd (kv2.secretPath path metadata s)))
     = mountOr kv2.defaultMountPath s.
Proof.
  intro Hpath. unfold kv2.secretPath. secretPath_runs Hpath;
    (split; [eexists; reflexivity | reflexivity]).
Qed.





(** ** The decoder on names it does match *)

Example EngineConfig_decodes_go_names :
  mapstructure.Decode kv2.zeroSecretConfig
    (kv2.auxFromMap kv2.zeroSecretConfig kv2.SecretConfigFromMap)
    (Some [("data", VMap (Some [("maxversions", VFloat (kv2.float64 7));
                                ("CASRequired", VBool true);
                                ("DELETEVERSIONAFTER", VInt 3600)]))])
  = inr {| kv2.MaxVersions := 7; kv2.CASRequired := true; kv2.DeleteVersionAfter := 3600 |}.
Proof. reflexivity. Qed.

Example ReadSecretMetadata_decodes_versions :
  fst (kv2.ReadSecretMetadata "foo"
         (start (NewClient ""
                   (Some (mock (envelope
                                  (Some [("data",
                                          VMap (Some [("current_version", VInt 3);
                                                      ("versions",
                                                       VMap (Some [("1",
                                                                    VMap (Some [("created_time", VString "t");
                                                                                ("destroyed", VBool true);
                                                                                ("version", VInt 1)]))]))]))])))))))
  = inr {| kv2.mCreatedTime := kv2.zeroTime; kv2.CurrentVersion := 0; kv2.mMaxVersions := 0;
           kv2.OldestVersion := 0; kv2.UpdatedTime := kv2.zeroTime;
           kv2.Versions := Some [("1", {| kv2.CreatedTime := kv2.zeroTime;
                                         kv2.DeletionTime := kv2.zeroTime;
                                         kv2.Destroyed := true; kv2.Version := 1 |})] |}.
Proof. reflexivity. Qed.

Example ListSecrets_decodes_keys :
  fst (kv2.ListSecrets "foo"
         (start (NewClient ""
                   (Some (mock (envelope
                                  (Some [("data",
                                          VMap (Some [("keys",
                                                       VSlice (Some [VString "a"; VString "b/"]))]))])))))))
  = inr (Some ["a"; "b/"])
  /\ fst (cubbyhole.ListSecrets "foo"
            (start (NewClient "" (Some (mock (envelope (Some [("KEYS", VString "x")])))))))
     = inl (mapstructure_Error ["keys"]).
Proof. split; reflexivity. Qed.

Example EqualFold_examples :
  mapstructure.EqualFold "data" "Data" = true
  /\ mapstructure.EqualFold "max_versions" "MaxVersions" = false
  /\ mapstructure.EqualFold "KEYS" "keys" = true.
Proof. repeat split. Qed.

Example pathJoin_examples :
  pathJoin ["/cubbyhole"; "test"] = "/cubbyhole/test"
  /\ pathJoin ["/secret"; "metadata"; "a//b/../c"] = "/secret/metadata/a/c"
  /\ pathJoin [""; "config"] = "config"
  /\ pathJoin ["/secret"; "delete"; ""] = "/secret/delete".
Proof. repeat split. Qed.

(** * Further properties of the three clients *)

(** ** Calls and transport across a method *)

Lemma silent_ret {A} (a : A) : silent (ret a).
Proof. intro s. reflexivity. Qed.

Lemma silent_fail {A} (e : error) : silent (@fail A e).
Proof. intro s. reflexivity. Qed.

Lemma silent_getMountPath : silent getMountPath.
Proof. intro s. reflexivity. Qed.

Lemma silent_setMountPath (p : string) : silent (setMountPath p).
Proof. intro s. reflexivity. Qed.

Lemma silent_vaultClient : silent vaultClient.
Proof.
  intro s. unfold vaultClient. destruct (client (self s)); [reflexivity|].
  destruct (api_NewClient s); reflexivity.
Qed.

Lemma silent_bind {A B} (m : M A) (k : A -> M B) :
  silent m -> (forall a, silent (k a)) -> silent (bind m k).
Proof.
  intros Hm Hk s. rewrite bind_eq. specialize (Hm s).
  destruct (m s) as [[e|a] s1]; cbn in *; [exact Hm|].
  now rewrite (Hk a s1).
Qed.

Lemma silent_cubbyhole_secretPath (path : string) : silent (cubbyhole.secretPath path).
Proof.
  intro s. unfold cubbyhole.secretPath. destruct (String.eqb path ""); [reflexivity|].
  unfold bind, getMountPath, setMountPath, ret; cbn.
  destruct (String.eqb (mountPath (self s)) ""); reflexivity.
Qed.

Lemma silent_kv1_secretPath (path : string) : silent (kv1.secretPath path).
Proof.
  intro s. unfold kv1.secretPath. destruct (String.eqb path ""); [reflexivity|].
  unfold bind, getMountPath, setMountPath, ret; cbn.
  destruct (String.eqb (mountPath (self s)) ""); reflexivity.
Qed.

Lemma silent_kv2_secretPath (path : string) (metadata : bool) :
  silent (kv2.secretPath path metadata).
Proof. intro s. apply secretPath_calls. Qed.

Lemma logs_silent {A} (m : M A) : silent m -> logs m.
Proof.
  intros Hm s. exists []. rewrite (Hm s), app_nil_r. repeat split. cbn. lia.
Qed.

Lemma logs_after_silent {A B} (m : M A) (k : A -> M B) :
  silent m -> (forall a, logs (k a)) -> logs (bind m k).
Proof.
  intros Hm Hk s. rewrite bind_eq. specialize (Hm s).
  destruct (m s) as [[e|a] s1]; cbn in *.
  - exists []. rewrite Hm, app_nil_r. repeat split. cbn. lia.
  - destruct (Hk a s1) as [new [H1 H2]]. exists new. now rewrite H1, Hm.
Qed.

Lemma logs_call_then {B} (cl : vault.LogicalClient) (c : Call)
    (k : option vault.Secret -> M B) :
  plain c = true -> (forall a, silent (k a)) -> logs (bind (call cl c) k).
Proof.
  intros Hp Hk s. rewrite bind_eq. exists [c].
  pose proof (call_calls cl c s) as Hs.
  destruct (call cl c s) as [[e|a] s1]; cbn in Hs; subst s1; cbn.
  - repeat split; [lia | now rewrite Hp].
  - rewrite (Hk a). cbn. repeat split; [lia | now rewrite Hp].
Qed.

Create HintDb silent.

#[local] Hint Resolve silent_ret silent_fail silent_getMountPath silent_setMountPath
  silent_vaultClient silent_cubbyhole_secretPath silent_kv1_secretPath
  silent_kv2_secretPath : silent.

Ltac silent_tac :=
  repeat first
    [ solve [ auto with silent ]
    | apply silent_bind; [ | intros ]
    | match goal with
      | |- silent (if ?b then _ else _) => destruct b
      | |- silent (match ?x with _ => _ end) => destruct x
      end ].

Ltac logs_tac :=
  repeat first
    [ apply logs_call_then; [ reflexivity | intros; silent_tac ]
    | apply logs_after_silent; [ solve [ silent_tac ] | intros ]
    | apply logs_silent; solve [ silent_tac ]
    | match goal with
      | |- logs (bind (if ?b then _ else _) _) => destruct b
      | |- logs (if ?b then _ else _) => destruct b
      end ].

Lemma cubbyhole_logs (o : storeOp) :
  match o with
  | OpReadSecret path => logs (cubbyhole.ReadSecret path)
  | OpListSecrets path => logs (cubbyhole.ListSecrets path)
  | OpWriteSecret path data => logs (cubbyhole.WriteSecret path data)
  | OpDeleteSecret path => logs (cubbyhole.DeleteSecret path)
  end.
Proof.
  destruct o; unfold cubbyhole.ReadSecret, cubbyhole.ListSecrets, cubbyhole.WriteSecret,
    cubbyhole.DeleteSecret; logs_tac.
Qed.

Lemma kv1_logs (o : storeOp) :
  match o with
  | OpReadSecret path => logs (kv1.ReadSecret path)
  | OpListSecrets path => logs (kv1.ListSecrets path)
  | OpWriteSecret path data => logs (kv1.WriteSecret path data)
  | OpDeleteSecret path => logs (kv1.DeleteSecret path)
  end.
Proof.
  destruct o; unfold kv1.ReadSecret, kv1.ListSecrets, kv1.WriteSecret, kv1.DeleteSecret;
    logs_tac.
Qed.

Lemma kv2_logs (o : kv2Op) :
  match o with
  | OpSetEngineConfig cfg => logs (kv2.SetEngineConfig cfg)
  | OpEngineConfig => logs kv2.EngineConfig
  | OpReadSecretLatest path => logs (kv2.ReadSecretLatest path)
  | OpReadSecretVersion path version => logs (kv2.ReadSecretVersion path version)
  | OpWriteSecretLatest path data => logs (kv2.WriteSecretLatest path data)
  | OpWriteSecretVersion path version data => logs (kv2.WriteSecretVersion path version data)
  | OpDeleteSecretLatest path => logs (kv2.DeleteSecretLatest path)
  | OpDeleteSecretVersion path version => logs (kv2.DeleteSecretVersion path version)
  | OpUndeleteSecretVersion path version => logs (kv2.UndeleteSecretVersion path version)
  | OpDestroySecretVersion path version => logs (kv2.DestroySecretVersion path version)
  | OpListSecretsV2 path => logs (kv2.ListSecrets path)
  | OpReadSecretMetadata path => logs (kv2.ReadSecretMetadata path)
  | OpWriteSecretMetadata path cfg => logs (kv2.WriteSecretMetadata path cfg)
  | OpDeleteSecretMetadata path => logs (kv2.DeleteSecretMetadata path)
  end.
Proof.
  destruct o; unfold kv2.SetEngineConfig, kv2.EngineConfig, kv2.ReadSecretLatest,
    kv2.WriteSecretLatest, kv2.ReadSecretVersion, kv2.WriteSecretVersion,
    kv2.DeleteSecretLatest, kv2.DeleteSecretVersion, kv2.UndeleteSecretVersion,
    kv2.DestroySecretVersion, kv2.ListSecrets, kv2.ReadSecretMetadata,
    kv2.WriteSecretMetadata, kv2.DeleteSecretMetadata; logs_tac.
Qed.

Lemma keeps_ret {A} (a : A) : keeps (ret a).
Proof. intro s. repeat split; auto. Qed.

Lemma keeps_fail {A} (e : error) : keeps (@fail A e).
Proof. intro s. repeat split; auto. Qed.

Lemma keeps_getMountPath : keeps getMountPath.
Proof. intro s. repeat split; auto. Qed.

Lemma keeps_setMountPath (p : string) : keeps (setMountPath p).
Proof. intro s. repeat split; auto. Qed.

Lemma keeps_call (cl : vault.LogicalClient) (k : Call) : keeps (call cl k).
Proof. intro s. rewrite call_calls. repeat split; auto. Qed.

Lemma keeps_vaultClient : keeps vaultClient.
Proof.
  intro s. unfold vaultClient, theClient.
  destruct (client (self s)) as [cl|] eqn:E; cbn; [rewrite E; repeat split; auto|].
  destruct (api_NewClient s) as [err|cl] eqn:E'; cbn; rewrite ?E, ?E';
    repeat split; auto; discriminate.
Qed.

Lemma keeps_bind {A B} (m : M A) (k : A -> M B) :
  keeps m -> (forall a, keeps (k a)) -> keeps (bind m k).
Proof.
  intros Hm Hk s. rewrite bind_eq. specialize (Hm s).
  destruct (m s) as [[e|a] s1]; cbn in *; [exact Hm|].
  destruct Hm as [H1 [H2 H3]]. destruct (Hk a s1) as [K1 [K2 K3]].
  repeat split; [congruence | congruence | auto].
Qed.

Lemma keeps_cubbyhole_secretPath (path : string) : keeps (cubbyhole.secretPath path).
Proof.
  unfold cubbyhole.secretPath. destruct (String.eqb path ""); [apply keeps_fail|].
  apply keeps_bind; [apply keeps_getMountPath|]. intro mount.
  apply keeps_bind; [destruct (String.eqb mount ""); [apply keeps_setMountPath|apply keeps_ret]|].
  intros _. apply keeps_bind; [apply keeps_getMountPath|]. intros. apply keeps_ret.
Qed.

Lemma keeps_kv1_secretPath (path : string) : keeps (kv1.secretPath path).
Proof.
  unfold kv1.secretPath. destruct (String.eqb path ""); [apply keeps_fail|].
  apply keeps_bind; [apply keeps_getMountPath|]. intro mount.
  apply keeps_bind; [destruct (String.eqb mount ""); [apply keeps_setMountPath|apply keeps_ret]|].
  intros _. apply keeps_bind; [apply keeps_getMountPath|]. intros. apply keeps_ret.
Qed.

Lemma keeps_kv2_secretPath (path : string) (metadata : bool) :
  keeps (kv2.secretPath path metadata).
Proof.
  unfold kv2.secretPath. destruct (String.eqb path ""); [apply keeps_fail|].
  apply keeps_bind; [apply keeps_getMountPath|]. intro mount.
  apply keeps_bind; [destruct (String.eqb mount ""); [apply keeps_setMountPath|apply keeps_ret]|].
  intros _. apply keeps_bind; [apply keeps_getMountPath|]. intros. apply keeps_ret.
Qed.

Create HintDb keeps.

#[local] Hint Resolve keeps_ret keeps_fail keeps_getMountPath keeps_setMountPath keeps_call
  keeps_vaultClient keeps_cubbyhole_secretPath keeps_kv1_secretPath
  keeps_kv2_secretPath : keeps.

Ltac keeps_tac :=
  repeat first
    [ solve [ auto with keeps ]
    | apply keeps_bind; [ | intros ]
    | match goal with
      | |- keeps (if ?b then _ else _) => destruct b
      | |- keeps (match ?x with _ => _ end) => destruct x
      end ].

Lemma cubbyhole_keeps (o : storeOp) :
  match o with
  | OpReadSecret path => keeps (cubbyhole.ReadSecret path)
  | OpListSecrets path => keeps (cubbyhole.ListSecrets path)
  | OpWriteSecret path data => keeps (cubbyhole.WriteSecret path data)
  | OpDeleteSecret path => keeps (cubbyhole.DeleteSecret path)
  end.
Proof.
  destruct o; unfold cubbyhole.ReadSecret, cubbyhole.ListSecrets, cubbyhole.WriteSecret,
    cubbyhole.DeleteSecret; keeps_tac.
Qed.

Lemma kv1_keeps (o : storeOp) :
  match o with
  | OpReadSecret path => keeps (kv1.ReadSecret path)
  | OpListSecrets path => keeps (kv1.ListSecrets path)
  | OpWriteSecret path data => keeps (kv1.WriteSecret path data)
  | OpDeleteSecret path => keeps (kv1.DeleteSecret path)
  end.
Proof.
  destruct o; unfold kv1.ReadSecret, kv1.ListSecrets, kv1.WriteSecret, kv1.DeleteSecret;
    keeps_tac.
Qed.

Lemma kv2_keeps (o : kv2Op) :
  match o with
  | OpSetEngineConfig cfg => keeps (kv2.SetEngineConfig cfg)
  | OpEngineConfig => keeps kv2.EngineConfig
  | OpReadSecretLatest path => keeps (kv2.ReadSecretLatest path)
  | OpReadSecretVersion path version => keeps (kv2.ReadSecretVersion path version)
  | OpWriteSecretLatest path data => keeps (kv2.WriteSecretLatest path data)
  | OpWriteSecretVersion path version data => keeps (kv2.WriteSecretVersion path version data)
  | OpDeleteSecretLatest path => keeps (kv2.DeleteSecretLatest path)
  | OpDeleteSecretVersion path version => keeps (kv2.DeleteSecretVersion path version)
  | OpUndeleteSecretVersion path version => keeps (kv2.UndeleteSecretVersion path version)
  | OpDestroySecretVersion path version => keeps (kv2.DestroySecretVersion path version)
  | OpListSecretsV2 path => keeps (kv2.ListSecrets path)
  | OpReadSecretMetadata path => keeps (kv2.ReadSecretMetadata path)
  | OpWriteSecretMetadata path cfg => keeps (kv2.WriteSecretMetadata path cfg)
  | OpDeleteSecretMetadata path => keeps (kv2.DeleteSecretMetadata path)
  end.
Proof.
  destruct o; unfold kv2.SetEngineConfig, kv2.EngineConfig, kv2.ReadSecretLatest,
    kv2.WriteSecretLatest, kv2.ReadSecretVersion, kv2.WriteSecretVersion,
    kv2.DeleteSecretLatest, kv2.DeleteSecretVersion, kv2.UndeleteSecretVersion,
    kv2.DestroySecretVersion, kv2.ListSecrets, kv2.ReadSecretMetadata,
    kv2.WriteSecretMetadata, kv2.DeleteSecretMetadata; keeps_tac.
Qed.

(** ** Sessions *)

(** What every single call guarantees carries over to a sequence of
    calls. *)
Lemma session_invariant {Op} (after : Op -> State -> State) (dflt : string) :
  (forall o s, mountStep dflt s (after o s)) ->
  (forall o s, theClient (after o s) = theClient s
               /\ api_NewClient (after o s) = api_NewClient s
               /\ (forall cl, client (self s) = Some cl ->
                              client (self (after o s)) = Some cl)) ->
  (forall o s, exists new, calls (after o s) = (calls s ++ new)%list
                           /\ (List.length new <= 1)%nat
                           /\ forallb plain new = true) ->
  forall (ops : list Op) (s : State),
    mountStep dflt s (session after ops s)
    /\ (mountPath (self s) <> "" ->
        mountPath (self (session after ops s)) = mountPath (self s))
    /\ theClient (session after ops s) = theClient s
    /\ (forall cl, client (self s) = Some cl ->
                   client (self (session after ops s)) = Some cl)
    /\ exists new, calls (session after ops s) = (calls s ++ new)%list
                   /\ (List.length new <= List.length ops)%nat
                   /\ forallb plain new = true.
Proof.
  intros Hmount Hclient Hcalls ops.
  assert (forall s,
             mountStep dflt s (session after ops s)
             /\ theClient (session after ops s) = theClient s
             /\ (forall cl, client (self s) = Some cl ->
                            client (self (session after ops s)) = Some cl)
             /\ exists new, calls (session after ops s) = (calls s ++ new)%list
                            /\ (List.length new <= List.length ops)%nat
                            /\ forallb plain new = true) as H.
  { induction ops as [|o ops IH]; intro s.
    - cbn. repeat split; [apply mountStep_refl | auto |].
      exists []. rewrite app_nil_r. repeat split. cbn. lia.
    - change (session after (o :: ops) s) with (session after ops (after o s)).
      destruct (IH (after o s)) as [I1 [I2 [I3 [new2 [I4 [I5 I6]]]]]].
      destruct (Hclient o s) as [C1 [_ C3]].
      destruct (Hcalls o s) as [new1 [L1 [L2 L3]]].
      split; [exact (mountStep_trans dflt _ _ _ (Hmount o s) I1)|].
      split; [congruence|].
      split; [intros cl Hcl; apply I3, C3, Hcl|].
      exists (new1 ++ new2)%list.
      rewrite I4, L1, app_assoc, length_app, forallb_app, L3, I6.
      repeat split. cbn [List.length]. lia. }
  intro s. destruct (H s) as [H1 [H2 [H3 H4]]].
  split; [exact H1|]. split; [exact (mountStep_stable dflt _ _ H1)|].
  split; [exact H2|]. split; [exact H3|exact H4].
Qed.

Lemma cubbyhole_after_step (o : storeOp) (s : State) :
  mountStep cubbyhole.defaultMountPath s (cubbyhole_after o s)
  /\ (theClient (cubbyhole_after o s) = theClient s
      /\ api_NewClient (cubbyhole_after o s) = api_NewClient s
      /\ (forall cl, client (self s) = Some cl -> client (self (cubbyhole_after o s)) = Some cl))
  /\ exists new, calls (cubbyhole_after o s) = (calls s ++ new)%list
                 /\ (List.length new <= 1)%nat
                 /\ forallb plain new = true.
Proof.
  split; [|split].
  - destruct o as [p|p|p d|p]; cbn;
      [ apply (proj1 (cubbyhole_respects p None))
      | apply (proj1 (proj2 (cubbyhole_respects p None)))
      | apply (proj1 (proj2 (proj2 (cubbyhole_respects p d))))
      | apply (proj2 (proj2 (proj2 (cubbyhole_respects p None)))) ].
  - pose proof (cubbyhole_keeps o) as H. destruct o; apply H.
  - pose proof (cubbyhole_logs o) as H. destruct o; apply H.
Qed.

Lemma kv1_after_step (o : storeOp) (s : State) :
  mountStep kv1.defaultMountPath s (kv1_after o s)
  /\ (theClient (kv1_after o s) = theClient s
      /\ api_NewClient (kv1_after o s) = api_NewClient s
      /\ (forall cl, client (self s) = Some cl -> client (self (kv1_after o s)) = Some cl))
  /\ exists new, calls (kv1_after o s) = (calls s ++ new)%list
                 /\ (List.length new <= 1)%nat
                 /\ forallb plain new = true.
Proof.
  split; [|split].
  - destruct o as [p|p|p d|p]; cbn;
      [ apply (proj1 (kv1_respects p None))
      | apply (proj1 (proj2 (kv1_respects p None)))
      | apply (proj1 (proj2 (proj2 (kv1_respects p d))))
      | apply (proj2 (proj2 (proj2 (kv1_respects p None)))) ].
  - pose proof (kv1_keeps o) as H. destruct o; apply H.
  - pose proof (kv1_logs o) as H. destruct o; apply H.
Qed.

Lemma kv2_after_step (o : kv2Op) (s : State) :
  mountStep kv2.defaultMountPath s (kv2_after o s)
  /\ (theClient (kv2_after o s) = theClient s
      /\ api_NewClient (kv2_after o s) = api_NewClient s
      /\ (forall cl, client (self s) = Some cl -> client (self (kv2_after o s)) = Some cl))
  /\ exists new, calls (kv2_after o s) = (calls s ++ new)%list
                 /\ (List.length new <= 1)%nat
                 /\ forallb plain new = true.
Proof.
  split; [|split].
  - destruct o as [cfg| |p|p v|p d|p v d|p|p vs|p vs|p vs|p|p|p cfg|p]; cbn.
    + apply (kv2_respects "" 0 None None cfg).
    + apply (kv2_respects "" 0 None None kv2.zeroSecretConfig).
    + apply (kv2_respects p 0 None None kv2.zeroSecretConfig).
    + apply (kv2_respects p v None None kv2.zeroSecretConfig).
    + apply (kv2_respects p 0 None d kv2.zeroSecretConfig).
    + apply (kv2_respects p v None d kv2.zeroSecretConfig).
    + apply (kv2_respects p 0 None None kv2.zeroSecretConfig).
    + apply (kv2_respects p 0 vs None kv2.zeroSecretConfig).
    + apply (kv2_respects p 0 vs None kv2.zeroSecretConfig).
    + apply (kv2_respects p 0 vs None kv2.zeroSecretConfig).
    + apply (kv2_respects p 0 None None kv2.zeroSecretConfig).
    + apply (kv2_respects p 0 None None kv2.zeroSecretConfig).
    + apply (kv2_respects p 0 None None cfg).
    + apply (kv2_respects p 0 None None kv2.zeroSecretConfig).
  - pose proof (kv2_keeps o) as H. destruct o; apply H.
  - pose proof (kv2_logs o) as H. destruct o; apply H.
Qed.

(** X1. Whatever sequence of methods is called on a cubbyhole client, from
    whatever state: the mount path changes at most once, from empty to
    [/cubbyhole], and a mount path that is not empty is never changed; the
    transport the client talks to stays the same and an injected one is
    never replaced; the calls already made are kept, at most one is added
    per method called, and none of them is a [DeleteWithData] or an
    [Unwrap]. *)
Theorem cubbyhole_session :
  forall (ops : list storeOp) (s : State),
    mountStep cubbyhole.defaultMountPath s (session cubbyhole_after ops s)
    /\ (mountPath (self s) <> "" ->
        mountPath (self (session cubbyhole_after ops s)) = mountPath (self s))
    /\ theClient (session cubbyhole_after ops s) = theClient s
    /\ (forall cl, client (self s) = Some cl ->
                   client (self (session cubbyhole_after ops s)) = Some cl)
    /\ exists new, calls (session cubbyhole_after ops s) = (calls s ++ new)%list
                   /\ (List.length new <= List.length ops)%nat
                   /\ forallb plain new = true.
Proof.
  apply session_invariant; intros o s.
  - apply cubbyhole_after_step.
  - apply cubbyhole_after_step.
  - apply cubbyhole_after_step.
Qed.

(** X2. The same for a KVv1 client, whose default mount path is
    [/secret]. *)
Theorem kv1_session :
  forall (ops : list storeOp) (s : State),
    mountStep kv1.defaultMountPath s (session kv1_after ops s)
    /\ (mountPath (self s) <> "" ->
        mountPath (self (session kv1_after ops s)) = mountPath (self s))
    /\ theClient (session kv1_after ops s) = theClient s
    /\ (forall cl, client (self s) = Some cl ->
                   client (self (session kv1_after ops s)) = Some cl)
    /\ exists new, calls (session kv1_after ops s) = (calls s ++ new)%list
                   /\ (List.length new <= List.length ops)%nat
                   /\ forallb plain new = true.
Proof.
  apply session_invariant; intros o s.
  - apply kv1_after_step.
  - apply kv1_after_step.
  - apply kv1_after_step.
Qed.

(** X3. The same for a KVv2 client and its fourteen methods: the mount
    path changes at most once, from empty to [/secret]; the transport stays
    the same; at most one plain call is added per method called. *)
Theorem kv2_session :
  forall (ops : list kv2Op) (s : State),
    mountStep kv2.defaultMountPath s (session kv2_after ops s)
    /\ (mountPath (self s) <> "" ->
        mountPath (self (session kv2_after ops s)) = mountPath (self s))
    /\ theClient (session kv2_after ops s) = theClient s
    /\ (forall cl, client (self s) = Some cl ->
                   client (self (session kv2_after ops s)) = Some cl)
    /\ exists new, calls (session kv2_after ops s) = (calls s ++ new)%list
                   /\ (List.length new <= List.length ops)%nat
                   /\ forallb plain new = true.
Proof.
  apply session_invariant; intros o s.
  - apply kv2_after_step.
  - apply kv2_after_step.
  - apply kv2_after_step.
Qed.

(** ** Writes and deletes forward the transport's verdict *)

Lemma forward_run (cl : vault.LogicalClient) (k : Call) (s : State) :
  (call cl k ;;; ret tt) s = (verdict (answer cl k), called k s).
Proof.
  unfold bind, call, ret, verdict. destruct (answer cl k) as [secret [err|]]; reflexivity.
Qed.

Lemma issued_called {A} (m : M A) (s s1 : State) (k : Call) (r : error + A) :
  calls s1 = calls s -> m s = (r, called k s1) -> issued m s = [k].
Proof. intros Hc Hm. apply (issued_one m s s1 k Hc). now rewrite Hm. Qed.

(** X4. [WriteSecret] of the cubbyhole and of the KVv1 client, for a
    non-empty path: one [Write] of the mount path (defaulted when empty)
    joined with the path, carrying the caller's data map itself; the result
    is the transport's error, unwrapped, or nil, and the secret the
    transport returns is ignored. *)
Theorem store_WriteSecret_forwards :
  forall (s : State) (cl : vault.LogicalClient) (path : string) (data : gomap),
    path <> "" ->
    theClient s = Some cl ->
    (issued (cubbyhole.WriteSecret path data) s
     = [CallWrite (pathJoin [mountOr cubbyhole.defaultMountPath s; path]) data]
     /\ fst (cubbyhole.WriteSecret path data s)
        = verdict (vault.Write cl (pathJoin [mountOr cubbyhole.defaultMountPath s; path]) data))
    /\ (issued (kv1.WriteSecret path data) s
        = [CallWrite (pathJoin [mountOr kv1.defaultMountPath s; path]) data]
        /\ fst (kv1.WriteSecret path data s)
           = verdict (vault.Write cl (pathJoin [mountOr kv1.defaultMountPath s; path]) data)).
Proof.
  intros s cl path data Hpath Hcl. split.
  - assert (cubbyhole.WriteSecret path data s
            = (verdict (vault.Write cl (pathJoin [mountOr cubbyhole.defaultMountPath s; path]) data),
               called (CallWrite (pathJoin [mountOr cubbyhole.defaultMountPath s; path]) data)
                 (ready cubbyhole.defaultMountPath cl s))) as E.
    { unfold cubbyhole.WriteSecret.
      rewrite (cubbyhole_prelude _ _ path s cl Hpath Hcl). apply forward_run. }
    split; [exact (issued_called _ s (ready cubbyhole.defaultMountPath cl s) _ _ eq_refl E) | now rewrite E].
  - assert (kv1.WriteSecret path data s
            = (verdict (vault.Write cl (pathJoin [mountOr kv1.defaultMountPath s; path]) data),
               called (CallWrite (pathJoin [mountOr kv1.defaultMountPath s; path]) data)
                 (ready kv1.defaultMountPath cl s))) as E.
    { unfold kv1.WriteSecret.
      rewrite (kv1_prelude _ _ path s cl Hpath Hcl). apply forward_run. }
    split; [exact (issued_called _ s (ready kv1.defaultMountPath cl s) _ _ eq_refl E) | now rewrite E].
Qed.

Lemma store_WriteSecret_forwards_witness :
  issued (cubbyhole.WriteSecret "some/path" (Some [("foo", VString "bar")]))
    (start (NewClient "/my-cubbyhole" (Some (mock (None, Some (errors_New "denied"))))))
  = [CallWrite (pathJoin ["/my-cubbyhole"; "some/path"]) (Some [("foo", VString "bar")])]
  /\ fst (cubbyhole.WriteSecret "some/path" (Some [("foo", VString "bar")])
            (start (NewClient "/my-cubbyhole" (Some (mock (None, Some (errors_New "denied")))))))
     = inl (errors_New "denied").
Proof.
  exact (proj1 (store_WriteSecret_forwards
                  (start (NewClient "/my-cubbyhole"
                            (Some (mock (None, Some (errors_New "denied"))))))
                  _ "some/path" (Some [("foo", VString "bar")])
                  ltac:(discriminate) eq_refl)).
Defined.

(** X5. [DeleteSecret] of the cubbyhole and of the KVv1 client, for a
    non-empty path: one [Delete] of the mount path (defaulted when empty)
    joined with the path; the result is the transport's error, unwrapped,
    or nil. *)
Theorem store_DeleteSecret_forwards :
  forall (s : State) (cl : vault.LogicalClient) (path : string),
    path <> "" ->
    theClient s = Some cl ->
    (issued (cubbyhole.DeleteSecret path) s
     = [CallDelete (pathJoin [mountOr cubbyhole.defaultMountPath s; path])]
     /\ fst (cubbyhole.DeleteSecret path s)
        = verdict (vault.Delete cl (pathJoin [mountOr cubbyhole.defaultMountPath s; path])))
    /\ (issued (kv1.DeleteSecret path) s
        = [CallDelete (pathJoin [mountOr kv1.defaultMountPath s; path])]
        /\ fst (kv1.DeleteSecret path s)
           = verdict (vault.Delete cl (pathJoin [mountOr kv1.defaultMountPath s; path]))).
Proof.
  intros s cl path Hpath Hcl. split.
  - assert (cubbyhole.DeleteSecret path s
            = (verdict (vault.Delete cl (pathJoin [mountOr cubbyhole.defaultMountPath s; path])),
               called (CallDelete (pathJoin [mountOr cubbyhole.defaultMountPath s; path]))
                 (ready cubbyhole.defaultMountPath cl s))) as E.
    { unfold cubbyhole.DeleteSecret.
      rewrite (cubbyhole_prelude _ _ path s cl Hpath Hcl). apply forward_run. }
    split; [exact (issued_called _ s (ready cubbyhole.defaultMountPath cl s) _ _ eq_refl E) | now rewrite E].
  - assert (kv1.DeleteSecret path s
            = (verdict (vault.Delete cl (pathJoin [mountOr kv1.defaultMountPath s; path])),
               called (CallDelete (pathJoin [mountOr kv1.defaultMountPath s; path]))
                 (ready kv1.defaultMountPath cl s))) as E.
    { unfold kv1.DeleteSecret.
      rewrite (kv1_prelude _ _ path s cl Hpath Hcl). apply forward_run. }
    split; [exact (issued_called _ s (ready kv1.defaultMountPath cl s) _ _ eq_refl E) | now rewrite E].
Qed.

Lemma store_DeleteSecret_forwards_witness :
  issued (kv1.DeleteSecret "some/path") (start (NewClient "" (Some (mock (None, None)))))
  = [CallDelete (pathJoin ["/secret"; "some/path"])]
  /\ fst (kv1.DeleteSecret "some/path" (start (NewClient "" (Some (mock (None, None))))))
     = inr tt.
Proof.
  exact (proj2 (store_DeleteSecret_forwards
                  (start (NewClient "" (Some (mock (None, None))))) _ "some/path"
                  ltac:(discriminate) eq_refl)).
Defined.

(** ** Reads *)

(** X6. [ReadSecret] of the KVv1 client, for a non-empty path and a
    transport that answers without error with an envelope that is not
    empty: one [Read] of the mount path (defaulted when empty) joined with
    the path, and the result is the envelope's data map itself, with no
    error. *)
Theorem kv1_ReadSecret_result :
  forall (s : State) (cl : vault.LogicalClient) (path : string) (sec : vault.Secret),
    path <> "" ->
    theClient s = Some cl ->
    vault.Read cl (pathJoin [mountOr kv1.defaultMountPath s; path]) = (Some sec, None) ->
    len (vault.Data sec) <> 0%nat ->
    fst (kv1.ReadSecret path s) = inr (vault.Data sec)
    /\ issued (kv1.ReadSecret path) s
       = [CallRead (pathJoin [mountOr kv1.defaultMountPath s; path])].
Proof.
  intros s cl path sec Hpath Hcl Hread Hlen.
  assert (kv1.ReadSecret path s
          = (inr (vault.Data sec),
             called (CallRead (pathJoin [mountOr kv1.defaultMountPath s; path]))
               (ready kv1.defaultMountPath cl s))) as E.
  { unfold kv1.ReadSecret. rewrite (kv1_prelude _ _ path s cl Hpath Hcl).
    rewrite bind_eq, (call_ok cl (CallRead _) (Some sec) _ Hread).
    now rewrite (noData_false _ Hlen). }
  split; [now rewrite E|].
  exact (issued_called _ s (ready kv1.defaultMountPath cl s) _ _ eq_refl E).
Qed.

Lemma kv1_ReadSecret_result_witness :
  fst (kv1.ReadSecret "some/nested/path"
         (start (NewClient "/my-kv" (Some (mock (envelope (Some [("foo", VString "bar")])))))))
  = inr (Some [("foo", VString "bar")])
  /\ issued (kv1.ReadSecret "some/nested/path")
       (start (NewClient "/my-kv" (Some (mock (envelope (Some [("foo", VString "bar")]))))))
     = [CallRead (pathJoin ["/my-kv"; "some/nested/path"])].
Proof.
  exact (kv1_ReadSecret_result
           (start (NewClient "/my-kv" (Some (mock (envelope (Some [("foo", VString "bar")]))))))
           _ "some/nested/path" {| vault.Data := Some [("foo", VString "bar")] |}
           ltac:(discriminate) eq_refl eq_refl ltac:(discriminate)).
Defined.

(** ** An error of the transport comes back as it is *)

(** X7. When the transport answers the read or the list with an error,
    [ReadSecret] and [ListSecrets] of the cubbyhole and of the KVv1 client
    return that very error, not wrapped, whatever secret came with it. *)
Theorem store_transport_error :
  forall (s : State) (cl : vault.LogicalClient) (path : string)
         (secret : option vault.Secret) (err : error),
    path <> "" ->
    theClient s = Some cl ->
    (vault.Read cl (pathJoin [mountOr cubbyhole.defaultMountPath s; path]) = (secret, Some err) ->
     fst (cubbyhole.ReadSecret path s) = inl err)
    /\ (vault.List cl (pathJoin [mountOr cubbyhole.defaultMountPath s; path])
        = (secret, Some err) ->
        fst (cubbyhole.ListSecrets path s) = inl err)
    /\ (vault.Read cl (pathJoin [mountOr kv1.defaultMountPath s; path]) = (secret, Some err) ->
        fst (kv1.ReadSecret path s) = inl err)
    /\ (vault.List cl (pathJoin [mountOr kv1.defaultMountPath s; path]) = (secret, Some err) ->
        fst (kv1.ListSecrets path s) = inl err).
Proof.
  intros s cl path secret err Hpath Hcl.
  repeat split; intro Hresp.
  - unfold cubbyhole.ReadSecret. rewrite (cubbyhole_prelude _ _ path s cl Hpath Hcl).
    now rewrite bind_eq, (call_err cl (CallRead _) secret err _ Hresp).
  - unfold cubbyhole.ListSecrets. rewrite (cubbyhole_prelude _ _ path s cl Hpath Hcl).
    now rewrite bind_eq, (call_err cl (CallList _) secret err _ Hresp).
  - unfold kv1.ReadSecret. rewrite (kv1_prelude _ _ path s cl Hpath Hcl).
    now rewrite bind_eq, (call_err cl (CallRead _) secret err _ Hresp).
  - unfold kv1.ListSecrets. rewrite (kv1_prelude _ _ path s cl Hpath Hcl).
    now rewrite bind_eq, (call_err cl (CallList _) secret err _ Hresp).
Qed.

Lemma store_transport_error_witness :
  fst (cubbyhole.ReadSecret "test"
         (start (NewClient ""
                   (Some (mock (Some {| vault.Data := Some [("foo", VString "bar")] |},
                                Some (errors_New "error")))))))
  = inl (errors_New "error").
Proof.
  exact (proj1 (store_transport_error
                  (start (NewClient ""
                            (Some (mock (Some {| vault.Data := Some [("foo", VString "bar")] |},
                                         Some (errors_New "error"))))))
                  _ "test" _ (errors_New "error") ltac:(discriminate) eq_refl) eq_refl).
Defined.



(** ** The version actions of the KVv2 client *)

(** X9. Given at least one version, [DeleteSecretVersion],
    [UndeleteSecretVersion] and [DestroySecretVersion] each make one
    [Write] to the mount path as the client holds it (it is not defaulted
    here) joined with [delete], [undelete] or [destroy] and the path, with
    the payload whose only entry is [versions], the slice given; the result
    is the transport's error, unwrapped, or nil. *)
Theorem kv2_version_actions_write :
  forall (s : State) (cl : vault.LogicalClient) (path : string)
         (version : option (list Z)),
    theClient s = Some cl ->
    kv2.lenInts version <> 0%nat ->
    (issued (kv2.DeleteSecretVersion path version) s
     = [CallWrite (pathJoin [mountPath (self s); "delete"; path])
          (Some [("versions", VInts version)])]
     /\ fst (kv2.DeleteSecretVersion path version s)
        = verdict (vault.Write cl (pathJoin [mountPath (self s); "delete"; path])
                     (Some [("versions", VInts version)])))
    /\ (issued (kv2.UndeleteSecretVersion path version) s
        = [CallWrite (pathJoin [mountPath (self s); "undelete"; path])
             (Some [("versions", VInts version)])]
        /\ fst (kv2.UndeleteSecretVersion path version s)
           = verdict (vault.Write cl (pathJoin [mountPath (self s); "undelete"; path])
                        (Some [("versions", VInts version)])))
    /\ (issued (kv2.DestroySecretVersion path version) s
        = [CallWrite (pathJoin [mountPath (self s); "destroy"; path])
             (Some [("versions", VInts version)])]
        /\ fst (kv2.DestroySecretVersion path version s)
           = verdict (vault.Write cl (pathJoin [mountPath (self s); "destroy"; path])
                        (Some [("versions", VInts version)]))).
Proof.
  intros s cl path version Hcl Hlen. apply Nat.eqb_neq in Hlen.
  unfold issued, kv2.DeleteSecretVersion, kv2.UndeleteSecretVersion,
    kv2.DestroySecretVersion.
  rewrite Hlen, !(kv2_action_run s cl _ _ _ Hcl). cbn [fst snd called calls].
  unfold verdict. repeat split; apply skipn_app_exact.
Qed.

Lemma kv2_version_actions_write_witness :
  issued (kv2.DestroySecretVersion "foo" (Some [1; 3]))
    (start (NewClient "/secret" (Some (mock (None, None)))))
  = [CallWrite (pathJoin ["/secret"; "destroy"; "foo"])
       (Some [("versions", VInts (Some [1; 3]))])]
  /\ fst (kv2.DestroySecretVersion "foo" (Some [1; 3])
            (start (NewClient "/secret" (Some (mock (None, None))))))
     = inr tt.
Proof.
  exact (proj2 (proj2 (kv2_version_actions_write
                         (start (NewClient "/secret" (Some (mock (None, None))))) _ "foo"
                         (Some [1; 3]) eq_refl ltac:(discriminate)))).
Defined.

(** ** The transport of a client *)


Lemma env_fails (s : State) (err : error) :
  client (self s) = None -> api_NewClient s = inl err -> vaultClient s = (inl err, s).
Proof. intros Hc He. unfold vaultClient. now rewrite Hc, He. Qed.

Lemma secretPath_env_cubbyhole (path : string) (s s1 : State) (p : string) (err : error) :
  client (self s) = None -> api_NewClient s = inl err ->
  cubbyhole.secretPath path s = (inr p, s1) ->
  client (self s1) = None /\ api_NewClient s1 = inl err.
Proof.
  intros Hc He. unfold cubbyhole.secretPath. destruct (String.eqb path ""); [discriminate|].
  unfold bind, getMountPath, setMountPath, ret; cbn.
  destruct (String.eqb (mountPath (self s)) ""); cbn; intros [= _ <-]; now split.
Qed.

Lemma secretPath_env_kv1 (path : string) (s s1 : State) (p : string) (err : error) :
  client (self s) = None -> api_NewClient s = inl err ->
  kv1.secretPath path s = (inr p, s1) ->
  client (self s1) = None /\ api_NewClient s1 = inl err.
Proof.
  intros Hc He. unfold kv1.secretPath. destruct (String.eqb path ""); [discriminate|].
  unfold bind, getMountPath, setMountPath, ret; cbn.
  destruct (String.eqb (mountPath (self s)) ""); cbn; intros [= _ <-]; now split.
Qed.

Lemma secretPath_env_kv2 (path : string) (metadata : bool) (s s1 : State) (p : string)
    (err : error) :
  client (self s) = None -> api_NewClient s = inl err ->
  kv2.secretPath path metadata s = (inr p, s1) ->
  client (self s1) = None /\ api_NewClient s1 = inl err.
Proof.
  intros Hc He. unfold kv2.secretPath. destruct (String.eqb path ""); [discriminate|].
  unfold bind, getMountPath, setMountPath, ret; cbn.
  destruct (String.eqb (mountPath (self s)) ""); cbn; intros [= _ <-]; now split.
Qed.

Lemma secretPath_total_cubbyhole (path : string) (s : State) :
  path <> "" -> exists p s1, cubbyhole.secretPath path s = (inr p, s1).
Proof.
  intro Hpath. destruct (cubbyhole_secretPath_defaults path s Hpath) as [[p Hp] _].
  eauto.
Qed.

Lemma secretPath_total_kv1 (path : string) (s : State) :
  path <> "" -> exists p s1, kv1.secretPath path s = (inr p, s1).
Proof.
  intro Hpath. destruct (kv1_secretPath_defaults path s Hpath) as [[p Hp] _]. eauto.
Qed.

Lemma secretPath_total_kv2 (path : string) (metadata : bool) (s : State) :
  path <> "" -> exists p s1, kv2.secretPath path metadata s = (inr p, s1).
Proof.
  intro Hpath. destruct (kv2_secretPath_defaults path metadata s Hpath) as [[p Hp] _].
  eauto.
Qed.

(** Without a client, a method that starts with [secretPath] and
    [vaultClient] ends with the error of the environment. *)
Lemma through_env {A B} (sp : M A) (k : A -> vault.LogicalClient -> M B) (s : State)
    (err : error) :
  (exists p s1, sp s = (inr p, s1)
                /\ client (self s1) = None /\ api_NewClient s1 = inl err) ->
  fst ((p <- sp ;; c <- vaultClient ;; k p c) s) = inl err.
Proof.
  intros [p [s1 [E [Hc He]]]]. rewrite bind_eq, E, bind_eq, (env_fails s1 err Hc He).
  reflexivity.
Qed.

(** X11. A cubbyhole or KVv1 client without an injected transport, in an
    environment where [api.NewClient] fails: every method given a
    non-empty path returns the error of [api.NewClient] itself. *)
Theorem store_no_transport :
  forall (s : State) (err : error) (path : string) (data : gomap),
    client (self s) = None ->
    api_NewClient s = inl err ->
    path <> "" ->
    (fst (cubbyhole.ReadSecret path s) = inl err
     /\ fst (cubbyhole.ListSecrets path s) = inl err
     /\ fst (cubbyhole.WriteSecret path data s) = inl err
     /\ fst (cubbyhole.DeleteSecret path s) = inl err)
    /\ (fst (kv1.ReadSecret path s) = inl err
        /\ fst (kv1.ListSecrets path s) = inl err
        /\ fst (kv1.WriteSecret path data s) = inl err
        /\ fst (kv1.DeleteSecret path s) = inl err).
Proof.
  intros s err path data Hc He Hpath.
  assert (exists p s1, cubbyhole.secretPath path s = (inr p, s1)
                       /\ client (self s1) = None /\ api_NewClient s1 = inl err) as Hcub.
  { destruct (secretPath_total_cubbyhole path s Hpath) as [p [s1 E]].
    exists p, s1. split; [exact E|]. exact (secretPath_env_cubbyhole _ _ _ _ _ Hc He E). }
  assert (exists p s1, kv1.secretPath path s = (inr p, s1)
                       /\ client (self s1) = None /\ api_NewClient s1 = inl err) as Hkv1.
  { destruct (secretPath_total_kv1 path s Hpath) as [p [s1 E]].
    exists p, s1. split; [exact E|]. exact (secretPath_env_kv1 _ _ _ _ _ Hc He E). }
  unfold cubbyhole.ReadSecret, cubbyhole.ListSecrets, cubbyhole.WriteSecret,
    cubbyhole.DeleteSecret, kv1.ReadSecret, kv1.ListSecrets, kv1.WriteSecret,
    kv1.DeleteSecret.
  repeat split; first [exact (through_env _ _ s err Hcub) | exact (through_env _ _ s err Hkv1)].
Qed.

Lemma store_no_transport_witness :
  fst (cubbyhole.ReadSecret "some/nested/path" (start cubbyhole.DefaultClient))
  = inl (errors_New "api: no client")
  /\ fst (kv1.WriteSecret "some/path" (Some [("foo", VString "bar")]) (start kv1.DefaultClient))
     = inl (errors_New "api: no client").
Proof.
  pose proof (store_no_transport (start cubbyhole.DefaultClient) (errors_New "api: no client")
                "some/nested/path" None eq_refl eq_refl ltac:(discriminate)) as [[H1 _] _].
  pose proof (store_no_transport (start kv1.DefaultClient) (errors_New "api: no client")
                "some/path" (Some [("foo", VString "bar")]) eq_refl eq_refl
                ltac:(discriminate)) as [_ [_ [_ [H2 _]]]].
  split; assumption.
Defined.

(** X12. The same for a KVv2 client: without an injected transport, and
    with [api.NewClient] failing, the methods return the error of
    [api.NewClient] itself: [SetEngineConfig], [EngineConfig] and
    [DeleteSecretVersion] always, the methods that go through [secretPath]
    when the path is not empty, [UndeleteSecretVersion] and
    [DestroySecretVersion] when a version is given. *)
Theorem kv2_no_transport :
  forall (s : State) (err : error) (path : string) (version : Z)
         (versions : option (list Z)) (data : gomap) (cfg : kv2.SecretConfig),
    client (self s) = None ->
    api_NewClient s = inl err ->
    (fst (kv2.SetEngineConfig cfg s) = inl err
     /\ fst (kv2.EngineConfig s) = inl err
     /\ fst (kv2.DeleteSecretVersion path versions s) = inl err)
    /\ (path <> "" ->
        fst (kv2.ReadSecretVersion path version s) = inl err
        /\ fst (kv2.WriteSecretVersion path version data s) = inl err
        /\ fst (kv2.DeleteSecretLatest path s) = inl err
        /\ fst (kv2.ListSecrets path s) = inl err
        /\ fst (kv2.ReadSecretMetadata path s) = inl err
        /\ fst (kv2.WriteSecretMetadata path cfg s) = inl err
        /\ fst (kv2.DeleteSecretMetadata path s) = inl err)
    /\ (kv2.lenInts versions <> 0%nat ->
        fst (kv2.UndeleteSecretVersion path versions s) = inl err
        /\ fst (kv2.DestroySecretVersion path versions s) = inl err).
Proof.
  intros s err path version versions data cfg Hc He.
  split; [|split].
  - unfold kv2.SetEngineConfig, kv2.EngineConfig, kv2.DeleteSecretVersion.
    rewrite !bind_eq, (env_fails s err Hc He). repeat split.
  - intro Hpath.
    assert (forall md, exists p s1, kv2.secretPath path md s = (inr p, s1)
                         /\ client (self s1) = None /\ api_NewClient s1 = inl err) as Hsp.
    { intro md. destruct (secretPath_total_kv2 path md s Hpath) as [p [s1 E]].
      exists p, s1. split; [exact E|]. exact (secretPath_env_kv2 _ _ _ _ _ _ Hc He E). }
    unfold kv2.ReadSecretVersion, kv2.WriteSecretVersion, kv2.DeleteSecretLatest,
      kv2.ListSecrets, kv2.ReadSecretMetadata, kv2.WriteSecretMetadata,
      kv2.DeleteSecretMetadata.
    repeat split;
      first [exact (through_env _ _ s err (Hsp false)) | exact (through_env _ _ s err (Hsp true))].
  - intro Hlen. apply Nat.eqb_neq in Hlen.
    unfold kv2.UndeleteSecretVersion, kv2.DestroySecretVersion.
    rewrite Hlen, !bind_eq, (env_fails s err Hc He). split; reflexivity.
Qed.

Lemma kv2_no_transport_witness :
  fst (kv2.EngineConfig (start kv2.DefaultClient)) = inl (errors_New "api: no client")
  /\ fst (kv2.ReadSecretLatest "some/nested/path" (start kv2.DefaultClient))
     = inl (errors_New "api: no client").
Proof.
  pose proof (kv2_no_transport (start kv2.DefaultClient) (errors_New "api: no client")
                "some/nested/path" (-1) None None kv2.zeroSecretConfig eq_refl eq_refl)
    as [[_ [H1 _]] [H2 _]].
  split; [exact H1 | exact (proj1 (H2 ltac:(discriminate)))].
Defined.

(** ** Validation comes first *)

(** X13. Given the empty path, every method of the cubbyhole and of the
    KVv1 client returns the validation error of its package (for the
    cubbyhole the exported [ErrEmptyPath] itself), makes no call, and
    leaves the client as it was: the mount path is not defaulted and the
    environment is not asked for a transport. *)
Theorem store_empty_path_rejected :
  forall (s : State) (data : gomap),
    (cubbyhole.ReadSecret "" s = (inl ErrEmptyPath, s)
     /\ cubbyhole.ListSecrets "" s = (inl ErrEmptyPath, s)
     /\ cubbyhole.WriteSecret "" data s = (inl ErrEmptyPath, s)
     /\ cubbyhole.DeleteSecret "" s = (inl ErrEmptyPath, s))
    /\ (kv1.ReadSecret "" s = (inl (errors_New "vault: secret path is empty"), s)
        /\ kv1.ListSecrets "" s = (inl (errors_New "vault: secret path is empty"), s)
        /\ kv1.WriteSecret "" data s = (inl (errors_New "vault: secret path is empty"), s)
        /\ kv1.DeleteSecret "" s = (inl (errors_New "vault: secret path is empty"), s))
    /\ (issued (cubbyhole.WriteSecret "" data) s = []
        /\ issued (kv1.WriteSecret "" data) s = [])
    /\ errors_Is ErrEmptyPath ErrNoSecretData = false.
Proof.
  intros s data.
  split; [exact (cubbyhole_empty_path s data)|].
  split; [exact (kv1_empty_path s data)|].
  split; [|reflexivity].
  split; apply (issued_none _ s s eq_refl); reflexivity.
Qed.

(** X14. Given the empty path, every method of the KVv2 client that goes
    through [secretPath] (reads, writes, the delete of the latest version,
    the list and the metadata methods) returns the validation error, makes
    no call and leaves the client as it was. *)
Theorem kv2_empty_path_rejected :
  forall (s : State) (version : Z) (data : gomap) (cfg : kv2.SecretConfig),
    (kv2.ReadSecretLatest "" s = (inl (errors_New "kv2: secret path is empty"), s)
     /\ kv2.ReadSecretVersion "" version s = (inl (errors_New "kv2: secret path is empty"), s)
     /\ kv2.WriteSecretLatest "" data s = (inl (errors_New "kv2: secret path is empty"), s)
     /\ kv2.WriteSecretVersion "" version data s
        = (inl (errors_New "kv2: secret path is empty"), s)
     /\ kv2.DeleteSecretLatest "" s = (inl (errors_New "kv2: secret path is empty"), s)
     /\ kv2.ListSecrets "" s = (inl (errors_New "kv2: secret path is empty"), s)
     /\ kv2.ReadSecretMetadata "" s = (inl (errors_New "kv2: secret path is empty"), s)
     /\ kv2.WriteSecretMetadata "" cfg s = (inl (errors_New "kv2: secret path is empty"), s)
     /\ kv2.DeleteSecretMetadata "" s = (inl (errors_New "kv2: secret path is empty"), s))
    /\ issued (kv2.WriteSecretVersion "" version data) s = []
    /\ issued (kv2.DeleteSecretMetadata "") s = [].
Proof.
  intros s version data cfg.
  split; [exact (kv2_empty_path s version data cfg)|].
  split; apply (issued_none _ s s eq_refl); reflexivity.
Qed.

(** X15. [UndeleteSecretVersion] and [DestroySecretVersion] called without
    a version return their validation error before anything else: whatever
    the path, whether or not a transport is available, no call is made and
    the client is left as it was. *)
Theorem kv2_Undelete_Destroy_require_versions :
  forall (s : State) (path : string) (version : option (list Z)),
    kv2.lenInts version = 0%nat ->
    kv2.UndeleteSecretVersion path version s
    = (inl (errors_New "kv2: must specify at least one version"), s)
    /\ kv2.DestroySecretVersion path version s
       = (inl (errors_New "kv2: must specify at least one version"), s)
    /\ issued (kv2.UndeleteSecretVersion path version) s = []
    /\ issued (kv2.DestroySecretVersion path version) s = [].
Proof.
  intros s path version Hlen.
  destruct (kv2_Undelete_Destroy_no_versions s path version Hlen) as [Hu Hd].
  split; [exact Hu|]. split; [exact Hd|].
  split; apply (issued_none _ s s eq_refl); [now rewrite Hu | now rewrite Hd].
Qed.

Lemma kv2_Undelete_Destroy_require_versions_witness :
  kv2.UndeleteSecretVersion "foo" None (start (NewClient "/secret" (Some (mock (None, None)))))
  = (inl (errors_New "kv2: must specify at least one version"),
     start (NewClient "/secret" (Some (mock (None, None)))))
  /\ kv2.DestroySecretVersion "foo" (Some []) (start kv2.DefaultClient)
     = (inl (errors_New "kv2: must specify at least one version"), start kv2.DefaultClient).
Proof.
  split.
  - exact (proj1 (kv2_Undelete_Destroy_require_versions
                    (start (NewClient "/secret" (Some (mock (None, None))))) "foo" None
                    eq_refl)).
  - exact (proj1 (proj2 (kv2_Undelete_Destroy_require_versions
                           (start kv2.DefaultClient) "foo" (Some []) eq_refl))).
Defined.

(** ** The mount path on first use *)



(** ** Decoding a list of keys *)

Lemma index_field (d : dict) (k : string) (v : value) :
  index d k = Some v -> mapstructure.field d k = Some v.
Proof. intro H. unfold mapstructure.field. now rewrite H. Qed.

Lemma field_some_nonempty (d : dict) (k : string) (v : value) :
  mapstructure.field d k = Some v -> d <> [].
Proof. intros H ->. discriminate H. Qed.

Lemma decodeElems_strings (name : string) (keys : list string) (i : nat) :
  mapstructure.decodeElems "" mapstructure.decodeString name i (map VString keys)
  = (keys, []).
Proof.
  revert i. induction keys as [|k keys IH]; intro i; [reflexivity|].
  cbn. now rewrite IH.
Qed.

(** A slice of strings, of either type, decodes to itself. *)
Lemma decodeSlice_strings (name : string) (v : value) (keys : list string) :
  v = VSlice (Some (map VString keys)) \/ v = VStrings (Some keys) ->
  mapstructure.decode None (mapstructure.decodeSlice "" mapstructure.decodeString) name v
  = (Some keys, []).
Proof.
  intros [-> | ->]; cbn; unfold mapstructure.decodeSlice; cbn;
    now rewrite decodeElems_strings.
Qed.

Lemma keysFromMap_strings (name : string) (d : dict) (v : value) (keys : list string) :
  mapstructure.field d "keys" = Some v ->
  v = VSlice (Some (map VString keys)) \/ v = VStrings (Some keys) ->
  keysFromMap name d = (Some keys, []).
Proof.
  intros Hf Hv. unfold keysFromMap, mapstructure.decodeField. rewrite Hf.
  now apply decodeSlice_strings.
Qed.

(** X17. When the envelope of the list response holds a slice of strings
    (a [[]interface{}] of strings or a [[]string]) in the entry the decoder
    takes for [keys] (for the KVv2 client: in the entry for [keys] of the
    map in its entry for [Data]), [ListSecrets] of each of the three
    clients returns exactly those strings, in their order, and no error. *)
Theorem ListSecrets_returns_keys :
  forall (s : State) (cl : vault.LogicalClient) (path : string) (env inner : dict)
         (v : value) (keys : list string),
    path <> "" ->
    theClient s = Some cl ->
    v = VSlice (Some (map VString keys)) \/ v = VStrings (Some keys) ->
    (vault.List cl (pathJoin [mountOr cubbyhole.defaultMountPath s; path])
     = envelope (Some env) ->
     mapstructure.field env "keys" = Some v ->
     fst (cubbyhole.ListSecrets path s) = inr (Some keys))
    /\ (vault.List cl (pathJoin [mountOr kv1.defaultMountPath s; path])
        = envelope (Some env) ->
        mapstructure.field env "keys" = Some v ->
        fst (kv1.ListSecrets path s) = inr (Some keys))
    /\ (vault.List cl (pathJoin [mountOr kv2.defaultMountPath s; "metadata"; path])
        = envelope (Some env) ->
        mapstructure.field env "Data" = Some (VMap (Some inner)) ->
        mapstructure.field inner "keys" = Some v ->
        fst (kv2.ListSecrets path s) = inr (Some keys)).
Proof.
  intros s cl path env inner v keys Hpath Hcl Hv.
  split; [|split].
  - intros Hlist Hkeys.
    rewrite (ListSecrets_run_cubbyhole s cl path _ Hpath Hcl Hlist).
    rewrite (noData_entries env (field_some_nonempty _ _ _ Hkeys)).
    unfold mapstructure.Decode, mapstructure.decodeStruct; cbn [dataOf vault.Data].
    now rewrite (keysFromMap_strings "" env v keys Hkeys Hv).
  - intros Hlist Hkeys.
    rewrite (ListSecrets_run_kv1 s cl path _ Hpath Hcl Hlist).
    rewrite (noData_entries env (field_some_nonempty _ _ _ Hkeys)).
    unfold mapstructure.Decode, mapstructure.decodeStruct; cbn [dataOf vault.Data].
    now rewrite (keysFromMap_strings "" env v keys Hkeys Hv).
  - intros Hlist Hdata Hkeys.
    rewrite (ListSecrets_run_kv2 s cl path _ Hpath Hcl Hlist).
    rewrite (noData_entries env (field_some_nonempty _ _ _ Hdata)).
    unfold mapstructure.Decode; cbn [dataOf vault.Data mapstructure.decodeStruct].
    unfold kv2.auxKeysFromMap, mapstructure.decodeField. rewrite Hdata.
    cbn [mapstructure.decode mapstructure.qualify String.eqb mapstructure.decodeStruct].
    now rewrite (keysFromMap_strings _ inner v keys Hkeys Hv).
Qed.

Lemma ListSecrets_returns_keys_witness :
  fst (cubbyhole.ListSecrets "foo"
         (start (NewClient ""
                   (Some (mock (envelope (Some [("keys", VStrings (Some ["a"; "b/"]))])))))))
  = inr (Some ["a"; "b/"])
  /\ fst (kv2.ListSecrets "foo"
            (start (NewClient ""
                      (Some (mock (envelope
                                     (Some [("data",
                                             VMap (Some [("keys",
                                                          VSlice (Some [VString "a";
                                                                        VString "b/"]))]))])))))))
     = inr (Some ["a"; "b/"]).
Proof.
  split.
  - exact (proj1 (ListSecrets_returns_keys
                    (start (NewClient "" (Some (mock _)))) _ "foo"
                    [("keys", VStrings (Some ["a"; "b/"]))] [] _ ["a"; "b/"]
                    ltac:(discriminate) eq_refl (or_intror eq_refl)) eq_refl eq_refl).
  - exact (proj2 (proj2 (ListSecrets_returns_keys
                    (start (NewClient "" (Some (mock _)))) _ "foo"
                    [("data", VMap (Some [("keys", VSlice (Some [VString "a"; VString "b/"]))]))]
                    [("keys", VSlice (Some [VString "a"; VString "b/"]))] _ ["a"; "b/"]
                    ltac:(discriminate) eq_refl (or_introl eq_refl))) eq_refl eq_refl eq_refl).
Defined.

(** X18. When the entry the decoder takes for [keys] holds a value that is
    neither nil nor a slice, [ListSecrets] of each of the three clients
    returns a decode error that names the entry, and no list; the same for
    the KVv2 client when its entry for [Data] is neither nil nor a map. *)
Theorem ListSecrets_wrong_shape :
  forall (s : State) (cl : vault.LogicalClient) (path : string) (env inner : dict)
         (v : value),
    path <> "" ->
    theClient s = Some cl ->
    v <> VNil ->
    (mapstructure.elements v = None ->
     (vault.List cl (pathJoin [mountOr cubbyhole.defaultMountPath s; path])
      = envelope (Some env) ->
      mapstructure.field env "keys" = Some v ->
      fst (cubbyhole.ListSecrets path s) = inl (mapstructure_Error ["keys"]))
     /\ (vault.List cl (pathJoin [mountOr kv1.defaultMountPath s; path])
         = envelope (Some env) ->
         mapstructure.field env "keys" = Some v ->
         fst (kv1.ListSecrets path s) = inl (mapstructure_Error ["keys"]))
     /\ (vault.List cl (pathJoin [mountOr kv2.defaultMountPath s; "metadata"; path])
         = envelope (Some env) ->
         mapstructure.field env "Data" = Some (VMap (Some inner)) ->
         mapstructure.field inner "keys" = Some v ->
         fst (kv2.ListSecrets path s) = inl (mapstructure_Error ["Data.keys"])))
    /\ ((forall m, v <> VMap m) ->
        vault.List cl (pathJoin [mountOr kv2.defaultMountPath s; "metadata"; path])
        = envelope (Some env) ->
        mapstructure.field env "Data" = Some v ->
        fst (kv2.ListSecrets path s) = inl (mapstructure_Error ["Data"])).
Proof.
  intros s cl path env inner v Hpath Hcl Hnil.
  assert (forall name d, mapstructure.elements v = None ->
            mapstructure.field d "keys" = Some v -> keysFromMap name d
            = (None, [mapstructure.qualify name "keys"])) as Hbad.
  { intros name d He Hf. unfold keysFromMap, mapstructure.decodeField. rewrite Hf.
    destruct v; try discriminate He; try contradiction; reflexivity. }
  split.
  - intro He. split; [|split].
    + intros Hlist Hkeys.
      rewrite (ListSecrets_run_cubbyhole s cl path _ Hpath Hcl Hlist).
      rewrite (noData_entries env (field_some_nonempty _ _ _ Hkeys)).
      unfold mapstructure.Decode, mapstructure.decodeStruct; cbn [dataOf vault.Data].
      now rewrite (Hbad "" env He Hkeys).
    + intros Hlist Hkeys.
      rewrite (ListSecrets_run_kv1 s cl path _ Hpath Hcl Hlist).
      rewrite (noData_entries env (field_some_nonempty _ _ _ Hkeys)).
      unfold mapstructure.Decode, mapstructure.decodeStruct; cbn [dataOf vault.Data].
      now rewrite (Hbad "" env He Hkeys).
    + intros Hlist Hdata Hkeys.
      rewrite (ListSecrets_run_kv2 s cl path _ Hpath Hcl Hlist).
      rewrite (noData_entries env (field_some_nonempty _ _ _ Hdata)).
      unfold mapstructure.Decode; cbn [dataOf vault.Data mapstructure.decodeStruct].
      unfold kv2.auxKeysFromMap, mapstructure.decodeField. rewrite Hdata.
      cbn [mapstructure.decode mapstructure.qualify String.eqb mapstructure.decodeStruct].
      now rewrite (Hbad _ inner He Hkeys).
  - intros Hmap Hlist Hdata.
    rewrite (ListSecrets_run_kv2 s cl path _ Hpath Hcl Hlist).
    rewrite (noData_entries env (field_some_nonempty _ _ _ Hdata)).
    unfold mapstructure.Decode; cbn [dataOf vault.Data mapstructure.decodeStruct].
    unfold kv2.auxKeysFromMap, mapstructure.decodeField. rewrite Hdata.
    destruct v; try contradiction; try reflexivity.
    exfalso. now apply (Hmap m).
Qed.

Lemma ListSecrets_wrong_shape_witness :
  fst (cubbyhole.ListSecrets "foo"
         (start (NewClient "" (Some (mock (envelope (Some [("keys", VString "a")])))))))
  = inl (mapstructure_Error ["keys"])
  /\ fst (kv2.ListSecrets "foo"
            (start (NewClient "" (Some (mock (envelope (Some [("data", VInt 1)])))))))
     = inl (mapstructure_Error ["Data"]).
Proof.
  split.
  - exact (proj1 (proj1 (ListSecrets_wrong_shape
                    (start (NewClient "" (Some (mock _)))) _ "foo"
                    [("keys", VString "a")] [] (VString "a")
                    ltac:(discriminate) eq_refl ltac:(discriminate)) eq_refl)
             eq_refl eq_refl).
  - exact (proj2 (ListSecrets_wrong_shape
                    (start (NewClient "" (Some (mock _)))) _ "foo"
                    [("data", VInt 1)] [] (VInt 1)
                    ltac:(discriminate) eq_refl ltac:(discriminate))
             ltac:(discriminate) eq_refl eq_refl).
Defined.

(** ** Decoding a version and a secret *)

Lemma kv2_ReadSecretVersion_run (s : State) (cl : vault.LogicalClient) (path : string)
    (version : Z) (secret : option vault.Secret) :
  path <> "" ->
  theClient s = Some cl ->
  answer cl (if -1 <? version
             then CallReadWithData (pathJoin [mountOr kv2.defaultMountPath s; "data"; path])
                    [("version", [Itoa version])]
             else CallRead (pathJoin [mountOr kv2.defaultMountPath s; "data"; path]))
  = (secret, None) ->
  fst (kv2.ReadSecretVersion path version s)
  = if noData secret then inr kv2.zeroSecret
    else mapstructure.Decode kv2.zeroSecret
           (kv2.auxFromMap kv2.zeroSecret kv2.SecretFromMap) (dataOf secret).
Proof.
  intros Hpath Hcl Hresp. unfold kv2.ReadSecretVersion.
  rewrite (kv2_prelude false _ _ path s cl Hpath Hcl), bind_eq.
  destruct (-1 <? version); rewrite (call_ok cl _ secret _ Hresp);
    (destruct (noData secret); [reflexivity|]);
    destruct (mapstructure.Decode _ _ _); reflexivity.
Qed.




Lemma assign_fresh {V} (acc : list (string * V)) (k : string) (v : V) :
  ~ In k (map fst acc) -> assign acc k v = (acc ++ [(k, v)])%list.
Proof.
  induction acc as [|[k' v'] acc IH]; intro H; [reflexivity|].
  cbn in *. destruct (String.eqb_spec k' k) as [E|E].
  - exfalso. apply H. now left.
  - rewrite IH; [reflexivity|]. intro Hin. apply H. now right.
Qed.

(** A map without repeated keys decodes into a [map[string]interface{}] as
    itself. *)
Lemma decodeEntries_basic (name : string) (d acc : dict) :
  NoDup (map fst acc ++ map fst d) ->
  mapstructure.decodeEntries VNil mapstructure.decodeBasic name d acc = ((acc ++ d)%list, []).
Proof.
  revert acc. induction d as [|[k v] d IH]; intros acc Hnd.
  - cbn. now rewrite app_nil_r.
  - assert (mapstructure.decode VNil mapstructure.decodeBasic (name ++ "[" ++ k ++ "]") v
            = (v, [])) as Hv by (destruct v; reflexivity).
    cbn [mapstructure.decodeEntries]. rewrite Hv.
    assert (~ In k (map fst acc)) as Hk.
    { cbn in Hnd. apply NoDup_remove_2 in Hnd. intro Hin. apply Hnd.
      apply in_or_app. now left. }
    rewrite (assign_fresh acc k v Hk), IH.
    + now rewrite <- app_assoc.
    + rewrite map_app, <- app_assoc. exact Hnd.
Qed.

Lemma decodeMap_basic (name : string) (data : gomap) :
  (forall d, data = Some d -> distinctKeys d) ->
  mapstructure.decode None (mapstructure.decodeMap VNil mapstructure.decodeBasic) name
    (VMap data)
  = (data, []).
Proof.
  intro Hd. cbn. destruct data as [d|]; [|reflexivity].
  now rewrite (decodeEntries_basic name d [] (Hd d eq_refl)).
Qed.

Lemma SecretVersionFromMap_fields (name : string) (md : dict) (b : bool) (n : Z) :
  mapstructure.field md "CreatedTime" = None ->
  mapstructure.field md "DeletionTime" = None ->
  mapstructure.field md "Destroyed" = Some (VBool b) ->
  mapstructure.field md "Version" = Some (VInt n) ->
  kv2.SecretVersionFromMap name md
  = ({| kv2.CreatedTime := kv2.zeroTime; kv2.DeletionTime := kv2.zeroTime;
        kv2.Destroyed := b; kv2.Version := n |}, []).
Proof.
  intros H1 H2 H3 H4. unfold kv2.SecretVersionFromMap, mapstructure.decodeField.
  now rewrite H1, H2, H3, H4.
Qed.

(** X20. [ReadSecretVersion] on a response whose envelope has, in its
    entry for [data], a map with the secret's content in its entry for
    [Data] and the version in its entry for [Metadata] (the decoder takes
    the keys [data] and [metadata] for them): the result holds the content
    map itself and the version's number and destroyed flag; the two times
    of the version stay zero. *)
Theorem kv2_ReadSecretVersion_decodes :
  forall (s : State) (cl : vault.LogicalClient) (path : string) (version : Z)
         (env inner md : dict) (data : gomap) (b : bool) (n : Z),
    path <> "" ->
    theClient s = Some cl ->
    answer cl (if -1 <? version
               then CallReadWithData
                      (pathJoin [mountOr kv2.defaultMountPath s; "data"; path])
                      [("version", [Itoa version])]
               else CallRead (pathJoin [mountOr kv2.defaultMountPath s; "data"; path]))
    = envelope (Some env) ->
    mapstructure.field env "data" = Some (VMap (Some inner)) ->
    mapstructure.field inner "Data" = Some (VMap data) ->
    (forall d, data = Some d -> distinctKeys d) ->
    mapstructure.field inner "Metadata" = Some (VMap (Some md)) ->
    mapstructure.field md "CreatedTime" = None ->
    mapstructure.field md "DeletionTime" = None ->
    mapstructure.field md "Destroyed" = Some (VBool b) ->
    mapstructure.field md "Version" = Some (VInt n) ->
    fst (kv2.ReadSecretVersion path version s)
    = inr {| kv2.Data := data;
             kv2.Metadata := {| kv2.CreatedTime := kv2.zeroTime;
                                kv2.DeletionTime := kv2.zeroTime;
                                kv2.Destroyed := b; kv2.Version := n |} |}.
Proof.
  intros s cl path version env inner md data b n Hpath Hcl Hresp Henv Hdata Hnd Hmeta
    H1 H2 H3 H4.
  rewrite (kv2_ReadSecretVersion_run s cl path version _ Hpath Hcl Hresp).
  rewrite (noData_entries env (field_some_nonempty _ _ _ Henv)).
  unfold mapstructure.Decode; cbn [dataOf vault.Data mapstructure.decodeStruct].
  unfold kv2.auxFromMap, mapstructure.decodeField. rewrite Henv.
  cbn [mapstructure.decode mapstructure.qualify String.eqb mapstructure.decodeStruct].
  unfold kv2.SecretFromMap, mapstructure.decodeField. rewrite Hdata, Hmeta.
  rewrite (decodeMap_basic _ data Hnd).
  cbn [mapstructure.decode kv2.decodeSecretVersion mapstructure.decodeStruct].
  now rewrite (SecretVersionFromMap_fields _ md b n H1 H2 H3 H4).
Qed.

Lemma kv2_ReadSecretVersion_decodes_witness :
  fst (kv2.ReadSecretVersion "foo" 2
         (start (NewClient ""
                   (Some (mock (envelope
                                  (Some [("data",
                                          VMap (Some [("data", VMap (Some [("foo", VString "bar")]));
                                                      ("metadata",
                                                       VMap (Some [("created_time", VString "2018-03-22T02:24:06Z");
                                                                   ("deletion_time", VString "");
                                                                   ("destroyed", VBool false);
                                                                   ("version", VInt 2)]))]))])))))))
  = inr {| kv2.Data := Some [("foo", VString "bar")];
           kv2.Metadata := {| kv2.CreatedTime := kv2.zeroTime; kv2.DeletionTime := kv2.zeroTime;
                              kv2.Destroyed := false; kv2.Version := 2 |} |}.
Proof.
  refine (kv2_ReadSecretVersion_decodes
            (start (NewClient "" (Some (mock _)))) _ "foo" 2
            [("data", VMap (Some [("data", VMap (Some [("foo", VString "bar")]));
                                  ("metadata",
                                   VMap (Some [("created_time", VString "2018-03-22T02:24:06Z");
                                               ("deletion_time", VString "");
                                               ("destroyed", VBool false);
                                               ("version", VInt 2)]))]))]
            [("data", VMap (Some [("foo", VString "bar")]));
             ("metadata", VMap (Some [("created_time", VString "2018-03-22T02:24:06Z");
                                      ("deletion_time", VString "");
                                      ("destroyed", VBool false);
                                      ("version", VInt 2)]))]
            [("created_time", VString "2018-03-22T02:24:06Z"); ("deletion_time", VString "");
             ("destroyed", VBool false); ("version", VInt 2)]
            (Some [("foo", VString "bar")]) false 2
            ltac:(discriminate) eq_refl eq_refl eq_refl eq_refl _ eq_refl eq_refl eq_refl
            eq_refl eq_refl).
  intros d [= <-]. unfold distinctKeys. cbn. constructor; [intros []|constructor].
Defined.



(** ** The engine configuration *)

(** X22. [EngineConfig] reads mount/config (the mount path as the client
    holds it) and, when the transport answers without error: a nil or
    zero-length envelope, and an envelope with no entry for [data] or a nil
    one, give the zero configuration; an entry for [data] that is neither
    nil nor a map gives a decode error; a map in it whose entries the
    decoder takes for [MaxVersions], [CASRequired] and
    [DeleteVersionAfter] hold an int, a bool and an int gives the
    configuration with these three values. *)
Theorem kv2_EngineConfig_decodes :
  forall (s : State) (cl : vault.LogicalClient) (secret : option vault.Secret),
    theClient s = Some cl ->
    vault.Read cl (pathJoin [mountPath (self s); "config"]) = (secret, None) ->
    issued kv2.EngineConfig s = [CallRead (pathJoin [mountPath (self s); "config"])]
    /\ (secret = None \/ (exists sec, secret = Some sec /\ len (vault.Data sec) = 0%nat) ->
        fst (kv2.EngineConfig s) = inr kv2.zeroSecretConfig)
    /\ (forall env, secret = Some {| vault.Data := Some env |} -> env <> [] ->
        (mapstructure.field env "data" = None \/ mapstructure.field env "data" = Some VNil ->
         fst (kv2.EngineConfig s) = inr kv2.zeroSecretConfig)
        /\ (forall v, mapstructure.field env "data" = Some v ->
                      v <> VNil -> (forall m, v <> VMap m) ->
                      fst (kv2.EngineConfig s) = inl (mapstructure_Error ["data"]))
        /\ (forall d n b t,
               mapstructure.field env "data" = Some (VMap (Some d)) ->
               mapstructure.field d "MaxVersions" = Some (VInt n) ->
               mapstructure.field d "CASRequired" = Some (VBool b) ->
               mapstructure.field d "DeleteVersionAfter" = Some (VInt t) ->
               fst (kv2.EngineConfig s)
               = inr {| kv2.MaxVersions := n; kv2.CASRequired := b;
                        kv2.DeleteVersionAfter := t |})).
Proof.
  intros s cl secret Hcl Hread.
  pose proof (kv2_EngineConfig_run s cl secret Hcl Hread) as Hrun.
  split; [|split].
  - apply (issued_one _ s (adopted cl s) _ eq_refl).
    unfold kv2.EngineConfig. rewrite bind_eq, (vaultClient_ok s cl Hcl).
    unfold bind, getMountPath; cbn.
    rewrite (call_ok cl (CallRead _) secret _ Hread).
    destruct (noData secret); [reflexivity|].
    destruct (mapstructure.Decode _ _ _); reflexivity.
  - intro Hempty. now rewrite Hrun, (noData_true _ Hempty).
  - intros env -> Henv. rewrite (noData_entries env Henv) in Hrun.
    cbn [dataOf vault.Data] in Hrun. rewrite Hrun.
    unfold mapstructure.Decode; cbn [mapstructure.decodeStruct].
    unfold kv2.auxFromMap, mapstructure.decodeField.
    split; [|split].
    + intros [-> | ->]; reflexivity.
    + intros v -> Hnil Hmap. destruct v; try contradiction; try reflexivity.
      exfalso. now apply (Hmap m).
    + intros d n b t -> H1 H2 H3.
      cbn [mapstructure.decode mapstructure.qualify String.eqb mapstructure.decodeStruct].
      unfold kv2.SecretConfigFromMap, mapstructure.decodeField.
      now rewrite H1, H2, H3.
Qed.

Lemma kv2_EngineConfig_decodes_witness :
  fst (kv2.EngineConfig
         (start (NewClient "/secret"
                   (Some (mock (envelope
                                  (Some [("data",
                                          VMap (Some [("MaxVersions", VInt 7);
                                                      ("CASRequired", VBool true);
                                                      ("DeleteVersionAfter", VInt 3600)]))])))))))
  = inr {| kv2.MaxVersions := 7; kv2.CASRequired := true; kv2.DeleteVersionAfter := 3600 |}
  /\ issued kv2.EngineConfig (start (NewClient "/secret" (Some (mock (None, None)))))
     = [CallRead (pathJoin ["/secret"; "config"])].
Proof.
  split.
  - pose proof (kv2_EngineConfig_decodes
                  (start (NewClient "/secret" (Some (mock _)))) _
                  (Some {| vault.Data :=
                             Some [("data", VMap (Some [("MaxVersions", VInt 7);
                                                        ("CASRequired", VBool true);
                                                        ("DeleteVersionAfter", VInt 3600)]))] |})
                  eq_refl eq_refl) as [_ [_ H]].
    exact (proj2 (proj2 (H _ eq_refl ltac:(discriminate)))
             _ 7 true 3600 eq_refl eq_refl eq_refl eq_refl).
  - exact (proj1 (kv2_EngineConfig_decodes
                    (start (NewClient "/secret" (Some (mock (None, None))))) _ None
                    eq_refl eq_refl)).
Defined.

(** What [json.Marshal] and [json.Unmarshal] make of a configuration: a
    map with an entry per field that is not zero, under the field's JSON
    name, numbers as float64. *)
Lemma written_config (cfg : kv2.SecretConfig) :
  exists d : dict,
    kv2.json_Unmarshal (kv2.json_Marshal cfg) = Some d
    /\ index d "max_versions"
       = (if kv2.MaxVersions cfg =? 0 then None
          else Some (VFloat (kv2.float64 (kv2.MaxVersions cfg))))
    /\ index d "cas_required" = (if kv2.CASRequired cfg then Some (VBool true) else None)
    /\ index d "delete_version_after"
       = (if kv2.DeleteVersionAfter cfg =? 0 then None
          else Some (VFloat (kv2.float64 (kv2.DeleteVersionAfter cfg))))
    /\ (forall k v, In (k, v) d ->
                    k = "max_versions" \/ k = "cas_required" \/ k = "delete_version_after").
Proof.
  destruct cfg as [mv cas dva]. unfold kv2.json_Marshal; cbn [kv2.MaxVersions
    kv2.CASRequired kv2.DeleteVersionAfter].
  destruct (mv =? 0), cas, (dva =? 0); eexists; (split; [reflexivity|]);
    repeat split; cbn; intros k v H;
    repeat match goal with H : _ \/ _ |- _ => destruct H as [H|H] end;
    try contradiction; injection H as <- _; auto.
Qed.

(** X23. [SetEngineConfig] and [WriteSecretMetadata] send the same payload
    for a configuration: a map with the entry [max_versions] exactly when
    [MaxVersions] is not zero, [cas_required] (true) exactly when
    [CASRequired] is set, [delete_version_after] exactly when
    [DeleteVersionAfter] is not zero, and no other entry; so the zero
    configuration is sent as an empty map.  [SetEngineConfig] writes it to
    the mount path as the client holds it joined with [config],
    [WriteSecretMetadata] to mount/metadata/path; both return the
    transport's error, unwrapped, or nil. *)
Theorem kv2_config_payload :
  forall (s : State) (cl : vault.LogicalClient) (path : string) (cfg : kv2.SecretConfig),
    theClient s = Some cl ->
    exists d : dict,
      (index d "max_versions"
       = (if kv2.MaxVersions cfg =? 0 then None
          else Some (VFloat (kv2.float64 (kv2.MaxVersions cfg))))
       /\ index d "cas_required" = (if kv2.CASRequired cfg then Some (VBool true) else None)
       /\ index d "delete_version_after"
          = (if kv2.DeleteVersionAfter cfg =? 0 then None
             else Some (VFloat (kv2.float64 (kv2.DeleteVersionAfter cfg))))
       /\ (forall k v, In (k, v) d ->
                       k = "max_versions" \/ k = "cas_required"
                       \/ k = "delete_version_after"))
      /\ (issued (kv2.SetEngineConfig cfg) s
          = [CallWrite (pathJoin [mountPath (self s); "config"]) (Some d)]
          /\ fst (kv2.SetEngineConfig cfg s)
             = verdict (vault.Write cl (pathJoin [mountPath (self s); "config"]) (Some d)))
      /\ (path <> "" ->
          issued (kv2.WriteSecretMetadata path cfg) s
          = [CallWrite (pathJoin [mountOr kv2.defaultMountPath s; "metadata"; path]) (Some d)]
          /\ fst (kv2.WriteSecretMetadata path cfg s)
             = verdict (vault.Write cl
                          (pathJoin [mountOr kv2.defaultMountPath s; "metadata"; path])
                          (Some d))).
Proof.
  intros s cl path cfg Hcl.
  destruct (written_config cfg) as [d [Hd Hidx]].
  exists d. split; [exact Hidx|]. split.
  - assert (kv2.SetEngineConfig cfg s
            = (verdict (vault.Write cl (pathJoin [mountPath (self s); "config"]) (Some d)),
               called (CallWrite (pathJoin [mountPath (self s); "config"]) (Some d))
                 (adopted cl s))) as E.
    { unfold kv2.SetEngineConfig. rewrite bind_eq, (vaultClient_ok s cl Hcl), Hd.
      unfold bind at 1. unfold getMountPath. cbn [fst snd].
      change (mountPath (self (adopted cl s))) with (mountPath (self s)).
      apply forward_run. }
    split; [exact (issued_called _ s (adopted cl s) _ _ eq_refl E) | now rewrite E].
  - intro Hpath.
    assert (kv2.WriteSecretMetadata path cfg s
            = (verdict (vault.Write cl
                          (pathJoin [mountOr kv2.defaultMountPath s; "metadata"; path])
                          (Some d)),
               called (CallWrite (pathJoin [mountOr kv2.defaultMountPath s; "metadata"; path])
                         (Some d))
                 (ready kv2.defaultMountPath cl s))) as E.
    { unfold kv2.WriteSecretMetadata.
      rewrite (kv2_prelude true _ _ path s cl Hpath Hcl), Hd. apply forward_run. }
    split; [exact (issued_called _ s (ready kv2.defaultMountPath cl s) _ _ eq_refl E)
           | now rewrite E].
Qed.

Lemma kv2_config_payload_witness :
  exists d : dict,
    index d "max_versions" = Some (VFloat (kv2.float64 5))
    /\ index d "cas_required" = None
    /\ issued (kv2.WriteSecretMetadata "foo"
                 {| kv2.MaxVersions := 5; kv2.CASRequired := false;
                    kv2.DeleteVersionAfter := 0 |})
         (start (NewClient "" (Some (mock (None, None)))))
       = [CallWrite (pathJoin ["/secret"; "metadata"; "foo"]) (Some d)].
Proof.
  destruct (kv2_config_payload (start (NewClient "" (Some (mock (None, None))))) _ "foo"
              {| kv2.MaxVersions := 5; kv2.CASRequired := false;
                 kv2.DeleteVersionAfter := 0 |} eq_refl)
    as [d [[H1 [H2 _]] [_ H4]]].
  exists d. split; [exact H1|]. split; [exact H2|].
  exact (proj1 (H4 ltac:(discriminate))).
Defined.

(** ** Deleting in the KVv2 client *)

(** X24. For a non-empty path, [DeleteSecretLatest] makes one [Delete] of
    mount/data/path and [DeleteSecretMetadata] one [Delete] of
    mount/metadata/path (the mount path defaulted when empty); each returns
    the transport's error, unwrapped, or nil. *)
Theorem kv2_deletes_forward :
  forall (s : State) (cl : vault.LogicalClient) (path : string),
    path <> "" ->
    theClient s = Some cl ->
    (issued (kv2.DeleteSecretLatest path) s
     = [CallDelete (pathJoin [mountOr kv2.defaultMountPath s; "data"; path])]
     /\ fst (kv2.DeleteSecretLatest path s)
        = verdict (vault.Delete cl (pathJoin [mountOr kv2.defaultMountPath s; "data"; path])))
    /\ (issued (kv2.DeleteSecretMetadata path) s
        = [CallDelete (pathJoin [mountOr kv2.defaultMountPath s; "metadata"; path])]
        /\ fst (kv2.DeleteSecretMetadata path s)
           = verdict (vault.Delete cl
                        (pathJoin [mountOr kv2.defaultMountPath s; "metadata"; path]))).
Proof.
  intros s cl path Hpath Hcl. split.
  - assert (kv2.DeleteSecretLatest path s
            = (verdict (vault.Delete cl
                          (pathJoin [mountOr kv2.defaultMountPath s; "data"; path])),
               called (CallDelete (pathJoin [mountOr kv2.defaultMountPath s; "data"; path]))
                 (ready kv2.defaultMountPath cl s))) as E.
    { unfold kv2.DeleteSecretLatest.
      rewrite (kv2_prelude false _ _ path s cl Hpath Hcl). apply forward_run. }
    split; [exact (issued_called _ s (ready kv2.defaultMountPath cl s) _ _ eq_refl E)
           | now rewrite E].
  - assert (kv2.DeleteSecretMetadata path s
            = (verdict (vault.Delete cl
                          (pathJoin [mountOr kv2.defaultMountPath s; "metadata"; path])),
               called (CallDelete (pathJoin [mountOr kv2.defaultMountPath s; "metadata"; path]))
                 (ready kv2.defaultMountPath cl s))) as E.
    { unfold kv2.DeleteSecretMetadata.
      rewrite (kv2_prelude true _ _ path s cl Hpath Hcl). apply forward_run. }
    split; [exact (issued_called _ s (ready kv2.defaultMountPath cl s) _ _ eq_refl E)
           | now rewrite E].
Qed.

Lemma kv2_deletes_forward_witness :
  issued (kv2.DeleteSecretLatest "foo") (start (NewClient "" (Some (mock (None, None)))))
  = [CallDelete (pathJoin ["/secret"; "data"; "foo"])]
  /\ issued (kv2.DeleteSecretMetadata "foo") (start (NewClient "" (Some (mock (None, None)))))
     = [CallDelete (pathJoin ["/secret"; "metadata"; "foo"])].
Proof.
  pose proof (kv2_deletes_forward (start (NewClient "" (Some (mock (None, None))))) _ "foo"
                ltac:(discriminate) eq_refl) as [[H1 _] [H2 _]].
  split; assumption.
Defined.

(** ** Times *)








(** ** The default clients *)

Lemma mountOr_set (dflt : string) (s : State) :
  mountPath (self s) <> "" -> mountOr dflt s = mountPath (self s).
Proof.
  intro H. unfold mountOr.
  destruct (String.eqb_spec (mountPath (self s)) "") as [E|E]; [contradiction|reflexivity].
Qed.

(** X26. The [DefaultClient] of each package (the client the package-level
    functions call) starts at its package's default mount path without a
    transport.  Whatever methods have been called on it, in whatever
    environment: its mount path is still the default, its transport is the
    one the environment gives (none when [api.NewClient] fails), and, when
    there is one, a read or a list on it goes to the default mount path
    joined with the path. *)
Theorem DefaultClient_sessions :
  forall (env : error + vault.LogicalClient) (path : string),
    (forall ops : list storeOp,
        let s := session cubbyhole_after ops
                   {| self := cubbyhole.DefaultClient; api_NewClient := env; calls := [] |} in
        mountPath (self s) = "/cubbyhole"
        /\ theClient s = match env with inr cl => Some cl | inl _ => None end
        /\ (path <> "" -> (exists cl, env = inr cl) ->
            issued (cubbyhole.ReadSecret path) s
            = [CallRead (pathJoin ["/cubbyhole"; path])]))
    /\ (forall ops : list storeOp,
           let s := session kv1_after ops
                      {| self := kv1.DefaultClient; api_NewClient := env; calls := [] |} in
           mountPath (self s) = "/secret"
           /\ theClient s = match env with inr cl => Some cl | inl _ => None end
           /\ (path <> "" -> (exists cl, env = inr cl) ->
               issued (kv1.ReadSecret path) s = [CallRead (pathJoin ["/secret"; path])]))
    /\ (forall ops : list kv2Op,
           let s := session kv2_after ops
                      {| self := kv2.DefaultClient; api_NewClient := env; calls := [] |} in
           mountPath (self s) = "/secret"
           /\ theClient s = match env with inr cl => Some cl | inl _ => None end
           /\ (path <> "" -> (exists cl, env = inr cl) ->
               issued (kv2.ListSecrets path) s
               = [CallList (pathJoin ["/secret"; "metadata"; path])])).
Proof.
  intros env path. split; [|split]; intros ops s.
  - destruct (session_invariant cubbyhole_after cubbyhole.defaultMountPath
                (fun o s => proj1 (cubbyhole_after_step o s))
                (fun o s => proj1 (proj2 (cubbyhole_after_step o s)))
                (fun o s => proj2 (proj2 (cubbyhole_after_step o s))) ops
                {| self := cubbyhole.DefaultClient; api_NewClient := env; calls := [] |})
      as [_ [Hm [Hc _]]].
    fold s in Hm, Hc. specialize (Hm ltac:(discriminate)). cbn in Hm.
    split; [exact Hm|]. split; [rewrite Hc; destruct env; reflexivity|].
    intros Hpath [cl ->].
    apply (issued_one _ s (ready cubbyhole.defaultMountPath cl s) _ eq_refl).
    unfold cubbyhole.ReadSecret.
    rewrite (cubbyhole_prelude _ _ path s cl Hpath Hc), bind_eq.
    rewrite (mountOr_set _ s) by (rewrite Hm; discriminate). rewrite Hm.
    match goal with |- context [call ?c ?k ?st] =>
      pose proof (call_calls c k st) as Hs; destruct (call c k st) as [[e|x] s2];
      cbn in Hs; subst s2 end; [reflexivity|].
    destruct (noData x); reflexivity.
  - destruct (session_invariant kv1_after kv1.defaultMountPath
                (fun o s => proj1 (kv1_after_step o s))
                (fun o s => proj1 (proj2 (kv1_after_step o s)))
                (fun o s => proj2 (proj2 (kv1_after_step o s))) ops
                {| self := kv1.DefaultClient; api_NewClient := env; calls := [] |})
      as [_ [Hm [Hc _]]].
    fold s in Hm, Hc. specialize (Hm ltac:(discriminate)). cbn in Hm.
    split; [exact Hm|]. split; [rewrite Hc; destruct env; reflexivity|].
    intros Hpath [cl ->].
    apply (issued_one _ s (ready kv1.defaultMountPath cl s) _ eq_refl).
    unfold kv1.ReadSecret.
    rewrite (kv1_prelude _ _ path s cl Hpath Hc), bind_eq.
    rewrite (mountOr_set _ s) by (rewrite Hm; discriminate). rewrite Hm.
    match goal with |- context [call ?c ?k ?st] =>
      pose proof (call_calls c k st) as Hs; destruct (call c k st) as [[e|x] s2];
      cbn in Hs; subst s2 end; [reflexivity|].
    destruct (noData x); reflexivity.
  - destruct (session_invariant kv2_after kv2.defaultMountPath
                (fun o s => proj1 (kv2_after_step o s))
                (fun o s => proj1 (proj2 (kv2_after_step o s)))
                (fun o s => proj2 (proj2 (kv2_after_step o s))) ops
                {| self := kv2.DefaultClient; api_NewClient := env; calls := [] |})
      as [_ [Hm [Hc _]]].
    fold s in Hm, Hc. specialize (Hm ltac:(discriminate)). cbn in Hm.
    split; [exact Hm|]. split; [rewrite Hc; destruct env; reflexivity|].
    intros Hpath [cl ->].
    destruct (kv2_metadata_lists s cl path Hpath Hc) as [_ Hl].
    rewrite Hl, (mountOr_set _ s) by (rewrite Hm; discriminate). now rewrite Hm.
Qed.

Lemma DefaultClient_sessions_witness :
  issued (cubbyhole.ReadSecret "some/nested/path")
    (session cubbyhole_after
       [OpListSecrets ""; OpWriteSecret "a" (Some [("foo", VString "bar")]); OpDeleteSecret "a"]
       {| self := cubbyhole.DefaultClient; api_NewClient := inr (mock (None, None));
          calls := [] |})
  = [CallRead (pathJoin ["/cubbyhole"; "some/nested/path"])].
Proof.
  exact (proj2 (proj2 (proj1 (DefaultClient_sessions (inr (mock (None, None)))
                                "some/nested/path")
                         [OpListSecrets ""; OpWriteSecret "a" (Some [("foo", VString "bar")]);
                          OpDeleteSecret "a"]))
           ltac:(discriminate) (ex_intro _ _ eq_refl)).
Defined.
